(** * libnciplugin: the NCI adapter core and the poll-side target data path

    A shallow embedding of [src/nci_adapter.c] and of the target data path
    ([nci_target.c]) together with the properties of the interface-match
    predicate, of the transmit completion path and of the adapter state
    machine.

    Conventions of the embedding:
    - a [guint8] array is a [list byte]; scalar [guint8]/[guint] fields
      and bit masks are [Z];
    - a [GUtilData] (pointer and size) is the [list byte] it designates, so
      that its [size] is the [length] of the list;
    - a nullable pointer is an [option];
    - a function pointer chosen among a few functions is an enumeration
      together with the function that applies it;
    - calls into the NCI core and into the NFC framework are recorded, in
      order, as a list of [Action]s; what such calls return is an input of
      the handler that makes them. *)

From Stdlib Require Import ZArith List Bool Lia.
From Stdlib Require Import Strings.Byte.
Import ListNotations.
Local Open Scope Z_scope.

(** ** Enumerations of [nci_types.h], as the [switch] statements of the
    sources list them *)

Inductive NCI_RF_INTERFACE : Type :=
| NCI_RF_INTERFACE_NFCEE_DIRECT
| NCI_RF_INTERFACE_FRAME
| NCI_RF_INTERFACE_ISO_DEP
| NCI_RF_INTERFACE_NFC_DEP
| NCI_RF_INTERFACE_PROPRIETARY.

Inductive NCI_PROTOCOL : Type :=
| NCI_PROTOCOL_UNDETERMINED
| NCI_PROTOCOL_T1T
| NCI_PROTOCOL_T2T
| NCI_PROTOCOL_T3T
| NCI_PROTOCOL_T5T
| NCI_PROTOCOL_ISO_DEP
| NCI_PROTOCOL_NFC_DEP
| NCI_PROTOCOL_PROPRIETARY.

(** [nci_target.c] spells the two ISO 15693 modes [NCI_MODE_PASSIVE_POLL_V]
    and [NCI_MODE_PASSIVE_LISTEN_V]. *)
Inductive NCI_MODE : Type :=
| NCI_MODE_PASSIVE_POLL_A
| NCI_MODE_PASSIVE_POLL_B
| NCI_MODE_PASSIVE_POLL_F
| NCI_MODE_ACTIVE_POLL_A
| NCI_MODE_ACTIVE_POLL_F
| NCI_MODE_PASSIVE_POLL_15693
| NCI_MODE_PASSIVE_LISTEN_A
| NCI_MODE_PASSIVE_LISTEN_B
| NCI_MODE_PASSIVE_LISTEN_F
| NCI_MODE_ACTIVE_LISTEN_A
| NCI_MODE_ACTIVE_LISTEN_F
| NCI_MODE_PASSIVE_LISTEN_15693.

Scheme Equality for NCI_RF_INTERFACE.
Scheme Equality for NCI_PROTOCOL.
Scheme Equality for NCI_MODE.

(** ** Byte buffers *)

Definition bytes : Type := list byte.

(** Equality of two arrays of one and the same array type, that is
    [!memcmp(a, b, sizeof(b))]. *)
Fixpoint array_eqb (a b : bytes) : bool :=
  match a, b with
  | [], [] => true
  | x :: a', y :: b' => Byte.eqb x y && array_eqb a' b'
  | _, _ => false
  end.

(** [!memcmp(p, q, n)]: the first [n] bytes at [p] and at [q] agree. *)
Definition memcmp_eq (p q : bytes) (n : nat) : bool :=
  array_eqb (firstn n p) (firstn n q).

(** [a[i]] for an index inside the array. *)
Definition byte_at (a : bytes) (i : nat) : byte := nth i a Byte.x00.

(** [a->size == b->size && (!b->size || !memcmp(a->bytes, b->bytes, b->size))],
    the comparison of a stored [GUtilData] with a pointer and length pair. *)
Definition data_matches (a b : bytes) : bool :=
  Nat.eqb (length a) (length b) &&
  (Nat.eqb (length b) 0 || memcmp_eq a b (length b)).

(** [gutil_data_equal] of libglibutil on two non-null [GUtilData]. *)
Definition gutil_data_equal (a b : bytes) : bool :=
  if Nat.eqb (length a) (length b)
  then Nat.eqb (length a) 0 || memcmp_eq a b (length a)
  else false.

(** ** Mode parameters ([NciModeParam]) and the activation notification *)

Record NciModeParamPollA : Type := {
  sens_res : bytes;
  nfcid1_len : Z;
  nfcid1 : bytes;
  sel_res_len : Z;
  sel_res : Z
}.

Record NciModeParamPollB : Type := {
  nfcid0 : bytes;
  fsc : Z;
  app_data : bytes;
  prot_info : bytes
}.

(** [NciModeParam] is a C union, read through the member that the mode
    selects.  The embedding keeps the two members that the match predicate
    reads as two views of the stored parameter. *)
Record NciModeParam : Type := {
  poll_a : NciModeParamPollA;
  poll_b : NciModeParamPollB
}.

Record NciIntfActivationNtf : Type := {
  ntf_rf_intf : NCI_RF_INTERFACE;
  ntf_protocol : NCI_PROTOCOL;
  ntf_mode : NCI_MODE;
  ntf_mode_param_bytes : bytes;
  ntf_mode_param : option NciModeParam;
  ntf_activation_param_bytes : bytes
}.

(** ** [NciAdapterIntfInfo] and the match predicate (nci_adapter.c) *)

Record NciAdapterIntfInfo : Type := {
  rf_intf : NCI_RF_INTERFACE;
  protocol : NCI_PROTOCOL;
  mode : NCI_MODE;
  mode_param : bytes;
  activation_param : bytes;
  mode_param_parsed : option NciModeParam
}.

Definition RANDOM_UID_SIZE : Z := 4.
Definition RANDOM_UID_START_BYTE : byte := Byte.x08.

Definition mode_param_match_poll_a (pa1 pa2 : NciModeParamPollA) : bool :=
  if (sel_res pa1 =? sel_res pa2) &&
     (sel_res_len pa1 =? sel_res_len pa2) &&
     (nfcid1_len pa1 =? nfcid1_len pa2) &&
     array_eqb (sens_res pa1) (sens_res pa2)
  then
    if (nfcid1_len pa1 =? RANDOM_UID_SIZE) &&
       Byte.eqb (byte_at (nfcid1 pa1) 0) (byte_at (nfcid1 pa2) 0) &&
       Byte.eqb (byte_at (nfcid1 pa2) 0) RANDOM_UID_START_BYTE
    then true
    else memcmp_eq (nfcid1 pa1) (nfcid1 pa2) (Z.to_nat (nfcid1_len pa2))
  else false.

Definition mode_param_match_poll_b (pb1 pb2 : NciModeParamPollB) : bool :=
  (fsc pb1 =? fsc pb2) &&
  array_eqb (app_data pb1) (app_data pb2) &&
  Nat.eqb (length (prot_info pb1)) (length (prot_info pb2)) &&
  gutil_data_equal (prot_info pb1) (prot_info pb2).

Definition nci_adapter_info_mode_params_matches
    (info : NciAdapterIntfInfo) (ntf : NciIntfActivationNtf) : bool :=
  let full_match := data_matches (mode_param info) (ntf_mode_param_bytes ntf) in
  match mode_param_parsed info, ntf_mode_param ntf with
  | Some mp1, Some mp2 =>
      match ntf_mode ntf with
      | NCI_MODE_PASSIVE_POLL_A =>
          match ntf_rf_intf ntf with
          | NCI_RF_INTERFACE_FRAME
          | NCI_RF_INTERFACE_ISO_DEP =>
              mode_param_match_poll_a (poll_a mp1) (poll_a mp2)
          | _ => full_match
          end
      | NCI_MODE_PASSIVE_POLL_B =>
          match ntf_rf_intf ntf with
          | NCI_RF_INTERFACE_ISO_DEP =>
              mode_param_match_poll_b (poll_b mp1) (poll_b mp2)
          | _ => full_match
          end
      | _ => full_match
      end
  | _, _ => full_match
  end.

Definition nci_adapter_intf_info_matches
    (info : option NciAdapterIntfInfo) (ntf : NciIntfActivationNtf) : bool :=
  match info with
  | None => false
  | Some info =>
      NCI_RF_INTERFACE_beq (rf_intf info) (ntf_rf_intf ntf) &&
      NCI_PROTOCOL_beq (protocol info) (ntf_protocol ntf) &&
      NCI_MODE_beq (mode info) (ntf_mode ntf) &&
      nci_adapter_info_mode_params_matches info ntf &&
      data_matches (activation_param info) (ntf_activation_param_bytes ntf)
  end.

(** The NFCID1 of a Poll A parameter: the [nfcid1_len] bytes that the
    [nfcid1] array holds. *)
Definition nfcid1_value (pa : NciModeParamPollA) : bytes :=
  firstn (Z.to_nat (nfcid1_len pa)) (nfcid1 pa).

(** The notification [ntf] of a Type B card whose UID and raw mode
    parameter bytes have become [uid] and [raw]. *)
Definition with_nfcid0 (uid raw : bytes) (ntf : NciIntfActivationNtf)
    : NciIntfActivationNtf :=
  {| ntf_rf_intf := ntf_rf_intf ntf;
     ntf_protocol := ntf_protocol ntf;
     ntf_mode := ntf_mode ntf;
     ntf_mode_param_bytes := raw;
     ntf_mode_param :=
       option_map
         (fun mp =>
            {| poll_a := poll_a mp;
               poll_b := {| nfcid0 := uid;
                            fsc := fsc (poll_b mp);
                            app_data := app_data (poll_b mp);
                            prot_info := prot_info (poll_b mp) |} |})
         (ntf_mode_param ntf);
     ntf_activation_param_bytes := ntf_activation_param_bytes ntf |}.

(** ** Declarations of the NFC framework and of the NCI core that the
    sources use by name only *)

Inductive NFC_TECHNOLOGY : Type :=
| NFC_TECHNOLOGY_UNKNOWN
| NFC_TECHNOLOGY_A
| NFC_TECHNOLOGY_B
| NFC_TECHNOLOGY_F.

Inductive NFC_PROTOCOL : Type :=
| NFC_PROTOCOL_UNKNOWN
| NFC_PROTOCOL_T1_TAG
| NFC_PROTOCOL_T2_TAG
| NFC_PROTOCOL_T3_TAG
| NFC_PROTOCOL_T4A_TAG
| NFC_PROTOCOL_T4B_TAG
| NFC_PROTOCOL_NFC_DEP.

Inductive NFC_TRANSMIT_STATUS : Type :=
| NFC_TRANSMIT_STATUS_OK
| NFC_TRANSMIT_STATUS_ERROR.

(** The RF states of the NCI core; [NCI_STATE_OTHER] stands for the values
    of [NCI_STATE] that [nci_adapter_next_state_changed] leaves to its
    [default] branch. *)
Inductive NCI_STATE : Type :=
| NCI_RFST_IDLE
| NCI_RFST_DISCOVERY
| NCI_RFST_W4_ALL_DISCOVERIES
| NCI_RFST_W4_HOST_SELECT
| NCI_RFST_POLL_ACTIVE
| NCI_RFST_LISTEN_ACTIVE
| NCI_RFST_LISTEN_SLEEP
| NCI_STATE_OTHER (v : Z).

(** The numeric constants and the helper of libncicore and of the framework
    headers.  The sources fix none of their values, so the development is
    parametric in them. *)
Class NciCoreDecls : Type := {
  NCI_STATIC_RF_CONN_ID : Z;
  NCI_STATUS_OK : byte;
  NCI_STATUS_RF_FRAME_CORRUPTED : byte;
  NCI_STATUS_STATUS_OK_1_BIT : byte;
  NCI_STATUS_STATUS_OK_2_BIT : byte;
  NCI_STATUS_STATUS_OK_3_BIT : byte;
  NCI_STATUS_STATUS_OK_4_BIT : byte;
  NCI_STATUS_STATUS_OK_5_BIT : byte;
  NCI_STATUS_STATUS_OK_6_BIT : byte;
  NCI_STATUS_STATUS_OK_7_BIT : byte;
  NCI_TECH_NONE : Z;
  NCI_TECH_A : Z;
  NCI_TECH_B : Z;
  NCI_TECH_F : Z;
  NCI_TECH_A_LISTEN : Z;
  NCI_TECH_B_LISTEN : Z;
  NCI_TECH_ALL : Z;
  (** the bits of [NFC_MODE] (of the framework) and of [NCI_OP_MODE] *)
  NFC_MODE_NONE : Z;
  NFC_MODE_READER_WRITER : Z;
  NFC_MODE_P2P_INITIATOR : Z;
  NFC_MODE_P2P_TARGET : Z;
  NFC_MODE_CARD_EMILATION : Z;
  NFC_OP_MODE_NONE : Z;
  NFC_OP_MODE_RW : Z;
  NFC_OP_MODE_PEER : Z;
  NFC_OP_MODE_CE : Z;
  NFC_OP_MODE_POLL : Z;
  NFC_OP_MODE_LISTEN : Z;
  (** the value of an [NCI_STATE] enumerator, for [>] *)
  nci_state_value : NCI_STATE -> Z;
  (** the bit of an [NFC_TECHNOLOGY] enumerator, for [&] *)
  nfc_technology_bit : NFC_TECHNOLOGY -> Z;
  nci_util_copy_mode_param : option NciModeParam -> NCI_MODE -> option NciModeParam
}.

(** What the sources call in the NCI core, in the framework and in GLib,
    recorded in call order.  Not recorded are [nfc_target_unref], which
    follows [nfc_target_gone] in [nci_adapter_drop_target], and the
    [g_object_ref] and [g_object_unref] around the handling of an
    activation. *)
Inductive Action : Type :=
| nfc_target_transmit_done (status : NFC_TRANSMIT_STATUS) (data : bytes)
| nci_core_send_data_msg (cid : Z) (data : bytes)
| nci_core_cancel (id : Z)
| nci_core_remove_all_handlers
| nci_core_set_state (state : NCI_STATE)
| nci_core_set_tech (tech : Z)
| nfc_target_cancel_transmit (target : nat) (id : Z)
| nfc_target_gone (target : nat)
| nfc_target_reactivated (target : option nat)
| nfc_initiator_gone (initiator : nat)
| nfc_initiator_reactivated (initiator : option nat)
| nfc_initiator_unref (initiator : nat)
| nfc_adapter_add_peer_initiator_a (target : nat)
| nfc_adapter_add_peer_initiator_f (target : nat)
| nfc_adapter_add_tag_t2 (target : nat)
| nfc_adapter_add_tag_t4a (target : nat)
| nfc_adapter_add_tag_t4b (target : nat)
| nfc_adapter_add_other_tag2 (target : nat)
| nfc_adapter_add_peer_target_a (initiator : nat)
| nfc_adapter_add_peer_target_f (initiator : nat)
| nfc_adapter_add_host (initiator : nat)
| nci_target_presence_check (target : nat)
| nfc_adapter_mode_notify (m : Z) (requested : bool)
| nci_core_set_op_mode (op_mode : Z).

(** ** The target data path (nci_target.c) *)

Definition ISO_DEP_TRANSMIT_TIMEOUT_MS : Z := 2500.

Inductive NciTargetPresenceCheckFunc : Type :=
| nci_target_presence_check_t2
| nci_target_presence_check_t4.

Inductive NciTargetTransmitFinishFunc : Type :=
| nci_target_transmit_finish_frame
| nci_target_transmit_finish_iso_dep
| nci_target_transmit_finish_nfc_dep.

(** [struct nci_target].  [adapter] tells whether the weak pointer to the
    adapter is set; [technology], [target_protocol] and [transmit_timeout]
    are the fields of the embedded [NfcTarget] that [nci_target_new] fills. *)
Record NciTarget : Type := {
  technology : NFC_TECHNOLOGY;
  target_protocol : NFC_PROTOCOL;
  transmit_timeout : Z;
  adapter : bool;
  send_in_progress : Z;
  transmit_in_progress : bool;
  pending_reply : option bytes;
  presence_check_fn : option NciTargetPresenceCheckFunc;
  transmit_finish_fn : option NciTargetTransmitFinishFunc
}.

Definition set_adapter (v : bool) (t : NciTarget) : NciTarget :=
  {| technology := technology t; target_protocol := target_protocol t;
     transmit_timeout := transmit_timeout t; adapter := v;
     send_in_progress := send_in_progress t;
     transmit_in_progress := transmit_in_progress t;
     pending_reply := pending_reply t;
     presence_check_fn := presence_check_fn t;
     transmit_finish_fn := transmit_finish_fn t |}.

Definition set_send_in_progress (v : Z) (t : NciTarget) : NciTarget :=
  {| technology := technology t; target_protocol := target_protocol t;
     transmit_timeout := transmit_timeout t; adapter := adapter t;
     send_in_progress := v;
     transmit_in_progress := transmit_in_progress t;
     pending_reply := pending_reply t;
     presence_check_fn := presence_check_fn t;
     transmit_finish_fn := transmit_finish_fn t |}.

Definition set_transmit_in_progress (v : bool) (t : NciTarget) : NciTarget :=
  {| technology := technology t; target_protocol := target_protocol t;
     transmit_timeout := transmit_timeout t; adapter := adapter t;
     send_in_progress := send_in_progress t;
     transmit_in_progress := v;
     pending_reply := pending_reply t;
     presence_check_fn := presence_check_fn t;
     transmit_finish_fn := transmit_finish_fn t |}.

Definition set_pending_reply (v : option bytes) (t : NciTarget) : NciTarget :=
  {| technology := technology t; target_protocol := target_protocol t;
     transmit_timeout := transmit_timeout t; adapter := adapter t;
     send_in_progress := send_in_progress t;
     transmit_in_progress := transmit_in_progress t;
     pending_reply := v;
     presence_check_fn := presence_check_fn t;
     transmit_finish_fn := transmit_finish_fn t |}.

Section TargetDataPath.

Context {decls : NciCoreDecls}.

(** The status values that the [switch] of the Frame function lists. *)
Definition frame_ok_statuses : list byte :=
  [NCI_STATUS_OK;
   NCI_STATUS_STATUS_OK_1_BIT; NCI_STATUS_STATUS_OK_2_BIT;
   NCI_STATUS_STATUS_OK_3_BIT; NCI_STATUS_STATUS_OK_4_BIT;
   NCI_STATUS_STATUS_OK_5_BIT; NCI_STATUS_STATUS_OK_6_BIT;
   NCI_STATUS_STATUS_OK_7_BIT].

Definition nci_target_cancel_send (self : NciTarget) : NciTarget * list Action :=
  if negb (send_in_progress self =? 0) then
    let cancel := if adapter self
                  then [nci_core_cancel (send_in_progress self)] else [] in
    let self := set_send_in_progress 0 self in
    match pending_reply self with
    | Some _ => (set_pending_reply None self, cancel)
    | None => (self, cancel)
    end
  else (self, []).

Definition nci_target_drop_adapter (self : NciTarget) : NciTarget * list Action :=
  if adapter self then
    let (self, cancel) := nci_target_cancel_send self in
    (set_adapter false self, cancel ++ [nci_core_remove_all_handlers])
  else (self, []).

(** The three [transmit_finish_fn]: the result and the calls made.  In the
    Frame function the [switch] over the accepted status values only picks
    a debug message, both of its branches go on to deliver the payload. *)
Definition transmit_finish
    (fn : NciTargetTransmitFinishFunc) (payload : bytes) : bool * list Action :=
  match fn with
  | nci_target_transmit_finish_frame =>
      if (0 <? Z.of_nat (length payload)) then
        let status := byte_at payload (length payload - 1) in
        if negb (Byte.eqb status NCI_STATUS_RF_FRAME_CORRUPTED) then
          (true, [nfc_target_transmit_done NFC_TRANSMIT_STATUS_OK
                    (firstn (length payload - 1) payload)])
        else (false, [])
      else (false, [])
  | nci_target_transmit_finish_iso_dep =>
      (true, [nfc_target_transmit_done NFC_TRANSMIT_STATUS_OK payload])
  | nci_target_transmit_finish_nfc_dep =>
      (true, [nfc_target_transmit_done NFC_TRANSMIT_STATUS_OK payload])
  end.

Definition nci_target_finish_transmit
    (self : NciTarget) (payload : bytes) : NciTarget * list Action :=
  let self := set_transmit_in_progress false self in
  match transmit_finish_fn self with
  | None => (self, [nfc_target_transmit_done NFC_TRANSMIT_STATUS_ERROR []])
  | Some fn =>
      let (ok, done) := transmit_finish fn payload in
      if ok then (self, done)
      else (self, done ++ [nfc_target_transmit_done NFC_TRANSMIT_STATUS_ERROR []])
  end.

Definition nci_target_data_sent
    (success : bool) (self : NciTarget) : NciTarget * list Action :=
  let self := set_send_in_progress 0 self in
  match pending_reply self with
  | Some reply =>
      nci_target_finish_transmit (set_pending_reply None self) reply
  | None => (self, [])
  end.

Definition nci_target_data_packet_handler
    (cid : Z) (data : bytes) (self : NciTarget) : NciTarget * list Action :=
  if (cid =? NCI_STATIC_RF_CONN_ID) && transmit_in_progress self &&
     match pending_reply self with None => true | Some _ => false end
  then
    if negb (send_in_progress self =? 0)
    then (set_pending_reply (Some data) self, [])
    else nci_target_finish_transmit self data
  else (self, []).

(** [nci_target_new]: the target built for an activation, or [None]. *)
Definition nci_target_new (ntf : NciIntfActivationNtf) : option NciTarget :=
  let tech :=
    match ntf_mode ntf with
    | NCI_MODE_PASSIVE_POLL_A | NCI_MODE_ACTIVE_POLL_A => NFC_TECHNOLOGY_A
    | NCI_MODE_PASSIVE_POLL_B => NFC_TECHNOLOGY_B
    | NCI_MODE_PASSIVE_POLL_F | NCI_MODE_ACTIVE_POLL_F => NFC_TECHNOLOGY_F
    | _ => NFC_TECHNOLOGY_UNKNOWN
    end in
  match tech with
  | NFC_TECHNOLOGY_UNKNOWN => None
  | _ =>
      let '(protocol, presence_check) :=
        match ntf_protocol ntf with
        | NCI_PROTOCOL_T1T => (NFC_PROTOCOL_T1_TAG, None)
        | NCI_PROTOCOL_T2T =>
            (NFC_PROTOCOL_T2_TAG, Some nci_target_presence_check_t2)
        | NCI_PROTOCOL_T3T => (NFC_PROTOCOL_T3_TAG, None)
        | NCI_PROTOCOL_ISO_DEP =>
            (match tech with
             | NFC_TECHNOLOGY_A => NFC_PROTOCOL_T4A_TAG
             | NFC_TECHNOLOGY_B => NFC_PROTOCOL_T4B_TAG
             | _ => NFC_PROTOCOL_UNKNOWN
             end, Some nci_target_presence_check_t4)
        | NCI_PROTOCOL_NFC_DEP => (NFC_PROTOCOL_NFC_DEP, None)
        | _ => (NFC_PROTOCOL_UNKNOWN, None)
        end in
      match protocol with
      | NFC_PROTOCOL_UNKNOWN => None
      | _ =>
          let '(transmit_finish, tx_timeout) :=
            match ntf_rf_intf ntf with
            | NCI_RF_INTERFACE_FRAME =>
                match ntf_protocol ntf with
                | NCI_PROTOCOL_NFC_DEP => (None, -1)
                | NCI_PROTOCOL_ISO_DEP => (None, -1)
                | _ => (Some nci_target_transmit_finish_frame, -1)
                end
            | NCI_RF_INTERFACE_ISO_DEP =>
                (Some nci_target_transmit_finish_iso_dep,
                 ISO_DEP_TRANSMIT_TIMEOUT_MS)
            | NCI_RF_INTERFACE_NFC_DEP =>
                (Some nci_target_transmit_finish_nfc_dep, 0)
            | _ => (None, -1)
            end in
          match transmit_finish with
          | Some fn =>
              Some {| technology := tech; target_protocol := protocol;
                      transmit_timeout := tx_timeout; adapter := true;
                      send_in_progress := 0; transmit_in_progress := false;
                      pending_reply := None;
                      presence_check_fn := presence_check;
                      transmit_finish_fn := Some fn |}
          | None => None
          end
      end
  end.

(** [nci_target_transmit]; [id] is what [nci_core_send_data_msg] returns. *)
Definition nci_target_transmit
    (data : bytes) (id : Z) (self : NciTarget) : bool * NciTarget * list Action :=
  if adapter self then
    let self := set_send_in_progress id self in
    let sent := [nci_core_send_data_msg NCI_STATIC_RF_CONN_ID data] in
    if negb (send_in_progress self =? 0)
    then (true, set_transmit_in_progress true self, sent)
    else (false, self, sent)
  else (false, self, []).

Definition nci_target_cancel_transmit (self : NciTarget) : NciTarget * list Action :=
  nci_target_cancel_send (set_transmit_in_progress false self).

Definition nci_target_gone (self : NciTarget) : NciTarget * list Action :=
  nci_target_drop_adapter self.

(** The calls that reach a target between its construction and its end:
    the methods that the framework invokes, the two callbacks of the NCI
    core, and the clearing of the weak pointer when the adapter dies. *)
Inductive TargetCall : Type :=
| CallTransmit (data : bytes) (id : Z)
| CallCancelTransmit
| CallGone
| CallDataSent (success : bool)
| CallDataPacket (cid : Z) (data : bytes)
| AdapterDestroyed.

(** One call.  [None] is a call that the two [GASSERT]s of
    [nci_target_transmit] and the one of [nci_target_data_sent] rule out. *)
Definition target_call (c : TargetCall) (self : NciTarget)
    : option (NciTarget * list Action) :=
  match c with
  | CallTransmit data id =>
      if (send_in_progress self =? 0) && negb (transmit_in_progress self)
      then let '(_, self', acts) := nci_target_transmit data id self in
           Some (self', acts)
      else None
  | CallCancelTransmit => Some (nci_target_cancel_transmit self)
  | CallGone => Some (nci_target_gone self)
  | CallDataSent success =>
      if negb (send_in_progress self =? 0)
      then Some (nci_target_data_sent success self)
      else None
  | CallDataPacket cid data =>
      Some (nci_target_data_packet_handler cid data self)
  | AdapterDestroyed => Some (set_adapter false self, [])
  end.

Inductive target_reachable : NciTarget -> Prop :=
| target_new : forall ntf self,
    nci_target_new ntf = Some self -> target_reachable self
| target_after : forall c self self' acts,
    target_reachable self ->
    target_call c self = Some (self', acts) ->
    target_reachable self'.

(** The relation between the three fields that holds between calls. *)
Definition reply_waits_for_send (self : NciTarget) : Prop :=
  pending_reply self <> None ->
  send_in_progress self <> 0 /\ transmit_in_progress self = true.

End TargetDataPath.

(** ** The adapter (nci_adapter.c) *)

Inductive NCI_ADAPTER_STATE : Type :=
| NCI_ADAPTER_IDLE
| NCI_ADAPTER_HAVE_TARGET
| NCI_ADAPTER_HAVE_INITIATOR
| NCI_ADAPTER_REACTIVATING_TARGET
| NCI_ADAPTER_REACTIVATING_CE
| NCI_ADAPTER_REACTIVATED_CE.

Definition PRESENCE_CHECK_PERIOD_MS : Z := 250.
Definition CE_REACTIVATION_TIMEOUT_MS : Z := 1500.

(** The fields of the parent [NfcAdapter] that the adapter reads. *)
Record NfcAdapter : Type := {
  enabled : bool;
  powered : bool;
  power_requested : bool
}.

(** The two public fields of [NciCore]. *)
Record NciCore : Type := {
  current_state : NCI_STATE;
  next_state : NCI_STATE
}.

(** A pointer to a target: its address, and the [NciTarget] as
    [nci_target_new] made it (the adapter reads [presence_check_fn] only,
    which never changes). *)
Record NfcTarget : Type := {
  target_ptr : nat;
  target_obj : NciTarget
}.

(** A pointer to an initiator: its address and its [technology] field. *)
Record NfcInitiator : Type := {
  initiator_ptr : nat;
  initiator_technology : NFC_TECHNOLOGY
}.

(** *** The operation mode

    The four fields of [struct nci_adapter_priv] that follow the mode
    requests of the framework, and the functions that read and write
    them.  These functions touch no other field of the adapter;
    [nci_adapter_mode_check] reads [current_state] of the core.
    [mode_check_id] is the id of the scheduled idle callback, 0 for
    none. *)
Record NciAdapterMode : Type := {
  desired_mode : Z;
  current_mode : Z;
  mode_change_pending : bool;
  mode_check_id : Z
}.

Section Mode.

Context {decls : NciCoreDecls}.

(** [gutil_source_clear] removes the idle callback, if any, and zeroes its
    id. *)
Definition nci_adapter_mode_check (core : NciCore) (priv : NciAdapterMode)
    : NciAdapterMode * list Action :=
  let m := if nci_state_value (current_state core) >? nci_state_value NCI_RFST_IDLE
           then desired_mode priv else NFC_MODE_NONE in
  if mode_change_pending priv then
    if m =? desired_mode priv then
      ({| desired_mode := desired_mode priv; current_mode := m;
          mode_change_pending := false; mode_check_id := 0 |},
       [nfc_adapter_mode_notify m true])
    else
      ({| desired_mode := desired_mode priv; current_mode := current_mode priv;
          mode_change_pending := true; mode_check_id := 0 |}, [])
  else if negb (current_mode priv =? m) then
    ({| desired_mode := desired_mode priv; current_mode := m;
        mode_change_pending := false; mode_check_id := 0 |},
     [nfc_adapter_mode_notify m false])
  else
    ({| desired_mode := desired_mode priv; current_mode := current_mode priv;
        mode_change_pending := false; mode_check_id := 0 |}, []).

(** [idle_id] is what [g_idle_add] returns. *)
Definition nci_adapter_schedule_mode_check (idle_id : Z) (priv : NciAdapterMode)
    : NciAdapterMode :=
  if mode_check_id priv =? 0 then
    {| desired_mode := desired_mode priv; current_mode := current_mode priv;
       mode_change_pending := mode_change_pending priv;
       mode_check_id := idle_id |}
  else priv.

Definition nci_adapter_mode_check_cb (core : NciCore) (priv : NciAdapterMode)
    : NciAdapterMode * list Action :=
  nci_adapter_mode_check core
    {| desired_mode := desired_mode priv; current_mode := current_mode priv;
       mode_change_pending := mode_change_pending priv; mode_check_id := 0 |}.

(** [powered] is the flag of the parent. *)
Definition nci_adapter_submit_mode_request
    (powered : bool) (idle_id : Z) (m : Z) (priv : NciAdapterMode)
    : bool * NciAdapterMode * list Action :=
  let add (bit : Z) (op : Z) (op_mode : Z) : Z :=
    if negb (Z.land m bit =? 0) then Z.lor op_mode op else op_mode in
  let op_mode :=
    add NFC_MODE_CARD_EMILATION (Z.lor NFC_OP_MODE_CE NFC_OP_MODE_LISTEN)
      (add NFC_MODE_P2P_TARGET (Z.lor NFC_OP_MODE_PEER NFC_OP_MODE_LISTEN)
         (add NFC_MODE_P2P_INITIATOR (Z.lor NFC_OP_MODE_PEER NFC_OP_MODE_POLL)
            (add NFC_MODE_READER_WRITER (Z.lor NFC_OP_MODE_RW NFC_OP_MODE_POLL)
               NFC_OP_MODE_NONE))) in
  (true,
   nci_adapter_schedule_mode_check idle_id
     {| desired_mode := m; current_mode := current_mode priv;
        mode_change_pending := true; mode_check_id := mode_check_id priv |},
   nci_core_set_op_mode op_mode ::
   (if negb (op_mode =? NFC_OP_MODE_NONE) && powered
    then [nci_core_set_state NCI_RFST_DISCOVERY] else [])).

Definition nci_adapter_cancel_mode_request (idle_id : Z) (priv : NciAdapterMode)
    : NciAdapterMode :=
  nci_adapter_schedule_mode_check idle_id
    {| desired_mode := desired_mode priv; current_mode := current_mode priv;
       mode_change_pending := false; mode_check_id := mode_check_id priv |}.

End Mode.

(** [struct nci_adapter] with its [struct nci_adapter_priv].  A GLib
    source id is [Some] of the interval the source was added with, the id 0
    is [None].  [mode_priv] holds the four mode fields.
    [supported_params] is left out: the function that writes it writes
    nothing else, and no function below reads it. *)
Record NciAdapter : Type := {
  parent : NfcAdapter;
  nci : option NciCore;
  target : option NfcTarget;
  presence_check_id : Z;
  presence_check_timer : option Z;
  active_intf : option NciAdapterIntfInfo;
  initiator : option NfcInitiator;
  internal_state : NCI_ADAPTER_STATE;
  ce_reactivation_timer : option Z;
  supported_techs : Z;
  active_techs : Z;
  active_tech_mask : Z;
  tag : option nat;
  host : option nat;
  peer : option nat;
  mode_priv : NciAdapterMode
}.

Definition set_parent (v : NfcAdapter) (a : NciAdapter) : NciAdapter :=
  {| parent := v; nci := nci a; target := target a;
     presence_check_id := presence_check_id a;
     presence_check_timer := presence_check_timer a;
     active_intf := active_intf a; initiator := initiator a;
     internal_state := internal_state a;
     ce_reactivation_timer := ce_reactivation_timer a;
     supported_techs := supported_techs a; active_techs := active_techs a;
     active_tech_mask := active_tech_mask a;
     tag := tag a; host := host a; peer := peer a;
     mode_priv := mode_priv a |}.

Definition set_nci (v : option NciCore) (a : NciAdapter) : NciAdapter :=
  {| parent := parent a; nci := v; target := target a;
     presence_check_id := presence_check_id a;
     presence_check_timer := presence_check_timer a;
     active_intf := active_intf a; initiator := initiator a;
     internal_state := internal_state a;
     ce_reactivation_timer := ce_reactivation_timer a;
     supported_techs := supported_techs a; active_techs := active_techs a;
     active_tech_mask := active_tech_mask a;
     tag := tag a; host := host a; peer := peer a;
     mode_priv := mode_priv a |}.

Definition set_target (v : option NfcTarget) (a : NciAdapter) : NciAdapter :=
  {| parent := parent a; nci := nci a; target := v;
     presence_check_id := presence_check_id a;
     presence_check_timer := presence_check_timer a;
     active_intf := active_intf a; initiator := initiator a;
     internal_state := internal_state a;
     ce_reactivation_timer := ce_reactivation_timer a;
     supported_techs := supported_techs a; active_techs := active_techs a;
     active_tech_mask := active_tech_mask a;
     tag := tag a; host := host a; peer := peer a;
     mode_priv := mode_priv a |}.

Definition set_presence_check_id (v : Z) (a : NciAdapter) : NciAdapter :=
  {| parent := parent a; nci := nci a; target := target a;
     presence_check_id := v;
     presence_check_timer := presence_check_timer a;
     active_intf := active_intf a; initiator := initiator a;
     internal_state := internal_state a;
     ce_reactivation_timer := ce_reactivation_timer a;
     supported_techs := supported_techs a; active_techs := active_techs a;
     active_tech_mask := active_tech_mask a;
     tag := tag a; host := host a; peer := peer a;
     mode_priv := mode_priv a |}.

Definition set_presence_check_timer (v : option Z) (a : NciAdapter) : NciAdapter :=
  {| parent := parent a; nci := nci a; target := target a;
     presence_check_id := presence_check_id a;
     presence_check_timer := v;
     active_intf := active_intf a; initiator := initiator a;
     internal_state := internal_state a;
     ce_reactivation_timer := ce_reactivation_timer a;
     supported_techs := supported_techs a; active_techs := active_techs a;
     active_tech_mask := active_tech_mask a;
     tag := tag a; host := host a; peer := peer a;
     mode_priv := mode_priv a |}.

Definition set_active_intf (v : option NciAdapterIntfInfo) (a : NciAdapter) : NciAdapter :=
  {| parent := parent a; nci := nci a; target := target a;
     presence_check_id := presence_check_id a;
     presence_check_timer := presence_check_timer a;
     active_intf := v; initiator := initiator a;
     internal_state := internal_state a;
     ce_reactivation_timer := ce_reactivation_timer a;
     supported_techs := supported_techs a; active_techs := active_techs a;
     active_tech_mask := active_tech_mask a;
     tag := tag a; host := host a; peer := peer a;
     mode_priv := mode_priv a |}.

Definition set_initiator (v : option NfcInitiator) (a : NciAdapter) : NciAdapter :=
  {| parent := parent a; nci := nci a; target := target a;
     presence_check_id := presence_check_id a;
     presence_check_timer := presence_check_timer a;
     active_intf := active_intf a; initiator := v;
     internal_state := internal_state a;
     ce_reactivation_timer := ce_reactivation_timer a;
     supported_techs := supported_techs a; active_techs := active_techs a;
     active_tech_mask := active_tech_mask a;
     tag := tag a; host := host a; peer := peer a;
     mode_priv := mode_priv a |}.

Definition set_state (v : NCI_ADAPTER_STATE) (a : NciAdapter) : NciAdapter :=
  {| parent := parent a; nci := nci a; target := target a;
     presence_check_id := presence_check_id a;
     presence_check_timer := presence_check_timer a;
     active_intf := active_intf a; initiator := initiator a;
     internal_state := v;
     ce_reactivation_timer := ce_reactivation_timer a;
     supported_techs := supported_techs a; active_techs := active_techs a;
     active_tech_mask := active_tech_mask a;
     tag := tag a; host := host a; peer := peer a;
     mode_priv := mode_priv a |}.

Definition set_ce_reactivation_timer (v : option Z) (a : NciAdapter) : NciAdapter :=
  {| parent := parent a; nci := nci a; target := target a;
     presence_check_id := presence_check_id a;
     presence_check_timer := presence_check_timer a;
     active_intf := active_intf a; initiator := initiator a;
     internal_state := internal_state a;
     ce_reactivation_timer := v;
     supported_techs := supported_techs a; active_techs := active_techs a;
     active_tech_mask := active_tech_mask a;
     tag := tag a; host := host a; peer := peer a;
     mode_priv := mode_priv a |}.

Definition set_active_techs (v : Z) (a : NciAdapter) : NciAdapter :=
  {| parent := parent a; nci := nci a; target := target a;
     presence_check_id := presence_check_id a;
     presence_check_timer := presence_check_timer a;
     active_intf := active_intf a; initiator := initiator a;
     internal_state := internal_state a;
     ce_reactivation_timer := ce_reactivation_timer a;
     supported_techs := supported_techs a; active_techs := v;
     active_tech_mask := active_tech_mask a;
     tag := tag a; host := host a; peer := peer a;
     mode_priv := mode_priv a |}.

Definition set_active_tech_mask (v : Z) (a : NciAdapter) : NciAdapter :=
  {| parent := parent a; nci := nci a; target := target a;
     presence_check_id := presence_check_id a;
     presence_check_timer := presence_check_timer a;
     active_intf := active_intf a; initiator := initiator a;
     internal_state := internal_state a;
     ce_reactivation_timer := ce_reactivation_timer a;
     supported_techs := supported_techs a; active_techs := active_techs a;
     active_tech_mask := v;
     tag := tag a; host := host a; peer := peer a;
     mode_priv := mode_priv a |}.

Definition set_tag (v : option nat) (a : NciAdapter) : NciAdapter :=
  {| parent := parent a; nci := nci a; target := target a;
     presence_check_id := presence_check_id a;
     presence_check_timer := presence_check_timer a;
     active_intf := active_intf a; initiator := initiator a;
     internal_state := internal_state a;
     ce_reactivation_timer := ce_reactivation_timer a;
     supported_techs := supported_techs a; active_techs := active_techs a;
     active_tech_mask := active_tech_mask a;
     tag := v; host := host a; peer := peer a;
     mode_priv := mode_priv a |}.

Definition set_host (v : option nat) (a : NciAdapter) : NciAdapter :=
  {| parent := parent a; nci := nci a; target := target a;
     presence_check_id := presence_check_id a;
     presence_check_timer := presence_check_timer a;
     active_intf := active_intf a; initiator := initiator a;
     internal_state := internal_state a;
     ce_reactivation_timer := ce_reactivation_timer a;
     supported_techs := supported_techs a; active_techs := active_techs a;
     active_tech_mask := active_tech_mask a;
     tag := tag a; host := v; peer := peer a;
     mode_priv := mode_priv a |}.

Definition set_peer (v : option nat) (a : NciAdapter) : NciAdapter :=
  {| parent := parent a; nci := nci a; target := target a;
     presence_check_id := presence_check_id a;
     presence_check_timer := presence_check_timer a;
     active_intf := active_intf a; initiator := initiator a;
     internal_state := internal_state a;
     ce_reactivation_timer := ce_reactivation_timer a;
     supported_techs := supported_techs a; active_techs := active_techs a;
     active_tech_mask := active_tech_mask a;
     tag := tag a; host := host a; peer := v;
     mode_priv := mode_priv a |}.

Definition set_mode_priv (v : NciAdapterMode) (a : NciAdapter) : NciAdapter :=
  {| parent := parent a; nci := nci a; target := target a;
     presence_check_id := presence_check_id a;
     presence_check_timer := presence_check_timer a;
     active_intf := active_intf a; initiator := initiator a;
     internal_state := internal_state a;
     ce_reactivation_timer := ce_reactivation_timer a;
     supported_techs := supported_techs a; active_techs := active_techs a;
     active_tech_mask := active_tech_mask a;
     tag := tag a; host := host a; peer := peer a;
     mode_priv := v |}.

(** *** The monad of the adapter's functions

    A function of the adapter reads and writes the adapter, makes calls,
    and may dereference a pointer: it maps the adapter to [None] when it
    dereferences a null pointer, and otherwise to its result, the new
    adapter and the calls it made. *)
Definition M (A : Type) : Type :=
  NciAdapter -> option (A * NciAdapter * list Action).

Definition ret {A : Type} (a : A) : M A := fun s => Some (a, s, []).

Definition bind {A B : Type} (m : M A) (k : A -> M B) : M B :=
  fun s =>
    match m s with
    | None => None
    | Some (a, s1, l1) =>
        match k a s1 with
        | None => None
        | Some (b, s2, l2) => Some (b, s2, l1 ++ l2)
        end
    end.

Definition get : M NciAdapter := fun s => Some (s, s, []).
Definition modify (f : NciAdapter -> NciAdapter) : M unit :=
  fun s => Some (tt, f s, []).
Definition call (a : Action) : M unit := fun s => Some (tt, s, [a]).
Definition null_dereference {A : Type} : M A := fun _ => None.

Declare Scope adapter_scope.
Delimit Scope adapter_scope with adapter.
Notation "x <- m ;; k" := (bind m (fun x => k))
  (at level 61, m at next level, right associativity) : adapter_scope.
Notation "m ;; k" := (bind m (fun _ => k))
  (at level 61, right associativity) : adapter_scope.
Local Open Scope adapter_scope.

(** [if (c) { m }] *)
Definition when (c : bool) (m : M unit) : M unit := if c then m else ret tt.

Definition is_some {A : Type} (o : option A) : bool :=
  match o with Some _ => true | None => false end.

(** A call of a framework factory: the call is recorded, [result] is the
    object that the framework returns. *)
Definition factory (a : Action) (result : option nat) : M (option nat) :=
  call a ;; ret result.

(** What the framework and the allocator return during one activation:
    the address of the new [NciTarget], the initiator that
    [nci_initiator_new] (of nci_initiator.c) builds, and the objects that
    the factories of the framework hand back. *)
Record Framework : Type := {
  new_target_ptr : nat;
  new_initiator : option NfcInitiator;
  added_peer_initiator : option nat;
  added_known_tag : option nat;
  added_other_tag : option nat;
  added_peer_target : option nat;
  added_host : option nat
}.

Section Adapter.

Context {decls : NciCoreDecls}.

Definition nci_adapter_set_internal_state (state : NCI_ADAPTER_STATE) : M unit :=
  modify (set_state state).

Definition nci_adapter_intf_info_new (ntf : NciIntfActivationNtf)
    : NciAdapterIntfInfo :=
  {| rf_intf := ntf_rf_intf ntf;
     protocol := ntf_protocol ntf;
     mode := ntf_mode ntf;
     mode_param := ntf_mode_param_bytes ntf;
     activation_param := ntf_activation_param_bytes ntf;
     mode_param_parsed :=
       nci_util_copy_mode_param (ntf_mode_param ntf) (ntf_mode ntf) |}.

Definition nci_adapter_set_active_tag (v : option nat) : M (option nat) :=
  modify (set_tag v) ;; ret v.

Definition nci_adapter_set_active_peer (v : option nat) : M (option nat) :=
  modify (set_peer v) ;; ret v.

Definition nci_adapter_set_active_host (v : option nat) : M (option nat) :=
  modify (set_host v) ;; ret v.

Definition nci_adapter_clear_active_intf : M unit :=
  modify (set_active_intf None).

Definition nci_adapter_drop_target : M unit :=
  self <- get ;;
  match target self with
  | Some t =>
      modify (set_target None) ;;
      nci_adapter_clear_active_intf ;;
      modify (set_presence_check_timer None) ;;
      nci_adapter_set_active_peer None ;;
      nci_adapter_set_active_tag None ;;
      when (negb (presence_check_id self =? 0))
        (call (nfc_target_cancel_transmit (target_ptr t) (presence_check_id self)) ;;
         modify (set_presence_check_id 0)) ;;
      call (nfc_target_gone (target_ptr t))
  | None => ret tt
  end.

Definition nci_adapter_drop_initiator : M unit :=
  self <- get ;;
  match initiator self with
  | Some i =>
      modify (set_initiator None) ;;
      modify (set_active_tech_mask NCI_TECH_ALL) ;;
      nci_adapter_clear_active_intf ;;
      modify (set_ce_reactivation_timer None) ;;
      nci_adapter_set_active_peer None ;;
      nci_adapter_set_active_host None ;;
      call (nci_core_set_tech (active_techs self)) ;;
      call (nfc_initiator_gone (initiator_ptr i)) ;;
      call (nfc_initiator_unref (initiator_ptr i))
  | None => ret tt
  end.

Definition nci_adapter_drop_all : M unit :=
  nci_adapter_drop_target ;;
  nci_adapter_drop_initiator.

Definition nci_adapter_need_presence_checks (self : NciAdapter) : bool :=
  match target self, active_intf self with
  | Some _, Some intf => negb (NCI_PROTOCOL_beq (protocol intf) NCI_PROTOCOL_NFC_DEP)
  | _, _ => false
  end.

Definition same_target (self : NciAdapter) (t : option nat) : bool :=
  match target self, t with
  | Some mine, Some p => Nat.eqb (target_ptr mine) p
  | _, _ => false
  end.

Definition nci_adapter_deactivate_target (t : option nat) : M unit :=
  self <- get ;;
  when (same_target self t)
    (nci_adapter_drop_target ;;
     when (powered (parent self)) (call (nci_core_set_state NCI_RFST_DISCOVERY))).

Definition nci_adapter_deactivate_initiator (i : option nat) : M unit :=
  self <- get ;;
  match i, initiator self with
  | Some p, Some mine =>
      when (Nat.eqb (initiator_ptr mine) p)
        (nci_adapter_drop_initiator ;;
         when (powered (parent self)) (call (nci_core_set_state NCI_RFST_DISCOVERY)))
  | _, _ => ret tt
  end.

Definition nci_adapter_presence_check_done (t : option nat) (ok : bool) : M unit :=
  modify (set_presence_check_id 0) ;;
  when (negb ok) (nci_adapter_deactivate_target t).

(** The timer callback.  [allowed] tells whether the target has no sequence
    or one that allows presence checks, [id] is what [nfc_target_transmit]
    returns to the presence check function of the target.  The result is
    [true] for [G_SOURCE_CONTINUE]. *)
Definition nci_adapter_presence_check_timer (allowed : bool) (id : Z) : M bool :=
  self <- get ;;
  match target self with
  | None => null_dereference
  | Some t =>
      if (presence_check_id self =? 0) && allowed then
        started <- match presence_check_fn (target_obj t) with
                   | Some _ => call (nci_target_presence_check (target_ptr t)) ;; ret id
                   | None => ret 0
                   end ;;
        modify (set_presence_check_id started) ;;
        if started =? 0 then
          modify (set_presence_check_timer None) ;;
          call (nci_core_set_state NCI_RFST_DISCOVERY) ;;
          ret false
        else ret true
      else ret true
  end.

Definition is_rfst_idle (s : NCI_STATE) : bool :=
  match s with NCI_RFST_IDLE => true | _ => false end.

Definition nci_adapter_state_check : M unit :=
  self <- get ;;
  match nci self with
  | None => null_dereference
  | Some core =>
      when (is_rfst_idle (current_state core) && is_rfst_idle (next_state core))
        (when (enabled (parent self) && powered (parent self) &&
               power_requested (parent self))
           (call (nci_core_set_state NCI_RFST_DISCOVERY)))
  end.

Definition nci_adapter_create_known_tag
    (t : NfcTarget) (ntf : NciIntfActivationNtf) (fw : Framework) : M (option nat) :=
  found <- match ntf_protocol ntf with
           | NCI_PROTOCOL_T2T =>
               match ntf_rf_intf ntf with
               | NCI_RF_INTERFACE_FRAME =>
                   match ntf_mode ntf with
                   | NCI_MODE_PASSIVE_POLL_A
                   | NCI_MODE_ACTIVE_POLL_A =>
                       factory (nfc_adapter_add_tag_t2 (target_ptr t))
                         (added_known_tag fw)
                   | _ => ret None
                   end
               | _ => ret None
               end
           | NCI_PROTOCOL_ISO_DEP =>
               match ntf_rf_intf ntf with
               | NCI_RF_INTERFACE_ISO_DEP =>
                   match ntf_mode ntf with
                   | NCI_MODE_PASSIVE_POLL_A =>
                       factory (nfc_adapter_add_tag_t4a (target_ptr t))
                         (added_known_tag fw)
                   | NCI_MODE_PASSIVE_POLL_B =>
                       factory (nfc_adapter_add_tag_t4b (target_ptr t))
                         (added_known_tag fw)
                   | _ => ret None
                   end
               | _ => ret None
               end
           | _ => ret None
           end ;;
  nci_adapter_set_active_tag found.

Definition nci_adapter_create_peer_initiator
    (t : NfcTarget) (ntf : NciIntfActivationNtf) (fw : Framework) : M (option nat) :=
  found <- match ntf_protocol ntf with
           | NCI_PROTOCOL_NFC_DEP =>
               match ntf_rf_intf ntf with
               | NCI_RF_INTERFACE_NFC_DEP =>
                   match ntf_mode ntf with
                   | NCI_MODE_ACTIVE_POLL_A
                   | NCI_MODE_PASSIVE_POLL_A =>
                       factory (nfc_adapter_add_peer_initiator_a (target_ptr t))
                         (added_peer_initiator fw)
                   | NCI_MODE_ACTIVE_POLL_F
                   | NCI_MODE_PASSIVE_POLL_F =>
                       factory (nfc_adapter_add_peer_initiator_f (target_ptr t))
                         (added_peer_initiator fw)
                   | _ => ret None
                   end
               | _ => ret None
               end
           | _ => ret None
           end ;;
  nci_adapter_set_active_peer found.

Definition nci_adapter_create_peer_target
    (i : NfcInitiator) (ntf : NciIntfActivationNtf) (fw : Framework) : M (option nat) :=
  found <- match ntf_rf_intf ntf with
           | NCI_RF_INTERFACE_NFC_DEP =>
               match ntf_mode ntf with
               | NCI_MODE_ACTIVE_LISTEN_A
               | NCI_MODE_PASSIVE_LISTEN_A =>
                   factory (nfc_adapter_add_peer_target_a (initiator_ptr i))
                     (added_peer_target fw)
               | NCI_MODE_PASSIVE_LISTEN_F
               | NCI_MODE_ACTIVE_LISTEN_F =>
                   factory (nfc_adapter_add_peer_target_f (initiator_ptr i))
                     (added_peer_target fw)
               | _ => ret None
               end
           | _ => ret None
           end ;;
  nci_adapter_set_active_peer found.

Definition nci_adapter_create_host
    (i : NfcInitiator) (ntf : NciIntfActivationNtf) (fw : Framework) : M (option nat) :=
  found <- match ntf_rf_intf ntf with
           | NCI_RF_INTERFACE_ISO_DEP =>
               factory (nfc_adapter_add_host (initiator_ptr i)) (added_host fw)
           | _ => ret None
           end ;;
  nci_adapter_set_active_host found.

(** *** State machine events *)

Definition nci_adapter_ce_reactivation_timeout : M unit :=
  modify (set_ce_reactivation_timer None) ;;
  nci_adapter_set_internal_state NCI_ADAPTER_IDLE ;;
  nci_adapter_drop_all.

Definition nci_adapter_start_ce_reactivation_timer : M unit :=
  modify (set_ce_reactivation_timer (Some CE_REACTIVATION_TIMEOUT_MS)).

(** The [switch] over [internal_state] at the start of
    [nci_adapter_activation]. *)
Definition nci_adapter_activation_update_state (ntf : NciIntfActivationNtf) : M unit :=
  self <- get ;;
  match internal_state self with
  | NCI_ADAPTER_IDLE => ret tt
  | NCI_ADAPTER_HAVE_TARGET =>
      nci_adapter_set_internal_state NCI_ADAPTER_IDLE ;;
      nci_adapter_drop_target
  | NCI_ADAPTER_HAVE_INITIATOR =>
      if nci_adapter_intf_info_matches (active_intf self) ntf then
        when (is_some (host self))
          (nci_adapter_set_internal_state NCI_ADAPTER_REACTIVATED_CE ;;
           call (nfc_initiator_reactivated (option_map initiator_ptr (initiator self))))
      else
        nci_adapter_set_internal_state NCI_ADAPTER_IDLE ;;
        nci_adapter_drop_initiator
  | NCI_ADAPTER_REACTIVATING_CE
  | NCI_ADAPTER_REACTIVATED_CE =>
      if nci_adapter_intf_info_matches (active_intf self) ntf then
        match internal_state self with
        | NCI_ADAPTER_REACTIVATED_CE => ret tt
        | _ => nci_adapter_set_internal_state NCI_ADAPTER_REACTIVATED_CE
        end ;;
        call (nfc_initiator_reactivated (option_map initiator_ptr (initiator self)))
      else
        nci_adapter_set_internal_state NCI_ADAPTER_IDLE ;;
        nci_adapter_drop_initiator
  | NCI_ADAPTER_REACTIVATING_TARGET =>
      if nci_adapter_intf_info_matches (active_intf self) ntf then
        nci_adapter_set_internal_state NCI_ADAPTER_HAVE_TARGET ;;
        call (nfc_target_reactivated (option_map target_ptr (target self)))
      else
        nci_adapter_set_internal_state NCI_ADAPTER_IDLE ;;
        nci_adapter_drop_target
  end.

(** The object detection of [nci_adapter_activation]. *)
Definition nci_adapter_activation_detect
    (ntf : NciIntfActivationNtf) (fw : Framework) : M unit :=
  self <- get ;;
  when (negb (is_some (target self)) && negb (is_some (initiator self)))
    match nci_target_new ntf with
    | Some obj =>
        let t := {| target_ptr := new_target_ptr fw; target_obj := obj |} in
        modify (set_target (Some t)) ;;
        nci_adapter_set_internal_state NCI_ADAPTER_HAVE_TARGET ;;
        p <- nci_adapter_create_peer_initiator t ntf fw ;;
        when (negb (is_some p))
          (modify (set_active_intf (Some (nci_adapter_intf_info_new ntf))) ;;
           known <- nci_adapter_create_known_tag t ntf fw ;;
           when (negb (is_some known))
             (other <- factory (nfc_adapter_add_other_tag2 (target_ptr t))
                         (added_other_tag fw) ;;
              nci_adapter_set_active_tag other ;; ret tt))
    | None =>
        match new_initiator fw with
        | Some i =>
            p <- nci_adapter_create_peer_target i ntf fw ;;
            h <- (if is_some p then ret p else nci_adapter_create_host i ntf fw) ;;
            if is_some h then
              modify (set_initiator (Some i)) ;;
              modify (set_active_intf (Some (nci_adapter_intf_info_new ntf))) ;;
              nci_adapter_set_internal_state NCI_ADAPTER_HAVE_INITIATOR
            else
              call (nfc_initiator_unref (initiator_ptr i))
        | None => ret tt
        end
    end.

Definition nci_adapter_activation
    (ntf : NciIntfActivationNtf) (fw : Framework) : M unit :=
  modify (set_ce_reactivation_timer None) ;;
  nci_adapter_activation_update_state ntf ;;
  nci_adapter_activation_detect ntf fw ;;
  self <- get ;;
  (if nci_adapter_need_presence_checks self then
     when (negb (is_some (presence_check_timer self)))
       (modify (set_presence_check_timer (Some PRESENCE_CHECK_PERIOD_MS)))
   else modify (set_presence_check_timer None)) ;;
  when (negb (is_some (target self)) && negb (is_some (initiator self)))
    (call (nci_core_set_state NCI_RFST_IDLE)).

Definition nci_adapter_deactivation : M unit :=
  self <- get ;;
  let drop := nci_adapter_set_internal_state NCI_ADAPTER_IDLE ;;
              nci_adapter_drop_all in
  match internal_state self with
  | NCI_ADAPTER_REACTIVATING_TARGET => ret tt
  | NCI_ADAPTER_REACTIVATING_CE => ret tt
  | NCI_ADAPTER_REACTIVATED_CE =>
      nci_adapter_set_internal_state NCI_ADAPTER_REACTIVATING_CE ;;
      nci_adapter_start_ce_reactivation_timer
  | NCI_ADAPTER_HAVE_INITIATOR =>
      if is_some (host self) then
        match initiator self with
        | None => null_dereference
        | Some i =>
            let ce_tech :=
              match initiator_technology i with
              | NFC_TECHNOLOGY_A => NCI_TECH_A_LISTEN
              | NFC_TECHNOLOGY_B => NCI_TECH_B_LISTEN
              | NFC_TECHNOLOGY_F
              | NFC_TECHNOLOGY_UNKNOWN => NCI_TECH_NONE
              end in
            nci_adapter_set_internal_state NCI_ADAPTER_REACTIVATING_CE ;;
            nci_adapter_start_ce_reactivation_timer ;;
            when (negb (ce_tech =? 0))
              (modify (set_active_tech_mask ce_tech) ;;
               call (nci_core_set_tech (Z.land (active_techs self) ce_tech)))
        end
      else drop
  | NCI_ADAPTER_IDLE
  | NCI_ADAPTER_HAVE_TARGET => drop
  end.

(** *** Callbacks of the NCI core and entry points of the framework *)

(** A function of the mode fields, run on the adapter. *)
Definition on_mode_priv (f : NciAdapterMode -> NciAdapterMode * list Action)
    : M unit :=
  fun self =>
    let '(priv, calls) := f (mode_priv self) in
    Some (tt, set_mode_priv priv self, calls).

(** [nci_adapter_mode_check(self)], which reads [self->nci->current_state]. *)
Definition mode_check : M unit :=
  self <- get ;;
  match nci self with
  | None => null_dereference
  | Some core => on_mode_priv (nci_adapter_mode_check core)
  end.

Definition nci_adapter_next_state_changed : M unit :=
  self <- get ;;
  match nci self with
  | None => null_dereference
  | Some core =>
      match next_state core with
      | NCI_RFST_IDLE =>
          when (nci_state_value (current_state core) >? nci_state_value NCI_RFST_IDLE)
            nci_adapter_deactivation
      | NCI_RFST_DISCOVERY =>
          when (negb (is_rfst_idle (current_state core)))
            nci_adapter_deactivation
      | NCI_RFST_W4_ALL_DISCOVERIES
      | NCI_RFST_W4_HOST_SELECT
      | NCI_RFST_POLL_ACTIVE
      | NCI_RFST_LISTEN_ACTIVE
      | NCI_RFST_LISTEN_SLEEP => ret tt
      | NCI_STATE_OTHER _ =>
          nci_adapter_set_internal_state NCI_ADAPTER_IDLE ;;
          nci_adapter_drop_all
      end ;;
      nci_adapter_state_check ;;
      mode_check
  end.

Definition nci_adapter_current_state_changed : M unit :=
  nci_adapter_state_check ;;
  mode_check.

Definition is_rfst_poll_active (s : NCI_STATE) : bool :=
  match s with NCI_RFST_POLL_ACTIVE => true | _ => false end.

Definition is_rfst_listen_active (s : NCI_STATE) : bool :=
  match s with NCI_RFST_LISTEN_ACTIVE => true | _ => false end.

Definition nci_adapter_reactivate (t : option nat) : M bool :=
  self <- get ;;
  if same_target self t then
    match nci self with
    | Some core =>
        if is_some (active_intf self) &&
           match internal_state self with
           | NCI_ADAPTER_HAVE_TARGET => true
           | _ => false
           end &&
           ((is_rfst_poll_active (current_state core) &&
             is_rfst_poll_active (next_state core)) ||
            (is_rfst_listen_active (current_state core) &&
             is_rfst_listen_active (next_state core)))
        then
          nci_adapter_set_internal_state NCI_ADAPTER_REACTIVATING_TARGET ;;
          modify (set_presence_check_timer None) ;;
          call (nci_core_set_state NCI_RFST_DISCOVERY) ;;
          ret true
        else ret false
    | None => ret false
    end
  else ret false.

Definition nci_adapter_set_allowed_techs (techs : Z) : M unit :=
  self <- get ;;
  let affected_techs := Z.lor (Z.lor NCI_TECH_A NCI_TECH_B) NCI_TECH_F in
  let allow (t : NFC_TECHNOLOGY) (bit : Z) (active : Z) : Z :=
    if negb (Z.land techs (nfc_technology_bit t) =? 0)
    then Z.lor active (Z.land (supported_techs self) bit)
    else active in
  let active :=
    allow NFC_TECHNOLOGY_F NCI_TECH_F
      (allow NFC_TECHNOLOGY_B NCI_TECH_B
         (allow NFC_TECHNOLOGY_A NCI_TECH_A
            (Z.land (supported_techs self) (Z.lnot affected_techs)))) in
  modify (set_active_techs active) ;;
  call (nci_core_set_tech (Z.land active (active_tech_mask self))).

(** [nci_adapter_init] followed by [nci_adapter_init_base]; [techs] is what
    [nci_core_get_tech] returns. *)
Definition nci_adapter_init (p : NfcAdapter) (core : NciCore) (techs : Z)
    : NciAdapter :=
  {| parent := p; nci := Some core; target := None;
     presence_check_id := 0; presence_check_timer := None;
     active_intf := None; initiator := None;
     internal_state := NCI_ADAPTER_IDLE;
     ce_reactivation_timer := None;
     supported_techs := techs; active_techs := techs;
     active_tech_mask := NCI_TECH_ALL;
     tag := None; host := None; peer := None;
     mode_priv := {| desired_mode := 0; current_mode := 0;
                     mode_change_pending := false; mode_check_id := 0 |} |}.

(** *** The adapter as a transition system

    The events that reach an adapter: the callbacks of the NCI core (which
    changes its two state fields before it signals), the two timers, the
    completion of a presence check, the entry points that the framework and
    the targets call, the changes of the parent's flags, the clearing of a
    weak pointer when the framework destroys its referent, [dispose], the
    two mode methods ([idle_id] is what [g_idle_add] returns), and the idle
    callback of the mode check. *)
Inductive Event : Type :=
| IntfActivated (ntf : NciIntfActivationNtf) (fw : Framework)
| NextStateChanged (core : NciCore)
| CurrentStateChanged (core : NciCore)
| CeReactivationTimeout
| PresenceCheckTimer (allowed : bool) (id : Z)
| PresenceCheckDone (t : option nat) (ok : bool)
| Reactivate (t : option nat)
| DeactivateTarget (t : option nat)
| DeactivateInitiator (i : option nat)
| SetAllowedTechs (techs : Z)
| ParentChanged (p : NfcAdapter)
| TagDestroyed
| PeerDestroyed
| HostDestroyed
| Dispose
| SubmitModeRequest (idle_id : Z) (m : Z)
| CancelModeRequest (idle_id : Z)
| ModeCheckIdle.

(** An event can occur: the core signals while the adapter holds it, a
    timer fires while it is armed, a presence check completes while one is
    in flight, the idle callback runs while it is scheduled
    ([nci_adapter_finalize_core] removes it before it frees the core). *)
Definition event_enabled (e : Event) (self : NciAdapter) : bool :=
  match e with
  | IntfActivated _ _
  | NextStateChanged _
  | CurrentStateChanged _ => is_some (nci self)
  | CeReactivationTimeout => is_some (ce_reactivation_timer self)
  | PresenceCheckTimer _ _ => is_some (presence_check_timer self)
  | PresenceCheckDone _ _ => negb (presence_check_id self =? 0)
  | ModeCheckIdle =>
      negb (mode_check_id (mode_priv self) =? 0) && is_some (nci self)
  | _ => true
  end.

Definition event_handler (e : Event) : M unit :=
  match e with
  | IntfActivated ntf fw => nci_adapter_activation ntf fw
  | NextStateChanged core =>
      modify (set_nci (Some core)) ;; nci_adapter_next_state_changed
  | CurrentStateChanged core =>
      modify (set_nci (Some core)) ;; nci_adapter_current_state_changed
  | CeReactivationTimeout => nci_adapter_ce_reactivation_timeout
  | PresenceCheckTimer allowed id =>
      nci_adapter_presence_check_timer allowed id ;; ret tt
  | PresenceCheckDone t ok => nci_adapter_presence_check_done t ok
  | Reactivate t => nci_adapter_reactivate t ;; ret tt
  | DeactivateTarget t => nci_adapter_deactivate_target t
  | DeactivateInitiator i => nci_adapter_deactivate_initiator i
  | SetAllowedTechs techs => nci_adapter_set_allowed_techs techs
  | ParentChanged p => modify (set_parent p)
  | TagDestroyed => modify (set_tag None)
  | PeerDestroyed => modify (set_peer None)
  | HostDestroyed => modify (set_host None)
  | Dispose => nci_adapter_drop_all
  | SubmitModeRequest idle_id m =>
      self <- get ;;
      on_mode_priv
        (fun priv =>
           let r :=
             nci_adapter_submit_mode_request (powered (parent self)) idle_id m priv in
           (snd (fst r), snd r))
  | CancelModeRequest idle_id =>
      on_mode_priv (fun priv => (nci_adapter_cancel_mode_request idle_id priv, []))
  | ModeCheckIdle =>
      self <- get ;;
      match nci self with
      | None => null_dereference
      | Some core => on_mode_priv (nci_adapter_mode_check_cb core)
      end
  end.

Definition adapter_event (e : Event) (self : NciAdapter)
    : option (NciAdapter * list Action) :=
  if event_enabled e self then
    match event_handler e self with
    | Some (_, self', acts) => Some (self', acts)
    | None => None
    end
  else None.

Fixpoint adapter_run (es : list Event) (self : NciAdapter)
    : option (NciAdapter * list Action) :=
  match es with
  | [] => Some (self, [])
  | e :: es' =>
      match adapter_event e self with
      | Some (self', acts) =>
          match adapter_run es' self' with
          | Some (self'', acts') => Some (self'', acts ++ acts')
          | None => None
          end
      | None => None
      end
  end.

Inductive adapter_reachable : NciAdapter -> Prop :=
| adapter_initial : forall p core techs,
    adapter_reachable (nci_adapter_init p core techs)
| adapter_after : forall e self self' acts,
    adapter_reachable self ->
    adapter_event e self = Some (self', acts) ->
    adapter_reachable self'.

End Adapter.

(** ** An instance of the declarations

    The values that the NCI specification and the headers of libncicore and
    of the framework give to the constants, with an [NCI_STATE] numbered in
    the order of its enumerators, a copy of the mode parameter that
    keeps it as it is, and one bit for each mode.  The instance serves the
    examples. *)
Definition nci_decls : NciCoreDecls :=
  {| NCI_STATIC_RF_CONN_ID := 0;
     NCI_STATUS_OK := Byte.x00;
     NCI_STATUS_RF_FRAME_CORRUPTED := Byte.x02;
     NCI_STATUS_STATUS_OK_1_BIT := Byte.x11;
     NCI_STATUS_STATUS_OK_2_BIT := Byte.x12;
     NCI_STATUS_STATUS_OK_3_BIT := Byte.x13;
     NCI_STATUS_STATUS_OK_4_BIT := Byte.x14;
     NCI_STATUS_STATUS_OK_5_BIT := Byte.x15;
     NCI_STATUS_STATUS_OK_6_BIT := Byte.x16;
     NCI_STATUS_STATUS_OK_7_BIT := Byte.x17;
     NCI_TECH_NONE := 0;
     NCI_TECH_A := 0x0f;
     NCI_TECH_B := 0x30;
     NCI_TECH_F := 0x3c0;
     NCI_TECH_A_LISTEN := 0x0c;
     NCI_TECH_B_LISTEN := 0x20;
     NCI_TECH_ALL := 0xfff;
     NFC_MODE_NONE := 0;
     NFC_MODE_P2P_INITIATOR := 0x01;
     NFC_MODE_READER_WRITER := 0x02;
     NFC_MODE_P2P_TARGET := 0x04;
     NFC_MODE_CARD_EMILATION := 0x08;
     NFC_OP_MODE_NONE := 0;
     NFC_OP_MODE_RW := 0x01;
     NFC_OP_MODE_PEER := 0x02;
     NFC_OP_MODE_CE := 0x04;
     NFC_OP_MODE_POLL := 0x08;
     NFC_OP_MODE_LISTEN := 0x10;
     nci_state_value := fun s =>
       match s with
       | NCI_RFST_IDLE => 3
       | NCI_RFST_DISCOVERY => 4
       | NCI_RFST_W4_ALL_DISCOVERIES => 5
       | NCI_RFST_W4_HOST_SELECT => 6
       | NCI_RFST_POLL_ACTIVE => 7
       | NCI_RFST_LISTEN_ACTIVE => 8
       | NCI_RFST_LISTEN_SLEEP => 9
       | NCI_STATE_OTHER v => v
       end;
     nfc_technology_bit := fun t =>
       match t with
       | NFC_TECHNOLOGY_UNKNOWN => 0
       | NFC_TECHNOLOGY_A => 1
       | NFC_TECHNOLOGY_B => 2
       | NFC_TECHNOLOGY_F => 4
       end;
     nci_util_copy_mode_param := fun mp _ => mp |}.

(** ** Example data *)

(** A Type 2 tag that answers with a random NFCID1. *)
Definition random_uid_ntf (uid : bytes) : NciIntfActivationNtf :=
  {| ntf_rf_intf := NCI_RF_INTERFACE_FRAME;
     ntf_protocol := NCI_PROTOCOL_T2T;
     ntf_mode := NCI_MODE_PASSIVE_POLL_A;
     ntf_mode_param_bytes := [Byte.x44; Byte.x00; Byte.x04] ++ uid ++ [Byte.x01; Byte.x00];
     ntf_mode_param :=
       Some {| poll_a := {| sens_res := [Byte.x44; Byte.x00];
                            nfcid1_len := 4;
                            nfcid1 := uid ++ repeat Byte.x00 6;
                            sel_res_len := 1;
                            sel_res := 0 |};
               poll_b := {| nfcid0 := []; fsc := 0; app_data := [];
                            prot_info := [] |} |};
     ntf_activation_param_bytes := [] |}.

(** A Type 4B card with the UID [uid]. *)
Definition type_4b_ntf (uid : bytes) : NciIntfActivationNtf :=
  {| ntf_rf_intf := NCI_RF_INTERFACE_ISO_DEP;
     ntf_protocol := NCI_PROTOCOL_ISO_DEP;
     ntf_mode := NCI_MODE_PASSIVE_POLL_B;
     ntf_mode_param_bytes :=
       [Byte.x0b; Byte.x50] ++ uid ++
       [Byte.x00; Byte.x00; Byte.x00; Byte.x00; Byte.x00; Byte.x81; Byte.x81];
     ntf_mode_param :=
       Some {| poll_a := {| sens_res := []; nfcid1_len := 0; nfcid1 := [];
                            sel_res_len := 0; sel_res := 0 |};
               poll_b := {| nfcid0 := uid;
                            fsc := 256;
                            app_data := [Byte.x00; Byte.x00; Byte.x00; Byte.x00];
                            prot_info := [Byte.x00; Byte.x81; Byte.x81] |} |};
     ntf_activation_param_bytes := [Byte.x01; Byte.x00] |}.

(** The target of a Type 2 tag, as [nci_target_new] builds it. *)
Definition t2_ntf : NciIntfActivationNtf :=
  {| ntf_rf_intf := NCI_RF_INTERFACE_FRAME;
     ntf_protocol := NCI_PROTOCOL_T2T;
     ntf_mode := NCI_MODE_PASSIVE_POLL_A;
     ntf_mode_param_bytes := [];
     ntf_mode_param := None;
     ntf_activation_param_bytes := [] |}.

Definition t2_target : NciTarget :=
  {| technology := NFC_TECHNOLOGY_A; target_protocol := NFC_PROTOCOL_T2_TAG;
     transmit_timeout := -1; adapter := true;
     send_in_progress := 0; transmit_in_progress := false;
     pending_reply := None;
     presence_check_fn := Some nci_target_presence_check_t2;
     transmit_finish_fn := Some nci_target_transmit_finish_frame |}.

(** The target of the Type 2 tag after [transmit] and a data packet that
    arrived before the completion of the send. *)
Definition t2_target_waiting : NciTarget :=
  set_pending_reply (Some [Byte.x90; Byte.x00])
    (set_transmit_in_progress true (set_send_in_progress 7 t2_target)).

(** The target of a Type 4A tag while a transmit is in flight and the send
    has not completed. *)
Definition t4a_target_sending : NciTarget :=
  {| technology := NFC_TECHNOLOGY_A; target_protocol := NFC_PROTOCOL_T4A_TAG;
     transmit_timeout := ISO_DEP_TRANSMIT_TIMEOUT_MS; adapter := true;
     send_in_progress := 7; transmit_in_progress := true;
     pending_reply := None;
     presence_check_fn := Some nci_target_presence_check_t4;
     transmit_finish_fn := Some nci_target_transmit_finish_iso_dep |}.

(** The adapters of the examples: the adapter after its initialisation,
    and the adapters that hold an NFC-DEP peer, a Type 2 tag and a card
    emulation host, with the events that lead to them. *)
Definition powered_parent : NfcAdapter :=
  {| enabled := true; powered := true; power_requested := true |}.

Definition core_in (s : NCI_STATE) : NciCore :=
  {| current_state := s; next_state := s |}.

(** The mode fields before any request. *)
Definition no_mode_request : NciAdapterMode :=
  {| desired_mode := 0; current_mode := 0;
     mode_change_pending := false; mode_check_id := 0 |}.

(** The adapter after [nci_adapter_init_base], the core being idle. *)
Definition fresh_adapter : NciAdapter :=
  nci_adapter_init (decls := nci_decls) powered_parent (core_in NCI_RFST_IDLE) 0xfff.

(** The activation of an NFC-DEP peer met in Poll A mode, for which the
    framework makes a peer. *)
Definition peer_ntf : NciIntfActivationNtf :=
  {| ntf_rf_intf := NCI_RF_INTERFACE_NFC_DEP;
     ntf_protocol := NCI_PROTOCOL_NFC_DEP;
     ntf_mode := NCI_MODE_PASSIVE_POLL_A;
     ntf_mode_param_bytes := [];
     ntf_mode_param := None;
     ntf_activation_param_bytes := [] |}.

Definition peer_framework : Framework :=
  {| new_target_ptr := 1; new_initiator := None;
     added_peer_initiator := Some 2%nat; added_known_tag := None;
     added_other_tag := None; added_peer_target := None;
     added_host := None |}.

Definition peer_events : list Event :=
  [CurrentStateChanged (core_in NCI_RFST_POLL_ACTIVE);
   IntfActivated peer_ntf peer_framework].

Definition nfc_dep_target : NciTarget :=
  {| technology := NFC_TECHNOLOGY_A; target_protocol := NFC_PROTOCOL_NFC_DEP;
     transmit_timeout := 0; adapter := true;
     send_in_progress := 0; transmit_in_progress := false;
     pending_reply := None;
     presence_check_fn := None;
     transmit_finish_fn := Some nci_target_transmit_finish_nfc_dep |}.

(** The adapter that holds the peer. *)
Definition peer_adapter : NciAdapter :=
  {| parent := powered_parent;
     nci := Some (core_in NCI_RFST_POLL_ACTIVE);
     target := Some {| target_ptr := 1; target_obj := nfc_dep_target |};
     presence_check_id := 0; presence_check_timer := None;
     active_intf := None; initiator := None;
     internal_state := NCI_ADAPTER_HAVE_TARGET;
     ce_reactivation_timer := None;
     supported_techs := 0xfff; active_techs := 0xfff;
     active_tech_mask := 0xfff;
     tag := None; host := None; peer := Some 2%nat;
     mode_priv := no_mode_request |}.

(** The activation of a Type 2 tag, for which the framework makes a tag. *)
Definition tag_framework : Framework :=
  {| new_target_ptr := 1; new_initiator := None;
     added_peer_initiator := None; added_known_tag := Some 2%nat;
     added_other_tag := None; added_peer_target := None;
     added_host := None |}.

Definition tag_events : list Event :=
  [CurrentStateChanged (core_in NCI_RFST_POLL_ACTIVE);
   IntfActivated t2_ntf tag_framework].

(** The adapter that holds the Type 2 tag. *)
Definition tag_adapter : NciAdapter :=
  {| parent := powered_parent;
     nci := Some (core_in NCI_RFST_POLL_ACTIVE);
     target := Some {| target_ptr := 1; target_obj := t2_target |};
     presence_check_id := 0;
     presence_check_timer := Some PRESENCE_CHECK_PERIOD_MS;
     active_intf := Some (nci_adapter_intf_info_new (decls := nci_decls) t2_ntf);
     initiator := None;
     internal_state := NCI_ADAPTER_HAVE_TARGET;
     ce_reactivation_timer := None;
     supported_techs := 0xfff; active_techs := 0xfff;
     active_tech_mask := 0xfff;
     tag := Some 2%nat; host := None; peer := None;
     mode_priv := no_mode_request |}.

(** The same adapter after the framework asked to reactivate the tag. *)
Definition reactivating_adapter : NciAdapter :=
  set_presence_check_timer None
    (set_state NCI_ADAPTER_REACTIVATING_TARGET tag_adapter).

(** The activation of a card emulation host by a Type A reader. *)
Definition ce_ntf : NciIntfActivationNtf :=
  {| ntf_rf_intf := NCI_RF_INTERFACE_ISO_DEP;
     ntf_protocol := NCI_PROTOCOL_ISO_DEP;
     ntf_mode := NCI_MODE_PASSIVE_LISTEN_A;
     ntf_mode_param_bytes := [];
     ntf_mode_param := None;
     ntf_activation_param_bytes := [Byte.x01; Byte.x80] |}.

Definition ce_framework : Framework :=
  {| new_target_ptr := 1;
     new_initiator := Some {| initiator_ptr := 3;
                              initiator_technology := NFC_TECHNOLOGY_A |};
     added_peer_initiator := None; added_known_tag := None;
     added_other_tag := None; added_peer_target := None;
     added_host := Some 4%nat |}.

Definition ce_events : list Event :=
  [CurrentStateChanged (core_in NCI_RFST_LISTEN_ACTIVE);
   IntfActivated ce_ntf ce_framework].

(** The adapter that holds the initiator and its host. *)
Definition ce_adapter : NciAdapter :=
  {| parent := powered_parent;
     nci := Some (core_in NCI_RFST_LISTEN_ACTIVE);
     target := None;
     presence_check_id := 0; presence_check_timer := None;
     active_intf := Some (nci_adapter_intf_info_new (decls := nci_decls) ce_ntf);
     initiator := Some {| initiator_ptr := 3;
                          initiator_technology := NFC_TECHNOLOGY_A |};
     internal_state := NCI_ADAPTER_HAVE_INITIATOR;
     ce_reactivation_timer := None;
     supported_techs := 0xfff; active_techs := 0xfff;
     active_tech_mask := 0xfff;
     tag := None; host := Some 4%nat; peer := None;
     mode_priv := no_mode_request |}.

(** The same adapter after the reader has left the field. *)
Definition ce_lost_core : NciCore :=
  {| current_state := NCI_RFST_LISTEN_ACTIVE; next_state := NCI_RFST_DISCOVERY |}.

Definition ce_reactivating_adapter : NciAdapter :=
  set_active_tech_mask 0x0c
    (set_ce_reactivation_timer (Some CE_REACTIVATION_TIMEOUT_MS)
       (set_state NCI_ADAPTER_REACTIVATING_CE
          (set_nci (Some ce_lost_core) ce_adapter))).

(** What follows when the reader comes back, the framework deactivates
    the initiator, and the reader leaves again: the adapter waits for a
    reactivation without an initiator. *)
Definition ce_released_events : list Event :=
  [IntfActivated ce_ntf ce_framework;
   DeactivateInitiator (Some 3%nat);
   NextStateChanged ce_lost_core].

Definition ce_released_adapter : NciAdapter :=
  set_ce_reactivation_timer (Some CE_REACTIVATION_TIMEOUT_MS)
    (set_state NCI_ADAPTER_REACTIVATING_CE
       (set_nci (Some ce_lost_core)
          (set_host None
             (set_active_intf None (set_initiator None ce_adapter))))).

(** ** Reasoning about the adapter's functions *)

(** [wp m Q s]: if [m] returns from the adapter [s], then [Q] holds of its
    result and of the adapter it leaves. *)
Definition wp {A : Type} (m : M A) (Q : A -> NciAdapter -> Prop)
    (s : NciAdapter) : Prop :=
  match m s with
  | Some (a, s', _) => Q a s'
  | None => True
  end.

(** The states of the poll side and of the listen side. *)
Definition is_target_state (st : NCI_ADAPTER_STATE) : Prop :=
  match st with
  | NCI_ADAPTER_HAVE_TARGET | NCI_ADAPTER_REACTIVATING_TARGET => True
  | _ => False
  end.

Definition is_initiator_state (st : NCI_ADAPTER_STATE) : Prop :=
  match st with
  | NCI_ADAPTER_HAVE_INITIATOR
  | NCI_ADAPTER_REACTIVATING_CE
  | NCI_ADAPTER_REACTIVATED_CE => True
  | _ => False
  end.

(** What holds of the adapter between two events. *)
Definition adapter_invariant (s : NciAdapter) : Prop :=
  (target s <> None -> initiator s = None /\ is_target_state (internal_state s)) /\
  (initiator s <> None -> is_initiator_state (internal_state s)) /\
  (active_intf s <> None -> target s <> None \/ initiator s <> None) /\
  (host s <> None -> initiator s <> None) /\
  (presence_check_timer s <> None -> nci_adapter_need_presence_checks s = true).

(** ** Functions that return

    [wpa m Q s]: [m] returns from the adapter [s], and [Q] holds of its
    result, of the adapter it leaves and of the calls it made. *)
Definition wpa {A : Type} (m : M A)
    (Q : A -> NciAdapter -> list Action -> Prop) (s : NciAdapter) : Prop :=
  match m s with
  | Some (a, s', l) => Q a s' l
  | None => False
  end.

(** The technologies given to the NCI core by a call are among [techs]. *)
Definition tech_call_within (techs : Z) (a : Action) : Prop :=
  match a with
  | nci_core_set_tech t => Z.land t techs = t
  | _ => True
  end.

(** The active technologies are among the supported ones. *)
Definition techs_supported (s : NciAdapter) : Prop :=
  Z.land (active_techs s) (supported_techs s) = active_techs s.

(** Which objects the adapter may hold together: a tag only with a target,
    a peer only with a target or an initiator, a technology mask other
    than [NCI_TECH_ALL] only with an initiator, and a presence check in
    flight only with a target. *)
Definition objects_owned {decls : NciCoreDecls} (s : NciAdapter) : Prop :=
  (tag s <> None -> target s <> None) /\
  (peer s <> None -> target s <> None \/ initiator s <> None) /\
  (initiator s = None -> active_tech_mask s = NCI_TECH_ALL) /\
  (presence_check_id s <> 0 -> target s <> None).

(** What an activation leaves: no reactivation timer, and a state that
    follows from what is held. *)
Definition activation_outcome (s : NciAdapter) : Prop :=
  ce_reactivation_timer s = None /\
  (target s <> None -> internal_state s = NCI_ADAPTER_HAVE_TARGET) /\
  (initiator s <> None ->
   internal_state s = NCI_ADAPTER_HAVE_INITIATOR \/
   internal_state s = NCI_ADAPTER_REACTIVATED_CE) /\
  (target s = None -> initiator s = None ->
   internal_state s = NCI_ADAPTER_IDLE /\ active_intf s = None).

(** ** Sequences of calls on a target *)

Fixpoint target_run {decls : NciCoreDecls} (cs : list TargetCall) (self : NciTarget)
    : option (NciTarget * list Action) :=
  match cs with
  | [] => Some (self, [])
  | c :: cs' =>
      match target_call c self with
      | Some (self', acts) =>
          match target_run cs' self' with
          | Some (self'', acts') => Some (self'', acts ++ acts')
          | None => None
          end
      | None => None
      end
  end.

(** The number of [nfc_target_transmit_done] among the calls made. *)
Fixpoint count_transmit_done (acts : list Action) : nat :=
  match acts with
  | [] => 0
  | nfc_target_transmit_done _ _ :: acts' => S (count_transmit_done acts')
  | _ :: acts' => count_transmit_done acts'
  end.

(** The number of [transmit] among the calls received. *)
Fixpoint count_transmit (cs : list TargetCall) : nat :=
  match cs with
  | [] => 0
  | CallTransmit _ _ :: cs' => S (count_transmit cs')
  | _ :: cs' => count_transmit cs'
  end.

(** The number of transmits that wait for their completion: one or none. *)
Definition in_flight (self : NciTarget) : nat :=
  if transmit_in_progress self then 1 else 0.

(** ** The technologies reported to the framework *)

Definition nci_adapter_get_supported_techs {decls : NciCoreDecls}
    (self : NciAdapter) : Z :=
  let add (bit : Z) (t : NFC_TECHNOLOGY) (techs : Z) : Z :=
    if negb (Z.land (supported_techs self) bit =? 0)
    then Z.lor techs (nfc_technology_bit t)
    else techs in
  add NCI_TECH_F NFC_TECHNOLOGY_F
    (add NCI_TECH_B NFC_TECHNOLOGY_B
       (add NCI_TECH_A NFC_TECHNOLOGY_A
          (nfc_technology_bit NFC_TECHNOLOGY_UNKNOWN))).

(** The mode fields while a request for the reader-writer mode waits. *)
Definition reader_writer_requested : NciAdapterMode :=
  {| desired_mode := 0x02; current_mode := 0;
     mode_change_pending := true; mode_check_id := 7 |}.

(** More example data: the target of a Type 4B card, a core whose next
    state is none of the RF states, and a core that leaves the poll side
    for the discovery. *)
Definition type_4b_target : NciTarget :=
  {| technology := NFC_TECHNOLOGY_B; target_protocol := NFC_PROTOCOL_T4B_TAG;
     transmit_timeout := ISO_DEP_TRANSMIT_TIMEOUT_MS; adapter := true;
     send_in_progress := 0; transmit_in_progress := false;
     pending_reply := None;
     presence_check_fn := Some nci_target_presence_check_t4;
     transmit_finish_fn := Some nci_target_transmit_finish_iso_dep |}.

Definition failed_core : NciCore :=
  {| current_state := NCI_RFST_POLL_ACTIVE; next_state := NCI_STATE_OTHER 0 |}.

Definition poll_lost_core : NciCore :=
  {| current_state := NCI_RFST_POLL_ACTIVE; next_state := NCI_RFST_DISCOVERY |}.

(** * Properties *)

(** ** Byte comparisons *)

Lemma byte_eqb_eq (x y : byte) : Byte.eqb x y = true <-> x = y.
Proof.
  split; [apply Byte.byte_dec_bl | apply Byte.byte_dec_lb].
Qed.

Lemma array_eqb_eq (a b : bytes) : array_eqb a b = true <-> a = b.
Proof.
  revert b; induction a as [|x a IH]; intros [|y b]; simpl;
    try (split; [discriminate | discriminate]); [tauto|].
  rewrite andb_true_iff, byte_eqb_eq, IH.
  split; [intros [-> ->]; reflexivity | intros E; inversion E; auto].
Qed.

Lemma memcmp_eq_spec (p q : bytes) (n : nat) :
  memcmp_eq p q n = true <-> firstn n p = firstn n q.
Proof. apply array_eqb_eq. Qed.

Lemma data_matches_eq (a b : bytes) : data_matches a b = true <-> a = b.
Proof.
  unfold data_matches.
  rewrite andb_true_iff, orb_true_iff, Nat.eqb_eq, Nat.eqb_eq, memcmp_eq_spec.
  split.
  - intros [L [Z0 | E]].
    + rewrite Z0 in L. apply length_zero_iff_nil in L, Z0. congruence.
    + rewrite <- L in E at 1. now rewrite !firstn_all in E.
  - intros ->. split; [reflexivity | right; reflexivity].
Qed.

Lemma gutil_data_equal_eq (a b : bytes) : gutil_data_equal a b = true <-> a = b.
Proof.
  unfold gutil_data_equal.
  destruct (Nat.eqb (length a) (length b)) eqn:L.
  - apply Nat.eqb_eq in L.
    rewrite orb_true_iff, Nat.eqb_eq, memcmp_eq_spec. split.
    + intros [Z0 | E].
      * rewrite Z0 in L. symmetry in L.
        apply length_zero_iff_nil in L, Z0. congruence.
      * rewrite L in E at 2. now rewrite !firstn_all in E.
    + intros ->. right; reflexivity.
  - apply Nat.eqb_neq in L. split; [discriminate | intros ->; congruence].
Qed.

Lemma nfcid1_value_full (pa : NciModeParamPollA) :
  length (nfcid1 pa) = Z.to_nat (nfcid1_len pa) -> nfcid1_value pa = nfcid1 pa.
Proof.
  intros L. unfold nfcid1_value. rewrite <- L. apply firstn_all.
Qed.

(** The bytes of the [nfcid1] array past [nfcid1_len] are not compared.
    Where they agree on both sides, as they do when both are left zeroed,
    the NFCID1 are equal exactly when the whole arrays are. *)
Lemma nfcid1_value_eq_arrays (pa1 pa2 : NciModeParamPollA) :
  nfcid1_len pa1 = nfcid1_len pa2 ->
  skipn (Z.to_nat (nfcid1_len pa1)) (nfcid1 pa1) =
  skipn (Z.to_nat (nfcid1_len pa2)) (nfcid1 pa2) ->
  (nfcid1_value pa1 = nfcid1_value pa2 <-> nfcid1 pa1 = nfcid1 pa2).
Proof.
  unfold nfcid1_value. intros L T. split.
  - intros E.
    rewrite <- (firstn_skipn (Z.to_nat (nfcid1_len pa1)) (nfcid1 pa1)).
    rewrite <- (firstn_skipn (Z.to_nat (nfcid1_len pa2)) (nfcid1 pa2)).
    now rewrite E, T.
  - intros E. now rewrite L, E.
Qed.

(** ** The match predicate *)

Lemma mode_param_match_poll_a_spec (pa1 pa2 : NciModeParamPollA) :
  mode_param_match_poll_a pa1 pa2 = true <->
  sel_res pa1 = sel_res pa2 /\
  sel_res_len pa1 = sel_res_len pa2 /\
  nfcid1_len pa1 = nfcid1_len pa2 /\
  sens_res pa1 = sens_res pa2 /\
  ((nfcid1_len pa1 = 4 /\
    byte_at (nfcid1 pa1) 0 = Byte.x08 /\ byte_at (nfcid1 pa2) 0 = Byte.x08) \/
   nfcid1_value pa1 = nfcid1_value pa2).
Proof.
  unfold mode_param_match_poll_a, nfcid1_value, RANDOM_UID_SIZE,
    RANDOM_UID_START_BYTE.
  destruct (sel_res pa1 =? sel_res pa2) eqn:E1;
    [apply Z.eqb_eq in E1 | apply Z.eqb_neq in E1; simpl; split;
       [discriminate | tauto]].
  destruct (sel_res_len pa1 =? sel_res_len pa2) eqn:E2;
    [apply Z.eqb_eq in E2 | apply Z.eqb_neq in E2; simpl; split;
       [discriminate | tauto]].
  destruct (nfcid1_len pa1 =? nfcid1_len pa2) eqn:E3;
    [apply Z.eqb_eq in E3 | apply Z.eqb_neq in E3; simpl; split;
       [discriminate | tauto]].
  destruct (array_eqb (sens_res pa1) (sens_res pa2)) eqn:E4; simpl.
  - apply array_eqb_eq in E4.
    destruct (nfcid1_len pa1 =? 4) eqn:E5; simpl.
    + apply Z.eqb_eq in E5.
      destruct (Byte.eqb (byte_at (nfcid1 pa1) 0) (byte_at (nfcid1 pa2) 0)) eqn:E6;
        simpl.
      * apply byte_eqb_eq in E6.
        destruct (Byte.eqb (byte_at (nfcid1 pa2) 0) Byte.x08) eqn:E7.
        -- apply byte_eqb_eq in E7. split; [intros _ | reflexivity].
           repeat split; auto. left. repeat split; congruence.
        -- apply Byte.eqb_false in E7. rewrite memcmp_eq_spec, <- E3.
           split; [intros E; repeat split; auto | intros (_ & _ & _ & _ & [D | D])];
             [tauto | congruence].
      * apply Byte.eqb_false in E6. rewrite memcmp_eq_spec, <- E3.
        split; [intros E; repeat split; auto | intros (_ & _ & _ & _ & [D | D])];
          [| tauto].
        destruct D as (_ & D1 & D2). congruence.
    + apply Z.eqb_neq in E5. rewrite memcmp_eq_spec, <- E3.
      split; [intros E; repeat split; auto | intros (_ & _ & _ & _ & [D | D])];
        tauto.
  - split; [discriminate | intros (_ & _ & _ & D & _)].
    apply array_eqb_eq in D. congruence.
Qed.

Lemma mode_param_match_poll_b_spec (pb1 pb2 : NciModeParamPollB) :
  mode_param_match_poll_b pb1 pb2 = true <->
  fsc pb1 = fsc pb2 /\ app_data pb1 = app_data pb2 /\
  prot_info pb1 = prot_info pb2.
Proof.
  unfold mode_param_match_poll_b.
  rewrite !andb_true_iff, Z.eqb_eq, array_eqb_eq, Nat.eqb_eq,
    gutil_data_equal_eq.
  split; [tauto | intros (? & ? & E); rewrite E; tauto].
Qed.

Lemma beq_refl_rf (x : NCI_RF_INTERFACE) : NCI_RF_INTERFACE_beq x x = true.
Proof. destruct x; reflexivity. Qed.

Lemma beq_refl_protocol (x : NCI_PROTOCOL) : NCI_PROTOCOL_beq x x = true.
Proof. destruct x; reflexivity. Qed.

Lemma beq_refl_mode (x : NCI_MODE) : NCI_MODE_beq x x = true.
Proof. destruct x; reflexivity. Qed.

(** When the three enumerations and the activation parameter bytes agree,
    the match predicate is the comparison of the mode parameters. *)
Lemma intf_info_matches_reduces
    (info : NciAdapterIntfInfo) (ntf : NciIntfActivationNtf) :
  rf_intf info = ntf_rf_intf ntf ->
  protocol info = ntf_protocol ntf ->
  mode info = ntf_mode ntf ->
  activation_param info = ntf_activation_param_bytes ntf ->
  nci_adapter_intf_info_matches (Some info) ntf =
  nci_adapter_info_mode_params_matches info ntf.
Proof.
  intros Hr Hp Hm Ha. unfold nci_adapter_intf_info_matches.
  rewrite Hr, Hp, Hm, beq_refl_rf, beq_refl_protocol, beq_refl_mode.
  rewrite (proj2 (data_matches_eq _ _) Ha). simpl.
  apply andb_true_r.
Qed.

(** C1.  A stored interface info and a fresh activation notification agree
    on [rf_intf], [protocol] and [mode], the mode is passive Poll A on the
    Frame or the ISO-DEP interface, and the raw activation parameter bytes
    are equal.  Then, on their parsed Poll A parameters, the match
    predicate is true exactly when [sel_res], [sel_res_len], [nfcid1_len]
    and [sens_res] are equal and either the NFCID1 is a random one on both
    sides ([nfcid1_len] is 4 and both first bytes are 08h, whatever the
    other bytes) or the NFCID1 of both sides is byte for byte the same. *)
Theorem intf_info_matches_poll_a :
  forall (info : NciAdapterIntfInfo) (ntf : NciIntfActivationNtf)
         (mp1 mp2 : NciModeParam),
    rf_intf info = ntf_rf_intf ntf ->
    protocol info = ntf_protocol ntf ->
    mode info = ntf_mode ntf ->
    ntf_mode ntf = NCI_MODE_PASSIVE_POLL_A ->
    ntf_rf_intf ntf = NCI_RF_INTERFACE_FRAME \/
    ntf_rf_intf ntf = NCI_RF_INTERFACE_ISO_DEP ->
    activation_param info = ntf_activation_param_bytes ntf ->
    mode_param_parsed info = Some mp1 ->
    ntf_mode_param ntf = Some mp2 ->
    nci_adapter_intf_info_matches (Some info) ntf = true <->
    sel_res (poll_a mp1) = sel_res (poll_a mp2) /\
    sel_res_len (poll_a mp1) = sel_res_len (poll_a mp2) /\
    nfcid1_len (poll_a mp1) = nfcid1_len (poll_a mp2) /\
    sens_res (poll_a mp1) = sens_res (poll_a mp2) /\
    ((nfcid1_len (poll_a mp1) = 4 /\
      byte_at (nfcid1 (poll_a mp1)) 0 = Byte.x08 /\
      byte_at (nfcid1 (poll_a mp2)) 0 = Byte.x08) \/
     nfcid1_value (poll_a mp1) = nfcid1_value (poll_a mp2)).
Proof.
  intros info ntf mp1 mp2 Hr Hp Hm Hmode Hif Ha H1 H2.
  rewrite intf_info_matches_reduces by assumption.
  unfold nci_adapter_info_mode_params_matches.
  rewrite H1, H2, Hmode.
  destruct Hif as [-> | ->]; apply mode_param_match_poll_a_spec.
Qed.

(** C2.  As for C1 with passive Poll B on the ISO-DEP interface: the match
    predicate is true exactly when [fsc], [app_data] and [prot_info]
    (length included) are equal, and it does not depend on [nfcid0]:
    another UID, with whatever raw mode parameter bytes it comes in, gives
    the same answer. *)
Theorem intf_info_matches_poll_b :
  forall (info : NciAdapterIntfInfo) (ntf : NciIntfActivationNtf)
         (mp1 mp2 : NciModeParam),
    rf_intf info = ntf_rf_intf ntf ->
    protocol info = ntf_protocol ntf ->
    mode info = ntf_mode ntf ->
    ntf_mode ntf = NCI_MODE_PASSIVE_POLL_B ->
    ntf_rf_intf ntf = NCI_RF_INTERFACE_ISO_DEP ->
    activation_param info = ntf_activation_param_bytes ntf ->
    mode_param_parsed info = Some mp1 ->
    ntf_mode_param ntf = Some mp2 ->
    (nci_adapter_intf_info_matches (Some info) ntf = true <->
     fsc (poll_b mp1) = fsc (poll_b mp2) /\
     app_data (poll_b mp1) = app_data (poll_b mp2) /\
     prot_info (poll_b mp1) = prot_info (poll_b mp2) /\
     length (prot_info (poll_b mp1)) = length (prot_info (poll_b mp2))) /\
    (forall uid raw : bytes,
       nci_adapter_intf_info_matches (Some info) (with_nfcid0 uid raw ntf) =
       nci_adapter_intf_info_matches (Some info) ntf).
Proof.
  intros info ntf mp1 mp2 Hr Hp Hm Hmode Hif Ha H1 H2.
  split.
  - rewrite intf_info_matches_reduces by assumption.
    unfold nci_adapter_info_mode_params_matches.
    rewrite H1, H2, Hmode, Hif, mode_param_match_poll_b_spec.
    split; [intros (? & ? & E); rewrite E; tauto | tauto].
  - intros uid raw.
    rewrite !intf_info_matches_reduces by assumption.
    unfold nci_adapter_info_mode_params_matches, with_nfcid0; simpl.
    rewrite H1, H2, Hmode, Hif; simpl.
    reflexivity.
Qed.

Lemma intf_info_matches_poll_a_witness :
  nci_adapter_intf_info_matches
    (Some (nci_adapter_intf_info_new (decls := nci_decls)
             (random_uid_ntf [Byte.x08; Byte.x11; Byte.x22; Byte.x33])))
    (random_uid_ntf [Byte.x08; Byte.xa4; Byte.xb5; Byte.xc6]) = true.
Proof.
  eapply (proj2 (intf_info_matches_poll_a
                   (nci_adapter_intf_info_new (decls := nci_decls)
                      (random_uid_ntf [Byte.x08; Byte.x11; Byte.x22; Byte.x33]))
                   (random_uid_ntf [Byte.x08; Byte.xa4; Byte.xb5; Byte.xc6])
                   _ _ eq_refl eq_refl eq_refl eq_refl (or_introl eq_refl)
                   eq_refl eq_refl eq_refl)).
  simpl. repeat split; try reflexivity. left. repeat split; reflexivity.
Defined.

Lemma intf_info_matches_poll_b_witness :
  nci_adapter_intf_info_matches
    (Some (nci_adapter_intf_info_new (decls := nci_decls)
             (type_4b_ntf [Byte.x01; Byte.x02; Byte.x03; Byte.x04])))
    (type_4b_ntf [Byte.xde; Byte.xad; Byte.xbe; Byte.xef]) = true.
Proof.
  eapply (proj2 (proj1 (intf_info_matches_poll_b
                   (nci_adapter_intf_info_new (decls := nci_decls)
                      (type_4b_ntf [Byte.x01; Byte.x02; Byte.x03; Byte.x04]))
                   (type_4b_ntf [Byte.xde; Byte.xad; Byte.xbe; Byte.xef])
                   _ _ eq_refl eq_refl eq_refl eq_refl eq_refl
                   eq_refl eq_refl eq_refl))).
  simpl. repeat split; reflexivity.
Defined.

(** ** The target data path *)

Section TargetFacts.

Context {decls : NciCoreDecls}.

Lemma byte_at_last (body : bytes) (b : byte) :
  byte_at (body ++ [b]) (length (body ++ [b]) - 1) = b.
Proof.
  unfold byte_at. rewrite length_app; simpl.
  replace (length body + 1 - 1)%nat with (length body) by lia.
  rewrite app_nth2 by lia. now rewrite Nat.sub_diag.
Qed.

Lemma firstn_but_last (body : bytes) (b : byte) :
  firstn (length (body ++ [b]) - 1) (body ++ [b]) = body.
Proof.
  rewrite length_app; simpl.
  replace (length body + 1 - 1)%nat with (length body) by lia.
  rewrite firstn_app, Nat.sub_diag, firstn_all. simpl. apply app_nil_r.
Qed.

Lemma transmit_finish_frame_spec (body : bytes) (status : byte) :
  transmit_finish nci_target_transmit_finish_frame (body ++ [status]) =
  if Byte.eqb status NCI_STATUS_RF_FRAME_CORRUPTED
  then (false, [])
  else (true, [nfc_target_transmit_done NFC_TRANSMIT_STATUS_OK body]).
Proof.
  unfold transmit_finish.
  rewrite byte_at_last, firstn_but_last.
  replace (0 <? Z.of_nat (length (body ++ [status]))) with true.
  - destruct (Byte.eqb status NCI_STATUS_RF_FRAME_CORRUPTED); reflexivity.
  - symmetry. apply Z.ltb_lt. rewrite length_app; simpl. lia.
Qed.

(** C3.  A payload that is not empty, [body] followed by a status byte, is
    finalized on a target whose finish function is the one of the Frame
    interface.  If the status is [STATUS_RF_FRAME_CORRUPTED] the one call
    made is [transmit_done] with the status ERROR and no data.  If it is
    [STATUS_OK], one of [STATUS_OK_1_BIT] to [STATUS_OK_7_BIT], or any
    other value, the one call made is [transmit_done] with the status OK
    and [body], the payload without its last byte.  In both cases no
    transmit is in progress afterwards. *)
Theorem frame_finish_transmit :
  forall (self : NciTarget) (body : bytes) (status : byte),
    transmit_finish_fn self = Some nci_target_transmit_finish_frame ->
    ~ In NCI_STATUS_RF_FRAME_CORRUPTED frame_ok_statuses ->
    let done := nci_target_finish_transmit self (body ++ [status]) in
    transmit_in_progress (fst done) = false /\
    (status = NCI_STATUS_RF_FRAME_CORRUPTED ->
     snd done = [nfc_target_transmit_done NFC_TRANSMIT_STATUS_ERROR []]) /\
    (In status frame_ok_statuses ->
     snd done = [nfc_target_transmit_done NFC_TRANSMIT_STATUS_OK body]) /\
    (status <> NCI_STATUS_RF_FRAME_CORRUPTED ->
     snd done = [nfc_target_transmit_done NFC_TRANSMIT_STATUS_OK body]).
Proof.
  intros self body status Hfn Hok done.
  assert (Hother : status <> NCI_STATUS_RF_FRAME_CORRUPTED ->
                   snd done = [nfc_target_transmit_done NFC_TRANSMIT_STATUS_OK body]).
  { intros Hne. subst done. unfold nci_target_finish_transmit. simpl.
    rewrite Hfn, transmit_finish_frame_spec.
    destruct (Byte.eqb status NCI_STATUS_RF_FRAME_CORRUPTED) eqn:E;
      [apply byte_eqb_eq in E; contradiction | reflexivity]. }
  repeat split.
  - subst done. unfold nci_target_finish_transmit. simpl. rewrite Hfn.
    destruct (transmit_finish _ _) as [[|] ?]; reflexivity.
  - intros ->. subst done. unfold nci_target_finish_transmit. simpl.
    rewrite Hfn, transmit_finish_frame_spec.
    now rewrite (proj2 (byte_eqb_eq _ _) eq_refl).
  - intros Hin. apply Hother. intros ->. contradiction.
  - exact Hother.
Qed.

End TargetFacts.

Lemma t2_target_new : nci_target_new t2_ntf = Some t2_target.
Proof. reflexivity. Qed.

Lemma frame_finish_transmit_witness :
  snd (nci_target_finish_transmit (decls := nci_decls) t2_target
         ([Byte.x01; Byte.x02] ++ [Byte.x02])) =
    [nfc_target_transmit_done NFC_TRANSMIT_STATUS_ERROR []] /\
  snd (nci_target_finish_transmit (decls := nci_decls) t2_target
         ([Byte.x01; Byte.x02] ++ [Byte.x13])) =
    [nfc_target_transmit_done NFC_TRANSMIT_STATUS_OK [Byte.x01; Byte.x02]].
Proof.
  assert (Hok : ~ In (NCI_STATUS_RF_FRAME_CORRUPTED (NciCoreDecls := nci_decls))
                     (frame_ok_statuses (decls := nci_decls))).
  { simpl. intuition discriminate. }
  split.
  - apply (proj1 (proj2 (frame_finish_transmit (decls := nci_decls) t2_target
                           [Byte.x01; Byte.x02] Byte.x02 eq_refl Hok))).
    reflexivity.
  - apply (proj1 (proj2 (proj2 (frame_finish_transmit (decls := nci_decls)
                           t2_target [Byte.x01; Byte.x02] Byte.x13 eq_refl Hok)))).
    simpl. tauto.
Defined.

Section TargetRace.

Context {decls : NciCoreDecls}.

(** C4.  A data packet arrives at a target.  While a transmit is in
    flight, on the static RF connection id and with no reply buffered: if
    the send has not completed ([send_in_progress] is not zero) the payload
    becomes [pending_reply] and nothing is delivered, and the completion of
    the send then finalizes the transmit with the buffered bytes, making
    the very calls that finalizing [data] at once would have made; if the
    send has completed, the transmit is finalized at once.  A packet on
    another connection id, or with no transmit in flight, or with a reply
    already buffered, changes nothing and delivers nothing. *)
Theorem data_packet_before_send_completion :
  forall (self : NciTarget) (cid : Z) (data : bytes),
    (transmit_in_progress self = true ->
     cid = NCI_STATIC_RF_CONN_ID ->
     pending_reply self = None ->
     (send_in_progress self <> 0 ->
      nci_target_data_packet_handler cid data self =
        (set_pending_reply (Some data) self, []) /\
      pending_reply (fst (nci_target_data_packet_handler cid data self)) =
        Some data /\
      forall success : bool,
        nci_target_data_sent success (set_pending_reply (Some data) self) =
          nci_target_finish_transmit
            (set_pending_reply None (set_send_in_progress 0 self)) data /\
        snd (nci_target_data_sent success (set_pending_reply (Some data) self)) =
          snd (nci_target_finish_transmit self data) /\
        let after := fst (nci_target_data_sent success
                            (set_pending_reply (Some data) self)) in
        pending_reply after = None /\ send_in_progress after = 0 /\
        transmit_in_progress after = false) /\
     (send_in_progress self = 0 ->
      nci_target_data_packet_handler cid data self =
        nci_target_finish_transmit self data)) /\
    (cid <> NCI_STATIC_RF_CONN_ID \/ transmit_in_progress self = false \/
     pending_reply self <> None ->
     nci_target_data_packet_handler cid data self = (self, [])).
Proof.
  intros self cid data. split.
  - intros Htx -> Hnone. unfold nci_target_data_packet_handler.
    rewrite Htx, Hnone, Z.eqb_refl. simpl. split.
    + intros Hsend. apply Z.eqb_neq in Hsend. rewrite Hsend. simpl.
      split; [reflexivity|]. split; [reflexivity | intros success].
      unfold nci_target_data_sent, nci_target_finish_transmit. simpl.
      destruct (transmit_finish_fn self) as [fn|]; simpl.
      * destruct (transmit_finish fn data) as [[|] done]; simpl; auto.
      * auto.
    + intros ->. reflexivity.
  - intros H. unfold nci_target_data_packet_handler.
    destruct (cid =? NCI_STATIC_RF_CONN_ID) eqn:Ec; [|reflexivity].
    destruct (transmit_in_progress self) eqn:Et; [|reflexivity].
    destruct (pending_reply self) eqn:Ep; [reflexivity|].
    apply Z.eqb_eq in Ec. destruct H as [H | [H | H]]; congruence.
Qed.

Lemma no_reply_waits (self : NciTarget) :
  pending_reply self = None -> reply_waits_for_send self.
Proof. intros E F. contradiction. Qed.

Lemma nci_target_new_reply (ntf : NciIntfActivationNtf) (self : NciTarget) :
  nci_target_new ntf = Some self -> pending_reply self = None.
Proof.
  unfold nci_target_new.
  destruct (ntf_mode ntf), (ntf_protocol ntf), (ntf_rf_intf ntf); simpl;
    intros E; inversion E; reflexivity.
Qed.

Lemma finish_transmit_reply (self : NciTarget) (payload : bytes) :
  pending_reply (fst (nci_target_finish_transmit self payload)) =
  pending_reply self.
Proof.
  unfold nci_target_finish_transmit. simpl.
  destruct (transmit_finish_fn self) as [fn|]; simpl; [|reflexivity].
  destruct (transmit_finish fn payload) as [[|] ?]; reflexivity.
Qed.

Lemma cancel_send_reply (self : NciTarget) :
  reply_waits_for_send self ->
  pending_reply (fst (nci_target_cancel_send self)) = None.
Proof.
  unfold reply_waits_for_send, nci_target_cancel_send. intros H.
  destruct (send_in_progress self =? 0) eqn:E; simpl.
  - apply Z.eqb_eq in E. destruct (pending_reply self); [|reflexivity].
    destruct H as [H _]; [discriminate | contradiction].
  - destruct (pending_reply self) eqn:Ep; simpl; auto.
Qed.

(** The target left by a call, from the equation for its result. *)
Ltac result_in E self' :=
  injection E as E; apply (f_equal fst) in E; simpl in E; subst self'.

Lemma target_call_reply (c : TargetCall) (self self' : NciTarget)
    (acts : list Action) :
  reply_waits_for_send self ->
  target_call c self = Some (self', acts) ->
  reply_waits_for_send self'.
Proof.
  intros Inv. destruct c; simpl.
  - (* transmit: no send and no transmit is in flight, so no reply waits *)
    destruct (send_in_progress self =? 0) eqn:Es; simpl; [|discriminate].
    destruct (transmit_in_progress self) eqn:Et; simpl; [discriminate|].
    assert (Hp : pending_reply self = None).
    { destruct (pending_reply self) eqn:Ep; [|reflexivity].
      destruct Inv as [_ F]; [rewrite Ep; discriminate | congruence]. }
    unfold nci_target_transmit.
    destruct (adapter self); simpl.
    + destruct (id =? 0); simpl; intros E; inversion E; subst;
        apply no_reply_waits; exact Hp.
    + intros E; inversion E; subst. apply no_reply_waits; exact Hp.
  - (* cancel_transmit: the send branch drops the reply *)
    intros E; result_in E self'. apply no_reply_waits.
    unfold nci_target_cancel_transmit, nci_target_cancel_send. simpl.
    destruct (send_in_progress self =? 0) eqn:Es; simpl.
    + apply Z.eqb_eq in Es. destruct (pending_reply self) eqn:Ep; [|reflexivity].
      destruct Inv as [N _]; [rewrite Ep; discriminate | contradiction].
    + destruct (pending_reply self) eqn:Ep; simpl; auto.
  - (* gone *)
    intros E; result_in E self'.
    unfold nci_target_gone, nci_target_drop_adapter.
    destruct (adapter self) eqn:Ea; [|exact Inv].
    pose proof (cancel_send_reply self Inv) as C.
    destruct (nci_target_cancel_send self) as [s l]; simpl in *.
    apply no_reply_waits. exact C.
  - (* data_sent *)
    destruct (send_in_progress self =? 0) eqn:Es; simpl; [discriminate|].
    intros E; result_in E self'. apply no_reply_waits.
    unfold nci_target_data_sent. simpl.
    destruct (pending_reply self) eqn:Ep; simpl; [|exact Ep].
    rewrite finish_transmit_reply. reflexivity.
  - (* data_packet *)
    intros E; result_in E self'.
    unfold nci_target_data_packet_handler.
    destruct (cid =? NCI_STATIC_RF_CONN_ID); simpl; [|exact Inv].
    destruct (transmit_in_progress self) eqn:Et; simpl; [|exact Inv].
    destruct (pending_reply self) eqn:Ep; simpl; [exact Inv|].
    destruct (send_in_progress self =? 0) eqn:Es; simpl.
    + apply no_reply_waits. rewrite finish_transmit_reply. exact Ep.
    + apply Z.eqb_neq in Es. intros _. simpl. split; assumption.
  - (* the adapter is destroyed *)
    intros E; inversion E; subst. exact Inv.
Qed.

Lemma target_reachable_reply (self : NciTarget) :
  target_reachable self -> reply_waits_for_send self.
Proof.
  induction 1 as [ntf self Hnew | c self self' acts _ IH Hcall].
  - apply no_reply_waits. eapply nci_target_new_reply; eassumption.
  - eapply target_call_reply; eassumption.
Qed.

(** C10.  In every state that a target reaches between calls, a buffered
    reply implies that a send is outstanding and that a transmit is in
    progress; hence [cancel_transmit], which drops the reply in the branch
    for an outstanding send only, leaves no reply behind. *)
Theorem pending_reply_implies_send_in_progress :
  forall self : NciTarget,
    target_reachable self ->
    (pending_reply self <> None ->
     send_in_progress self <> 0 /\ transmit_in_progress self = true) /\
    pending_reply (fst (nci_target_cancel_transmit self)) = None /\
    send_in_progress (fst (nci_target_cancel_transmit self)) = 0 /\
    transmit_in_progress (fst (nci_target_cancel_transmit self)) = false.
Proof.
  intros self R. pose proof (target_reachable_reply self R) as Inv.
  split; [exact Inv|].
  unfold nci_target_cancel_transmit, nci_target_cancel_send. simpl.
  destruct (send_in_progress self =? 0) eqn:Es; simpl.
  - apply Z.eqb_eq in Es. repeat split; auto.
    destruct (pending_reply self) eqn:Ep; [|reflexivity].
    destruct Inv as [N _]; [rewrite Ep; discriminate | contradiction].
  - destruct (pending_reply self) eqn:Ep; simpl; auto.
Qed.
End TargetRace.


Lemma t2_target_waiting_reachable :
  target_reachable (decls := nci_decls) t2_target_waiting.
Proof.
  apply target_after with
    (c := CallDataPacket 0 [Byte.x90; Byte.x00])
    (self := set_transmit_in_progress true (set_send_in_progress 7 t2_target))
    (acts := []); [|reflexivity].
  apply target_after with
    (c := CallTransmit [Byte.x30; Byte.x00] 7) (self := t2_target)
    (acts := [nci_core_send_data_msg 0 [Byte.x30; Byte.x00]]); [|reflexivity].
  apply target_new with (ntf := t2_ntf). exact t2_target_new.
Qed.

Lemma data_packet_before_send_completion_witness :
  nci_target_data_packet_handler (decls := nci_decls) 0 [Byte.x90; Byte.x00]
    t4a_target_sending =
    (set_pending_reply (Some [Byte.x90; Byte.x00]) t4a_target_sending, []) /\
  snd (nci_target_data_sent (decls := nci_decls) true
         (set_pending_reply (Some [Byte.x90; Byte.x00]) t4a_target_sending)) =
    [nfc_target_transmit_done NFC_TRANSMIT_STATUS_OK [Byte.x90; Byte.x00]].
Proof.
  destruct (proj1 (data_packet_before_send_completion (decls := nci_decls)
                     t4a_target_sending 0 [Byte.x90; Byte.x00])
              eq_refl eq_refl eq_refl) as [H _].
  assert (S : send_in_progress t4a_target_sending <> 0) by discriminate.
  destruct (H S) as (H1 & _ & H2). split; [exact H1|].
  destruct (H2 true) as (_ & E & _).
  exact (eq_trans E eq_refl).
Defined.

Lemma pending_reply_implies_send_in_progress_witness :
  (send_in_progress t2_target_waiting <> 0 /\
   transmit_in_progress t2_target_waiting = true) /\
  pending_reply
    (fst (nci_target_cancel_transmit t2_target_waiting)) = None.
Proof.
  pose proof (pending_reply_implies_send_in_progress
                (decls := nci_decls) t2_target_waiting
                t2_target_waiting_reachable) as [H [C _]].
  split; [apply H; discriminate | exact C].
Defined.

(** ** The adapter *)

(** *** Rules for [wp] *)

Lemma wp_ret {A} (a : A) Q s : Q a s -> wp (ret a) Q s.
Proof. exact (fun H => H). Qed.

Lemma wp_bind {A B} (m : M A) (k : A -> M B) Q s :
  wp m (fun a s' => wp (k a) Q s') s -> wp (bind m k) Q s.
Proof.
  unfold wp, bind. destruct (m s) as [[[a s1] l1]|]; [|trivial].
  destruct (k a s1) as [[[b s2] l2]|]; trivial.
Qed.

Lemma wp_get Q s : Q s s -> wp get Q s.
Proof. exact (fun H => H). Qed.

Lemma wp_modify f Q s : Q tt (f s) -> wp (modify f) Q s.
Proof. exact (fun H => H). Qed.

Lemma wp_call a Q s : Q tt s -> wp (call a) Q s.
Proof. exact (fun H => H). Qed.

Lemma wp_null {A} Q s : wp (@null_dereference A) Q s.
Proof. exact I. Qed.

Lemma wp_when (c : bool) m Q s :
  (c = true -> wp m Q s) -> (c = false -> Q tt s) -> wp (when c m) Q s.
Proof.
  intros H1 H2. destruct c; unfold when; [apply H1 | apply wp_ret, H2];
    reflexivity.
Qed.

Lemma wp_mono {A} (m : M A) (Q Q' : A -> NciAdapter -> Prop) s :
  wp m Q s -> (forall a s', Q a s' -> Q' a s') -> wp m Q' s.
Proof.
  unfold wp. destruct (m s) as [[[a s1] l1]|]; auto.
Qed.

Lemma wp_factory a r Q s : Q r s -> wp (factory a r) Q s.
Proof. exact (fun H => H). Qed.

Lemma wp_on_mode_priv f (Q : unit -> NciAdapter -> Prop) s :
  (forall priv, Q tt (set_mode_priv priv s)) -> wp (on_mode_priv f) Q s.
Proof.
  intros H. unfold wp, on_mode_priv. destruct (f (mode_priv s)). apply H.
Qed.

(** One step through the code of a function: a rule for the construct at
    the head, or a case analysis of the value it branches on. *)
Ltac wp_step :=
  lazymatch goal with
  | |- wp (bind _ _) _ _ => apply wp_bind
  | |- wp (ret _) _ _ => apply wp_ret
  | |- wp get _ _ => apply wp_get
  | |- wp (modify _) _ _ => apply wp_modify
  | |- wp (call _) _ _ => apply wp_call
  | |- wp (factory _ _) _ _ => apply wp_factory
  | |- wp null_dereference _ _ => apply wp_null
  | |- wp (when _ _) _ _ => apply wp_when; intros ?
  | |- wp (on_mode_priv _) _ _ => apply wp_on_mode_priv; intros ?
  | |- wp mode_check _ _ => unfold mode_check
  | |- wp (nci_adapter_set_internal_state _) _ _ =>
      unfold nci_adapter_set_internal_state
  | |- wp (nci_adapter_set_active_tag _) _ _ => unfold nci_adapter_set_active_tag
  | |- wp (nci_adapter_set_active_peer _) _ _ => unfold nci_adapter_set_active_peer
  | |- wp (nci_adapter_set_active_host _) _ _ => unfold nci_adapter_set_active_host
  | |- wp nci_adapter_clear_active_intf _ _ => unfold nci_adapter_clear_active_intf
  | |- wp nci_adapter_start_ce_reactivation_timer _ _ =>
      unfold nci_adapter_start_ce_reactivation_timer
  | |- wp (match ?x with _ => _ end) _ _ => destruct x eqn:?
  | |- wp (if ?x then _ else _) _ _ => destruct x eqn:?
  end; cbv beta zeta.

Ltac wp_run := repeat wp_step.

Section AdapterInvariant.

Context {decls : NciCoreDecls}.

Lemma wp_elim {A} (m : M A) Q s a s' l :
  wp m Q s -> m s = Some (a, s', l) -> Q a s'.
Proof. unfold wp. intros H E. rewrite E in H. exact H. Qed.

Lemma wp_true {A} (m : M A) s : wp m (fun _ _ => True) s.
Proof. unfold wp. destruct (m s) as [[[a s1] l1]|]; exact I. Qed.

(** *** What the helpers write *)

Lemma drop_target_wp s (Q : unit -> NciAdapter -> Prop) :
  (forall s',
     target s' = None -> initiator s' = initiator s ->
     internal_state s' = internal_state s -> host s' = host s ->
     ce_reactivation_timer s' = ce_reactivation_timer s ->
     (target s <> None ->
      active_intf s' = None /\ presence_check_timer s' = None) ->
     (target s = None -> s' = s) ->
     Q tt s') ->
  wp nci_adapter_drop_target Q s.
Proof.
  intros H. unfold nci_adapter_drop_target. wp_run; apply H; simpl; auto;
    try (intuition congruence).
Qed.

Lemma drop_initiator_wp s (Q : unit -> NciAdapter -> Prop) :
  (forall s',
     initiator s' = None -> target s' = target s ->
     internal_state s' = internal_state s ->
     presence_check_timer s' = presence_check_timer s ->
     (initiator s <> None ->
      active_intf s' = None /\ host s' = None /\
      ce_reactivation_timer s' = None) ->
     (initiator s = None -> s' = s) ->
     Q tt s') ->
  wp nci_adapter_drop_initiator Q s.
Proof.
  intros H. unfold nci_adapter_drop_initiator. wp_run; apply H; simpl; auto;
    try (intuition congruence).
Qed.

Lemma create_known_tag_wp t ntf fw s (Q : option nat -> NciAdapter -> Prop) :
  (forall v, Q v (set_tag v s)) ->
  wp (nci_adapter_create_known_tag t ntf fw) Q s.
Proof.
  intros H. unfold nci_adapter_create_known_tag. wp_run; apply H.
Qed.

Lemma create_peer_initiator_wp t ntf fw s (Q : option nat -> NciAdapter -> Prop) :
  (forall v, Q v (set_peer v s)) ->
  wp (nci_adapter_create_peer_initiator t ntf fw) Q s.
Proof.
  intros H. unfold nci_adapter_create_peer_initiator. wp_run; apply H.
Qed.

Lemma create_peer_target_wp i ntf fw s (Q : option nat -> NciAdapter -> Prop) :
  (forall v, Q v (set_peer v s)) ->
  wp (nci_adapter_create_peer_target i ntf fw) Q s.
Proof.
  intros H. unfold nci_adapter_create_peer_target. wp_run; apply H.
Qed.

Lemma create_host_wp i ntf fw s (Q : option nat -> NciAdapter -> Prop) :
  (forall v, Q v (set_host v s)) ->
  wp (nci_adapter_create_host i ntf fw) Q s.
Proof.
  intros H. unfold nci_adapter_create_host. wp_run; apply H.
Qed.

(** A step that uses what is known of the helper at the head. *)
Ltac wp_call_step :=
  lazymatch goal with
  | |- wp nci_adapter_drop_target _ _ =>
      apply drop_target_wp; intros ? ? ? ? ? ? ? ?
  | |- wp nci_adapter_drop_initiator _ _ =>
      apply drop_initiator_wp; intros ? ? ? ? ? ? ?
  | |- wp nci_adapter_drop_all _ _ => unfold nci_adapter_drop_all
  | |- wp (nci_adapter_create_known_tag _ _ _) _ _ =>
      apply create_known_tag_wp; intros ?
  | |- wp (nci_adapter_create_peer_initiator _ _ _) _ _ =>
      apply create_peer_initiator_wp; intros ?
  | |- wp (nci_adapter_create_peer_target _ _ _) _ _ =>
      apply create_peer_target_wp; intros ?
  | |- wp (nci_adapter_create_host _ _ _) _ _ =>
      apply create_host_wp; intros ?
  | _ => wp_step
  end.

Ltac wp_go := repeat wp_call_step.

(** Closing the cases: discharge the premises that are decided, use the
    equations on the fields of the new adapter, then the five parts of the
    invariant one by one. *)
Ltac resolve_premises :=
  repeat match goal with
         | H : Some _ <> None -> _ |- _ => specialize (H ltac:(discriminate))
         | H : None = None -> _ |- _ => specialize (H eq_refl)
         | H : None <> None -> _ |- _ => clear H
         | H : Some _ = None -> _ |- _ => clear H
         | H : _ /\ _ |- _ => destruct H
         | H : ?x = _ |- _ => is_var x; subst x
         | H : Some _ = None |- _ => discriminate H
         | H : None = Some _ |- _ => discriminate H
         | H : False |- _ => contradiction
         | H : true = false |- _ => discriminate H
         | H : false = true |- _ => discriminate H
         | H : None <> None |- _ => contradiction
         end.

Ltac rewrite_fields :=
  repeat match goal with
         | H : ?f ?s' = _ |- _ =>
             is_var s'; progress (rewrite H in * |-); simpl in *
         | H : ?f ?s' = _ |- _ =>
             is_var s'; progress (rewrite H); simpl in *
         end.

Ltac inv_unfold :=
  unfold adapter_invariant, nci_adapter_need_presence_checks,
    is_target_state, is_initiator_state, is_some in *; simpl in *.

Ltac inv_solve :=
  inv_unfold;
  repeat first [progress resolve_premises | progress rewrite_fields];
  repeat match goal with
         | H : context [match ?v with _ => _ end] |- _ =>
             is_var v; destruct v; simpl in H
         end;
  simpl in *;
  repeat split; intros; resolve_premises;
  try solve [ congruence | discriminate | tauto | auto
            | left; discriminate | right; discriminate ].

Ltac split_fields s :=
  destruct (target s) eqn:?, (initiator s) eqn:?, (active_intf s) eqn:?,
    (host s) eqn:?, (presence_check_timer s) eqn:?.

Lemma idle_drop_all_invariant s :
  adapter_invariant s ->
  wp (nci_adapter_set_internal_state NCI_ADAPTER_IDLE ;; nci_adapter_drop_all)
     (fun _ s' => adapter_invariant s') s.
Proof.
  intros Inv. wp_go. split_fields s; inv_solve.
Qed.

Lemma drop_all_invariant s :
  adapter_invariant s ->
  wp nci_adapter_drop_all (fun _ s' => adapter_invariant s') s.
Proof.
  intros Inv. wp_go. split_fields s; inv_solve.
Qed.

Lemma update_state_invariant ntf s :
  adapter_invariant s ->
  wp (nci_adapter_activation_update_state ntf)
     (fun _ s' => adapter_invariant s') s.
Proof.
  intros Inv. unfold nci_adapter_activation_update_state.
  wp_go; split_fields s; inv_solve.
Qed.

Lemma detect_invariant ntf fw s :
  adapter_invariant s ->
  wp (nci_adapter_activation_detect ntf fw)
     (fun _ s' => adapter_invariant s') s.
Proof.
  intros Inv. unfold nci_adapter_activation_detect.
  wp_go; split_fields s; inv_solve.
Qed.

Lemma activation_timer ntf fw s :
  wp (nci_adapter_activation ntf fw)
     (fun _ s' => presence_check_timer s' <> None <->
                  nci_adapter_need_presence_checks s' = true) s.
Proof.
  unfold nci_adapter_activation.
  apply wp_bind, wp_modify, wp_bind.
  eapply wp_mono; [apply wp_true|]. intros ? s1 _. cbv beta.
  apply wp_bind. eapply wp_mono; [apply wp_true|]. intros ? s2 _. cbv beta.
  wp_go; simpl; unfold nci_adapter_need_presence_checks in *; simpl;
    unfold is_some in *;
    repeat match goal with
           | H : context [match ?x with _ => _ end] |- _ => destruct x eqn:?
           | |- context [match ?x with _ => _ end] => destruct x eqn:?
           end; simpl in *;
    split; intros; try congruence; try discriminate.
Qed.

Lemma activation_invariant ntf fw s :
  adapter_invariant s ->
  wp (nci_adapter_activation ntf fw) (fun _ s' => adapter_invariant s') s.
Proof.
  intros Inv. unfold nci_adapter_activation.
  apply wp_bind, wp_modify, wp_bind.
  eapply wp_mono; [apply update_state_invariant; exact Inv|].
  intros ? s1 Inv1. cbv beta in *.
  apply wp_bind. eapply wp_mono; [apply detect_invariant; exact Inv1|].
  intros ? s2 Inv2. cbv beta in *.
  wp_go; split_fields s2; inv_solve.
Qed.

Lemma deactivation_invariant s :
  adapter_invariant s ->
  wp nci_adapter_deactivation (fun _ s' => adapter_invariant s') s.
Proof.
  intros Inv. unfold nci_adapter_deactivation.
  wp_go; split_fields s; inv_solve.
Qed.

Lemma state_check_same s (Q : unit -> NciAdapter -> Prop) :
  Q tt s -> wp nci_adapter_state_check Q s.
Proof.
  intros H. unfold nci_adapter_state_check. wp_go; exact H.
Qed.

Lemma checks_invariant s :
  adapter_invariant s ->
  wp (nci_adapter_state_check ;; mode_check)
     (fun _ s' => adapter_invariant s') s.
Proof.
  intros Inv. apply wp_bind, state_check_same.
  wp_go; exact Inv.
Qed.

Lemma next_state_changed_invariant s :
  adapter_invariant s ->
  wp nci_adapter_next_state_changed (fun _ s' => adapter_invariant s') s.
Proof.
  intros Inv. unfold nci_adapter_next_state_changed.
  apply wp_bind, wp_get. destruct (nci s) as [core|]; [|apply wp_null].
  apply wp_bind.
  assert (D : wp nci_adapter_deactivation (fun _ s' => adapter_invariant s') s)
    by (apply deactivation_invariant, Inv).
  assert (A : wp (nci_adapter_set_internal_state NCI_ADAPTER_IDLE ;;
                  nci_adapter_drop_all) (fun _ s' => adapter_invariant s') s)
    by (apply idle_drop_all_invariant, Inv).
  assert (K : forall s', adapter_invariant s' ->
                         wp (nci_adapter_state_check ;; mode_check)
                           (fun _ s'' => adapter_invariant s'') s')
    by (intros; apply checks_invariant; assumption).
  destruct (next_state core);
    try (apply wp_ret, K, Inv);
    try (apply wp_when; intros _; [|apply K, Inv]);
    (eapply wp_mono; [first [exact D | exact A]|]; intros ? s1 Inv1; apply K, Inv1).
Qed.

Lemma deactivate_target_invariant t s :
  adapter_invariant s ->
  wp (nci_adapter_deactivate_target t) (fun _ s' => adapter_invariant s') s.
Proof.
  intros Inv. unfold nci_adapter_deactivate_target.
  wp_go; try exact Inv; split_fields s; inv_solve.
Qed.

Lemma event_handler_invariant e s :
  adapter_invariant s ->
  wp (event_handler e) (fun _ s' => adapter_invariant s') s.
Proof.
  intros Inv. destruct e; simpl.
  - apply activation_invariant, Inv.
  - apply wp_bind, wp_modify. apply next_state_changed_invariant, Inv.
  - apply wp_bind, wp_modify. apply checks_invariant, Inv.
  - unfold nci_adapter_ce_reactivation_timeout.
    apply wp_bind, wp_modify. apply idle_drop_all_invariant, Inv.
  - unfold nci_adapter_presence_check_timer.
    wp_go; try exact Inv; split_fields s; inv_solve.
  - unfold nci_adapter_presence_check_done.
    apply wp_bind, wp_modify. apply wp_when; intros _; [|exact Inv].
    apply deactivate_target_invariant, Inv.
  - unfold nci_adapter_reactivate.
    wp_go; try exact Inv; unfold same_target in *; split_fields s; inv_solve.
  - apply deactivate_target_invariant, Inv.
  - unfold nci_adapter_deactivate_initiator.
    wp_go; try exact Inv; split_fields s; inv_solve.
  - unfold nci_adapter_set_allowed_techs. wp_go. exact Inv.
  - apply wp_modify, Inv.
  - apply wp_modify, Inv.
  - apply wp_modify, Inv.
  - apply wp_modify. split_fields s; inv_solve.
  - apply drop_all_invariant, Inv.
  - wp_go. exact Inv.
  - wp_go. exact Inv.
  - wp_go. exact Inv.
Qed.

Lemma adapter_event_invariant e s s' acts :
  adapter_invariant s ->
  adapter_event e s = Some (s', acts) ->
  adapter_invariant s'.
Proof.
  intros Inv. unfold adapter_event.
  destruct (event_enabled e s); [|discriminate].
  destruct (event_handler e s) as [[[u s1] l]|] eqn:E; [|discriminate].
  intros R. injection R as <- <-.
  exact (wp_elim _ _ _ _ _ _ (event_handler_invariant e s Inv) E).
Qed.

Lemma adapter_reachable_invariant s :
  adapter_reachable s -> adapter_invariant s.
Proof.
  induction 1 as [p core techs | e s s' acts _ IH Hev].
  - unfold adapter_invariant; simpl. repeat split; intros; congruence.
  - eapply adapter_event_invariant; eassumption.
Qed.

End AdapterInvariant.

(** *** The state machine *)

Lemma adapter_run_reachable {decls : NciCoreDecls} es : forall s s' acts,
  adapter_reachable s -> adapter_run es s = Some (s', acts) ->
  adapter_reachable s'.
Proof.
  induction es as [|e es IH]; simpl; intros s s' acts R E.
  - injection E as <- _. exact R.
  - destruct (adapter_event e s) as [[s1 l1]|] eqn:E1; [|discriminate].
    destruct (adapter_run es s1) as [[s2 l2]|] eqn:E2; [|discriminate].
    injection E as <- _. eapply IH; [|exact E2].
    eapply adapter_after; eassumption.
Qed.

Lemma fresh_adapter_reachable : adapter_reachable (decls := nci_decls) fresh_adapter.
Proof. apply adapter_initial. Qed.

Lemma peer_adapter_run :
  adapter_run (decls := nci_decls) peer_events fresh_adapter =
  Some (peer_adapter,
        [nfc_adapter_add_peer_initiator_a 1]).
Proof. reflexivity. Qed.

Lemma tag_adapter_run :
  adapter_run (decls := nci_decls) tag_events fresh_adapter =
  Some (tag_adapter, [nfc_adapter_add_tag_t2 1]).
Proof. reflexivity. Qed.

Lemma reactivating_adapter_run :
  adapter_run (decls := nci_decls) [Reactivate (Some 1%nat)] tag_adapter =
  Some (reactivating_adapter, [nci_core_set_state NCI_RFST_DISCOVERY]).
Proof. reflexivity. Qed.

Lemma ce_adapter_run :
  adapter_run (decls := nci_decls) ce_events fresh_adapter =
  Some (ce_adapter, [nfc_adapter_add_host 3]).
Proof. reflexivity. Qed.

Lemma ce_reactivating_adapter_run :
  adapter_run (decls := nci_decls) [NextStateChanged ce_lost_core] ce_adapter =
  Some (ce_reactivating_adapter, [nci_core_set_tech 0x0c]).
Proof. reflexivity. Qed.

Section AdapterFacts.

Context {decls : NciCoreDecls}.

Lemma need_presence_checks_iff (s : NciAdapter) :
  nci_adapter_need_presence_checks s = true <->
  target s <> None /\
  exists intf, active_intf s = Some intf /\ protocol intf <> NCI_PROTOCOL_NFC_DEP.
Proof.
  unfold nci_adapter_need_presence_checks.
  destruct (target s) as [t|]; [|split; [discriminate | intros [F _]; congruence]].
  destruct (active_intf s) as [intf|];
    [|split; [discriminate | intros [_ [i [F _]]]; discriminate]].
  rewrite negb_true_iff. split.
  - intros E. split; [discriminate|]. exists intf. split; [reflexivity|].
    intros P. rewrite P in E. discriminate.
  - intros [_ [i [E P]]]. injection E as <-.
    destruct (protocol intf); try reflexivity. congruence.
Qed.

(** C5, as the code has it.  In every reachable state of the adapter, if
    [active_intf] is set then [internal_state] is not IDLE.  (The converse
    fails: see the counterexample.) *)
Theorem active_intf_implies_not_idle :
  forall s : NciAdapter,
    adapter_reachable s ->
    active_intf s <> None ->
    internal_state s <> NCI_ADAPTER_IDLE.
Proof.
  intros s R A. destruct (adapter_reachable_invariant s R) as (It & Ii & Ia & _).
  destruct (Ia A) as [T | I].
  - destruct (It T) as [_ St]. intros E. rewrite E in St. exact St.
  - specialize (Ii I). intros E. rewrite E in Ii. exact Ii.
Qed.

(** C6, as the code has it.  In every reachable state of the adapter, if
    the presence check timer is armed then [target] is set and
    [active_intf] is set with a protocol other than NFC-DEP; and when an
    activation has just been handled, the timer is armed if and only if
    this is so.  (Between activations the converse fails: see the
    counterexample.) *)
Theorem presence_check_timer_implies_target :
  forall s : NciAdapter,
    adapter_reachable s ->
    (presence_check_timer s <> None ->
     target s <> None /\
     exists intf, active_intf s = Some intf /\
                  protocol intf <> NCI_PROTOCOL_NFC_DEP) /\
    (forall ntf fw s' acts,
       adapter_event (IntfActivated ntf fw) s = Some (s', acts) ->
       (presence_check_timer s' <> None <->
        target s' <> None /\
        exists intf, active_intf s' = Some intf /\
                     protocol intf <> NCI_PROTOCOL_NFC_DEP)).
Proof.
  intros s R. split.
  - intros T. apply need_presence_checks_iff.
    destruct (adapter_reachable_invariant s R) as (_ & _ & _ & _ & It).
    exact (It T).
  - intros ntf fw s' acts E. rewrite <- need_presence_checks_iff.
    unfold adapter_event in E.
    destruct (event_enabled (IntfActivated ntf fw) s); [|discriminate].
    destruct (event_handler (IntfActivated ntf fw) s) as [[[u s1] l]|] eqn:H;
      [|discriminate].
    injection E as <- _.
    exact (wp_elim _ _ _ _ _ _ (activation_timer ntf fw s) H).
Qed.

(** C7.  A request to reactivate the current target of the adapter.  When
    [internal_state] is HAVE_TARGET, [active_intf] is set and the current
    and the next state of the NCI core are both POLL_ACTIVE or both
    LISTEN_ACTIVE, the request returns true, [internal_state] becomes
    REACTIVATING_TARGET, the presence check timer is stopped, every other
    field keeps its value, and the one call made asks the core for
    DISCOVERY.  In every other case it returns false, the adapter is
    unchanged and no call is made. *)
Theorem reactivate_current_target :
  forall (self : NciAdapter) (t : option nat),
    same_target self t = true ->
    let allowed :=
      internal_state self = NCI_ADAPTER_HAVE_TARGET /\
      active_intf self <> None /\
      exists core, nci self = Some core /\
        ((current_state core = NCI_RFST_POLL_ACTIVE /\
          next_state core = NCI_RFST_POLL_ACTIVE) \/
         (current_state core = NCI_RFST_LISTEN_ACTIVE /\
          next_state core = NCI_RFST_LISTEN_ACTIVE)) in
    (allowed ->
     exists self' : NciAdapter,
       nci_adapter_reactivate t self =
         Some (true, self', [nci_core_set_state NCI_RFST_DISCOVERY]) /\
       internal_state self' = NCI_ADAPTER_REACTIVATING_TARGET /\
       presence_check_timer self' = None /\
       parent self' = parent self /\ nci self' = nci self /\
       target self' = target self /\
       presence_check_id self' = presence_check_id self /\
       active_intf self' = active_intf self /\
       initiator self' = initiator self /\
       ce_reactivation_timer self' = ce_reactivation_timer self /\
       supported_techs self' = supported_techs self /\
       active_techs self' = active_techs self /\
       active_tech_mask self' = active_tech_mask self /\
       tag self' = tag self /\ host self' = host self /\ peer self' = peer self /\
       mode_priv self' = mode_priv self) /\
    (~ allowed -> nci_adapter_reactivate t self = Some (false, self, [])).
Proof.
  intros self t Hsame allowed. subst allowed.
  unfold nci_adapter_reactivate, bind, get, ret, modify, call,
    nci_adapter_set_internal_state. rewrite Hsame. split.
  - intros (Hst & Hintf & core & Hnci & Hcore).
    rewrite Hnci, Hst.
    destruct (active_intf self) eqn:Ha; [|congruence]. simpl.
    destruct Hcore as [[-> ->] | [-> ->]]; simpl;
      (eexists; split; [reflexivity|]); simpl; rewrite ?Ha, ?Hnci;
      repeat split; reflexivity.
  - intros Hno. destruct (nci self) as [core|] eqn:Hnci; [|reflexivity].
    destruct (active_intf self) as [intf|] eqn:Hintf; simpl; [|reflexivity].
    destruct (internal_state self) eqn:Hst; simpl; try reflexivity.
    destruct (current_state core) eqn:Hc, (next_state core) eqn:Hn; simpl;
      try reflexivity; exfalso; apply Hno;
      (split; [reflexivity | split; [discriminate |]]);
      exists core; (split; [reflexivity |]); rewrite Hc, Hn; tauto.
Qed.

(** C8.  The adapter is in the state HAVE_INITIATOR with a host, and the
    constants of the technologies are what their names say ([NCI_TECH_NONE]
    is zero, the two listen masks are not).  A deactivation then moves the
    adapter to REACTIVATING_CE and arms the card emulation reactivation
    timer with 1500 ms.  If the technology of the initiator is A, it also
    sets [active_tech_mask] to [NCI_TECH_A_LISTEN] and the one call made
    gives [active_techs & NCI_TECH_A_LISTEN] to the core; likewise for B
    with [NCI_TECH_B_LISTEN]; for another technology the mask stays and no
    call is made.  Every other field keeps its value. *)
Theorem deactivation_locks_ce_tech :
  forall (self : NciAdapter) (i : NfcInitiator) (h : nat),
    internal_state self = NCI_ADAPTER_HAVE_INITIATOR ->
    host self = Some h ->
    initiator self = Some i ->
    NCI_TECH_NONE = 0 ->
    NCI_TECH_A_LISTEN <> 0 ->
    NCI_TECH_B_LISTEN <> 0 ->
    exists self' : NciAdapter,
      nci_adapter_deactivation self =
        Some (tt, self',
              match initiator_technology i with
              | NFC_TECHNOLOGY_A =>
                  [nci_core_set_tech (Z.land (active_techs self) NCI_TECH_A_LISTEN)]
              | NFC_TECHNOLOGY_B =>
                  [nci_core_set_tech (Z.land (active_techs self) NCI_TECH_B_LISTEN)]
              | _ => []
              end) /\
      internal_state self' = NCI_ADAPTER_REACTIVATING_CE /\
      ce_reactivation_timer self' = Some 1500 /\
      active_tech_mask self' =
        match initiator_technology i with
        | NFC_TECHNOLOGY_A => NCI_TECH_A_LISTEN
        | NFC_TECHNOLOGY_B => NCI_TECH_B_LISTEN
        | _ => active_tech_mask self
        end /\
      parent self' = parent self /\ nci self' = nci self /\
      target self' = target self /\
      presence_check_id self' = presence_check_id self /\
      presence_check_timer self' = presence_check_timer self /\
      active_intf self' = active_intf self /\
      initiator self' = initiator self /\
      supported_techs self' = supported_techs self /\
      active_techs self' = active_techs self /\
      tag self' = tag self /\ host self' = host self /\ peer self' = peer self /\
      mode_priv self' = mode_priv self.
Proof.
  intros self i h Hst Hhost Hinit Hnone Ha Hb.
  unfold nci_adapter_deactivation, bind, get, ret, modify, call, when,
    nci_adapter_set_internal_state, nci_adapter_start_ce_reactivation_timer.
  rewrite Hst, Hhost, Hinit. simpl.
  apply Z.eqb_neq in Ha, Hb.
  destruct (initiator_technology i); simpl;
    rewrite ?Hnone, ?Ha, ?Hb; simpl;
    (eexists; split; [reflexivity|]); simpl; rewrite ?Hhost, ?Hinit;
    repeat split; reflexivity.
Qed.

End AdapterFacts.

Lemma tag_adapter_reachable : adapter_reachable (decls := nci_decls) tag_adapter.
Proof.
  exact (adapter_run_reachable _ _ _ _ fresh_adapter_reachable tag_adapter_run).
Qed.

Lemma ce_adapter_reachable : adapter_reachable (decls := nci_decls) ce_adapter.
Proof.
  exact (adapter_run_reachable _ _ _ _ fresh_adapter_reachable ce_adapter_run).
Qed.

Lemma ce_reactivating_adapter_reachable :
  adapter_reachable (decls := nci_decls) ce_reactivating_adapter.
Proof.
  exact (adapter_run_reachable _ _ _ _ ce_adapter_reachable
           ce_reactivating_adapter_run).
Qed.

Lemma active_intf_implies_not_idle_witness :
  internal_state tag_adapter <> NCI_ADAPTER_IDLE.
Proof.
  apply (active_intf_implies_not_idle (decls := nci_decls) tag_adapter
           tag_adapter_reachable).
  discriminate.
Defined.

(** The converse of C5 fails: after the activation of an NFC-DEP peer the
    adapter holds a target, its state is HAVE_TARGET, and [active_intf] is
    not set. *)
Lemma active_intf_iff_not_idle_counterexample :
  adapter_run (decls := nci_decls) peer_events fresh_adapter =
    Some (peer_adapter, [nfc_adapter_add_peer_initiator_a 1]) /\
  adapter_reachable (decls := nci_decls) peer_adapter /\
  ~ (active_intf peer_adapter <> None <->
     internal_state peer_adapter <> NCI_ADAPTER_IDLE).
Proof.
  split; [exact peer_adapter_run|]. split.
  - exact (adapter_run_reachable _ _ _ _ fresh_adapter_reachable peer_adapter_run).
  - simpl. intros [_ H]. apply H; [discriminate | reflexivity].
Qed.

(** It fails as well, until the NCI core reports its next state, when the
    framework deactivates the target: the target and [active_intf] are
    dropped and [internal_state] stays. *)
Lemma deactivate_target_keeps_state :
  exists s acts,
    adapter_run (decls := nci_decls) [DeactivateTarget (Some 1%nat)] tag_adapter =
      Some (s, acts) /\
    target s = None /\ active_intf s = None /\
    internal_state s = NCI_ADAPTER_HAVE_TARGET.
Proof.
  eexists. eexists. split; [reflexivity|]. repeat split.
Qed.

Lemma presence_check_timer_implies_target_witness :
  target tag_adapter <> None /\
  exists intf, active_intf tag_adapter = Some intf /\
               protocol intf <> NCI_PROTOCOL_NFC_DEP.
Proof.
  apply (proj1 (presence_check_timer_implies_target (decls := nci_decls)
                  tag_adapter tag_adapter_reachable)).
  discriminate.
Defined.

(** C6 fails between activations: after a reactivation request the target
    is still set and [active_intf] still has the protocol T2T, but the
    presence check timer is stopped. *)
Lemma presence_check_timer_iff_counterexample :
  adapter_run (decls := nci_decls) (tag_events ++ [Reactivate (Some 1%nat)])
    fresh_adapter =
    Some (reactivating_adapter,
          [nfc_adapter_add_tag_t2 1; nci_core_set_state NCI_RFST_DISCOVERY]) /\
  adapter_reachable (decls := nci_decls) reactivating_adapter /\
  ~ (presence_check_timer reactivating_adapter <> None <->
     target reactivating_adapter <> None /\
     exists intf, active_intf reactivating_adapter = Some intf /\
                  protocol intf <> NCI_PROTOCOL_NFC_DEP).
Proof.
  split; [reflexivity|]. split.
  - exact (adapter_run_reachable _ _ _ _ tag_adapter_reachable
             reactivating_adapter_run).
  - simpl. intros [_ H]. apply H; [|reflexivity].
    split; [discriminate|]. eexists. split; [reflexivity | discriminate].
Qed.

(** The timer is also stopped, and the target kept, when a presence check
    cannot be started. *)
Lemma presence_check_not_started :
  exists s acts,
    adapter_run (decls := nci_decls) [PresenceCheckTimer true 0] tag_adapter =
      Some (s, acts) /\
    presence_check_timer s = None /\ target s = target tag_adapter /\
    active_intf s = active_intf tag_adapter.
Proof.
  eexists. eexists. split; [reflexivity|]. repeat split.
Qed.

Lemma reactivate_current_target_witness :
  (exists self' : NciAdapter,
     nci_adapter_reactivate (Some 1%nat) tag_adapter =
       Some (true, self', [nci_core_set_state NCI_RFST_DISCOVERY]) /\
     internal_state self' = NCI_ADAPTER_REACTIVATING_TARGET /\
     presence_check_timer self' = None /\
     target self' = target tag_adapter) /\
  nci_adapter_reactivate (Some 1%nat)
    (set_nci (Some {| current_state := NCI_RFST_POLL_ACTIVE;
                      next_state := NCI_RFST_DISCOVERY |}) tag_adapter) =
    Some (false,
          set_nci (Some {| current_state := NCI_RFST_POLL_ACTIVE;
                           next_state := NCI_RFST_DISCOVERY |}) tag_adapter,
          []).
Proof.
  split.
  - destruct (proj1 (reactivate_current_target tag_adapter (Some 1%nat) eq_refl))
      as (self' & E & St & Tm & _ & _ & Tg & _).
    { split; [reflexivity|]. split; [discriminate|].
      eexists. split; [reflexivity|]. left. split; reflexivity. }
    exists self'. split; [exact E|]. split; [exact St|].
    split; [exact Tm | exact Tg].
  - apply (proj2 (reactivate_current_target
                    (set_nci (Some {| current_state := NCI_RFST_POLL_ACTIVE;
                                      next_state := NCI_RFST_DISCOVERY |})
                       tag_adapter) (Some 1%nat) eq_refl)).
    intros (_ & _ & core & E & [[_ N] | [C _]]); simpl in E;
      injection E as <-; discriminate.
Defined.

Lemma deactivation_locks_ce_tech_witness :
  exists self' : NciAdapter,
    nci_adapter_deactivation (decls := nci_decls) ce_adapter =
      Some (tt, self', [nci_core_set_tech 0x0c]) /\
    internal_state self' = NCI_ADAPTER_REACTIVATING_CE /\
    ce_reactivation_timer self' = Some 1500 /\
    active_tech_mask self' = 0x0c /\
    initiator self' = initiator ce_adapter.
Proof.
  destruct (deactivation_locks_ce_tech (decls := nci_decls) ce_adapter
              {| initiator_ptr := 3; initiator_technology := NFC_TECHNOLOGY_A |}
              4%nat eq_refl eq_refl eq_refl eq_refl)
    as (self' & E & St & Tm & Mk & _ & _ & _ & _ & _ & _ & In & _);
    [discriminate | discriminate |].
  exists self'. split; [exact E|]. split; [exact St|]. split; [exact Tm|].
  split; [exact Mk | exact In].
Defined.

(** * Further properties of the code *)

(** ** The interface info and the notification it was built from *)

Lemma mode_param_match_poll_a_refl (pa : NciModeParamPollA) :
  mode_param_match_poll_a pa pa = true.
Proof.
  apply mode_param_match_poll_a_spec. repeat split. right. reflexivity.
Qed.

Lemma mode_param_match_poll_b_refl (pb : NciModeParamPollB) :
  mode_param_match_poll_b pb pb = true.
Proof. apply mode_param_match_poll_b_spec. repeat split. Qed.

(** The interface info that [nci_adapter_intf_info_new] builds from a
    notification matches this notification, provided that the copy of the
    parsed mode parameter ([nci_util_copy_mode_param], of libncicore), when
    there is one, holds what the notification holds.  This is what lets a
    reactivated tag be recognised when it answers as before. *)
Theorem intf_info_new_matches {decls : NciCoreDecls} :
  forall ntf : NciIntfActivationNtf,
    (forall copy, nci_util_copy_mode_param (ntf_mode_param ntf) (ntf_mode ntf) =
                    Some copy -> ntf_mode_param ntf = Some copy) ->
    nci_adapter_intf_info_matches (Some (nci_adapter_intf_info_new ntf)) ntf = true.
Proof.
  intros ntf Hcopy.
  rewrite intf_info_matches_reduces by reflexivity.
  unfold nci_adapter_info_mode_params_matches, nci_adapter_intf_info_new. simpl.
  assert (F : data_matches (ntf_mode_param_bytes ntf) (ntf_mode_param_bytes ntf) = true)
    by (apply data_matches_eq; reflexivity).
  destruct (nci_util_copy_mode_param (ntf_mode_param ntf) (ntf_mode ntf))
    as [copy|] eqn:E; [|exact F].
  rewrite (Hcopy copy eq_refl).
  destruct (ntf_mode ntf), (ntf_rf_intf ntf);
    auto using mode_param_match_poll_a_refl, mode_param_match_poll_b_refl.
Qed.

Lemma intf_info_new_matches_witness :
  nci_adapter_intf_info_matches
    (Some (nci_adapter_intf_info_new (decls := nci_decls)
             (type_4b_ntf [Byte.x01; Byte.x02; Byte.x03; Byte.x04])))
    (type_4b_ntf [Byte.x01; Byte.x02; Byte.x03; Byte.x04]) = true.
Proof.
  apply (intf_info_new_matches (decls := nci_decls)).
  intros copy E. exact E.
Defined.

Lemma rf_beq_eq (x y : NCI_RF_INTERFACE) :
  NCI_RF_INTERFACE_beq x y = true <-> x = y.
Proof. destruct x, y; simpl; split; congruence. Qed.

Lemma protocol_beq_eq (x y : NCI_PROTOCOL) :
  NCI_PROTOCOL_beq x y = true <-> x = y.
Proof. destruct x, y; simpl; split; congruence. Qed.

Lemma mode_beq_eq (x y : NCI_MODE) : NCI_MODE_beq x y = true <-> x = y.
Proof. destruct x, y; simpl; split; congruence. Qed.

(** Outside of the three cases with a comparison of their own (passive
    Poll A on the Frame or the ISO-DEP interface, passive Poll B on the
    ISO-DEP interface), or when the parsed mode parameter is missing on
    either side, the match predicate is the equality of [rf_intf],
    [protocol], [mode], of the raw mode parameter bytes and of the raw
    activation parameter bytes. *)
Theorem intf_info_matches_raw :
  forall (info : NciAdapterIntfInfo) (ntf : NciIntfActivationNtf),
    mode_param_parsed info = None \/ ntf_mode_param ntf = None \/
    ~ ((ntf_mode ntf = NCI_MODE_PASSIVE_POLL_A /\
        (ntf_rf_intf ntf = NCI_RF_INTERFACE_FRAME \/
         ntf_rf_intf ntf = NCI_RF_INTERFACE_ISO_DEP)) \/
       (ntf_mode ntf = NCI_MODE_PASSIVE_POLL_B /\
        ntf_rf_intf ntf = NCI_RF_INTERFACE_ISO_DEP)) ->
    (nci_adapter_intf_info_matches (Some info) ntf = true <->
     rf_intf info = ntf_rf_intf ntf /\
     protocol info = ntf_protocol ntf /\
     mode info = ntf_mode ntf /\
     mode_param info = ntf_mode_param_bytes ntf /\
     activation_param info = ntf_activation_param_bytes ntf).
Proof.
  intros info ntf H.
  assert (E : nci_adapter_info_mode_params_matches info ntf =
              data_matches (mode_param info) (ntf_mode_param_bytes ntf)).
  { unfold nci_adapter_info_mode_params_matches.
    destruct (mode_param_parsed info) as [mp1|]; [|reflexivity].
    destruct (ntf_mode_param ntf) as [mp2|]; [|reflexivity].
    destruct H as [H | [H | H]]; try discriminate.
    destruct (ntf_mode ntf), (ntf_rf_intf ntf); try reflexivity;
      exfalso; apply H; tauto. }
  unfold nci_adapter_intf_info_matches. rewrite E.
  rewrite !andb_true_iff, !data_matches_eq, rf_beq_eq, protocol_beq_eq,
    mode_beq_eq.
  tauto.
Qed.

Lemma intf_info_matches_raw_witness :
  nci_adapter_intf_info_matches
    (Some (nci_adapter_intf_info_new (decls := nci_decls) ce_ntf)) ce_ntf = true.
Proof.
  apply (proj2 (intf_info_matches_raw
                  (nci_adapter_intf_info_new (decls := nci_decls) ce_ntf) ce_ntf
                  (or_introl eq_refl))).
  repeat split.
Defined.

(** ** The construction and the calls of a target *)

Section TargetCalls.

Context {decls : NciCoreDecls}.

Lemma nci_target_new_idle (ntf : NciIntfActivationNtf) (self : NciTarget) :
  nci_target_new ntf = Some self ->
  adapter self = true /\ send_in_progress self = 0 /\
  transmit_in_progress self = false /\ pending_reply self = None.
Proof.
  unfold nci_target_new.
  destruct (ntf_mode ntf), (ntf_protocol ntf), (ntf_rf_intf ntf); simpl;
    intros E; try discriminate E; injection E as <-; simpl;
    repeat split.
Qed.

Lemma nci_target_new_finish_fn (ntf : NciIntfActivationNtf) (self : NciTarget) :
  nci_target_new ntf = Some self ->
  transmit_finish_fn self =
    match ntf_rf_intf ntf with
    | NCI_RF_INTERFACE_FRAME => Some nci_target_transmit_finish_frame
    | NCI_RF_INTERFACE_ISO_DEP => Some nci_target_transmit_finish_iso_dep
    | NCI_RF_INTERFACE_NFC_DEP => Some nci_target_transmit_finish_nfc_dep
    | _ => None
    end.
Proof.
  unfold nci_target_new.
  destruct (ntf_mode ntf), (ntf_protocol ntf), (ntf_rf_intf ntf); simpl;
    intros E; try discriminate E; injection E as <-; reflexivity.
Qed.

(** A target that [nci_target_new] returns is attached to its adapter and
    idle; the RF interface alone selects its finish function and its
    transmit timeout (Frame: the frame function and no timeout of its own,
    ISO-DEP: 2500 ms, NFC-DEP: 0), the protocol alone selects its presence
    check (T2T and ISO-DEP have one, the others have none), and the Frame
    interface comes with neither the ISO-DEP nor the NFC-DEP protocol. *)
Theorem nci_target_new_shape :
  forall (ntf : NciIntfActivationNtf) (self : NciTarget),
    nci_target_new ntf = Some self ->
    (adapter self = true /\ send_in_progress self = 0 /\
     transmit_in_progress self = false /\ pending_reply self = None) /\
    (transmit_finish_fn self =
       match ntf_rf_intf ntf with
       | NCI_RF_INTERFACE_FRAME => Some nci_target_transmit_finish_frame
       | NCI_RF_INTERFACE_ISO_DEP => Some nci_target_transmit_finish_iso_dep
       | NCI_RF_INTERFACE_NFC_DEP => Some nci_target_transmit_finish_nfc_dep
       | _ => None
       end /\
     transmit_timeout self =
       match ntf_rf_intf ntf with
       | NCI_RF_INTERFACE_ISO_DEP => 2500
       | NCI_RF_INTERFACE_NFC_DEP => 0
       | _ => -1
       end) /\
    presence_check_fn self =
      match ntf_protocol ntf with
      | NCI_PROTOCOL_T2T => Some nci_target_presence_check_t2
      | NCI_PROTOCOL_ISO_DEP => Some nci_target_presence_check_t4
      | _ => None
      end /\
    (ntf_rf_intf ntf = NCI_RF_INTERFACE_FRAME ->
     ntf_protocol ntf <> NCI_PROTOCOL_ISO_DEP /\
     ntf_protocol ntf <> NCI_PROTOCOL_NFC_DEP).
Proof.
  intros ntf self. unfold nci_target_new.
  destruct (ntf_mode ntf), (ntf_protocol ntf), (ntf_rf_intf ntf); simpl;
    intros E; try discriminate E; injection E as <-; simpl;
    repeat split; congruence.
Qed.

(** [nci_target_new] returns no target exactly for a mode that is not a
    poll mode of the technologies A, B and F, for a protocol that the
    framework does not know (undetermined, T5T, proprietary), for ISO-DEP
    over the technology F, for an RF interface other than Frame, ISO-DEP
    and NFC-DEP, and for the Frame interface with the ISO-DEP or the
    NFC-DEP protocol. *)
Theorem nci_target_new_none :
  forall ntf : NciIntfActivationNtf,
    nci_target_new ntf = None <->
    (ntf_mode ntf <> NCI_MODE_PASSIVE_POLL_A /\
     ntf_mode ntf <> NCI_MODE_ACTIVE_POLL_A /\
     ntf_mode ntf <> NCI_MODE_PASSIVE_POLL_B /\
     ntf_mode ntf <> NCI_MODE_PASSIVE_POLL_F /\
     ntf_mode ntf <> NCI_MODE_ACTIVE_POLL_F) \/
    (ntf_protocol ntf = NCI_PROTOCOL_UNDETERMINED \/
     ntf_protocol ntf = NCI_PROTOCOL_T5T \/
     ntf_protocol ntf = NCI_PROTOCOL_PROPRIETARY) \/
    (ntf_protocol ntf = NCI_PROTOCOL_ISO_DEP /\
     (ntf_mode ntf = NCI_MODE_PASSIVE_POLL_F \/
      ntf_mode ntf = NCI_MODE_ACTIVE_POLL_F)) \/
    (ntf_rf_intf ntf = NCI_RF_INTERFACE_NFCEE_DIRECT \/
     ntf_rf_intf ntf = NCI_RF_INTERFACE_PROPRIETARY) \/
    (ntf_rf_intf ntf = NCI_RF_INTERFACE_FRAME /\
     (ntf_protocol ntf = NCI_PROTOCOL_ISO_DEP \/
      ntf_protocol ntf = NCI_PROTOCOL_NFC_DEP)).
Proof.
  intros ntf. unfold nci_target_new.
  destruct (ntf_mode ntf), (ntf_protocol ntf), (ntf_rf_intf ntf); simpl;
    (split; [intros E; try discriminate E | intros H]);
    try reflexivity;
    try (left; repeat split; discriminate);
    try (right; left; (left; reflexivity) || (right; left; reflexivity)
                      || (right; right; reflexivity));
    try (right; right; left; split;
         [reflexivity | (left; reflexivity) || (right; reflexivity)]);
    try (right; right; right; left;
         (left; reflexivity) || (right; reflexivity));
    try (right; right; right; right; split;
         [reflexivity | (left; reflexivity) || (right; reflexivity)]);
    try (exfalso;
         repeat match goal with
                | H : _ \/ _ |- _ => destruct H
                | H : _ /\ _ |- _ => destruct H
                end; congruence).
Qed.

Lemma finish_transmit_calls (self : NciTarget) (payload : bytes) :
  exists status data,
    snd (nci_target_finish_transmit self payload) =
      [nfc_target_transmit_done status data].
Proof.
  unfold nci_target_finish_transmit. simpl.
  destruct (transmit_finish_fn self) as [fn|]; simpl; [|eauto].
  unfold transmit_finish.
  destruct fn; simpl; eauto.
  destruct (0 <? Z.of_nat (length payload)); simpl; [|eauto].
  destruct (Byte.eqb _ _); simpl; eauto.
Qed.

Lemma finish_transmit_state (self : NciTarget) (payload : bytes) :
  fst (nci_target_finish_transmit self payload) =
  set_transmit_in_progress false self.
Proof.
  unfold nci_target_finish_transmit. simpl.
  destruct (transmit_finish_fn self) as [fn|]; [|reflexivity].
  destruct (transmit_finish fn payload) as [[] done]; reflexivity.
Qed.

(** [nci_target_finish_transmit] reports the completion to the framework
    exactly once, whatever the finish function does with the payload and
    also when the target has none, makes no other call, and does nothing
    to the target but to clear [transmit_in_progress]. *)
Theorem finish_transmit_once :
  forall (self : NciTarget) (payload : bytes),
    (exists status data,
       snd (nci_target_finish_transmit self payload) =
         [nfc_target_transmit_done status data]) /\
    fst (nci_target_finish_transmit self payload) =
      set_transmit_in_progress false self /\
    transmit_in_progress (fst (nci_target_finish_transmit self payload)) = false /\
    send_in_progress (fst (nci_target_finish_transmit self payload)) =
      send_in_progress self /\
    pending_reply (fst (nci_target_finish_transmit self payload)) =
      pending_reply self /\
    adapter (fst (nci_target_finish_transmit self payload)) = adapter self.
Proof.
  intros self payload.
  split; [apply finish_transmit_calls|].
  rewrite finish_transmit_state. repeat split.
Qed.

(** On the ISO-DEP and NFC-DEP interfaces a target that [nci_target_new]
    built hands every payload to the framework as it is, with the status
    OK: no status byte is looked for. *)
Theorem finish_transmit_verbatim :
  forall (ntf : NciIntfActivationNtf) (self : NciTarget) (payload : bytes),
    nci_target_new ntf = Some self ->
    ntf_rf_intf ntf = NCI_RF_INTERFACE_ISO_DEP \/
    ntf_rf_intf ntf = NCI_RF_INTERFACE_NFC_DEP ->
    snd (nci_target_finish_transmit self payload) =
      [nfc_target_transmit_done NFC_TRANSMIT_STATUS_OK payload].
Proof.
  intros ntf self payload Hnew Hrf.
  pose proof (nci_target_new_finish_fn ntf self Hnew) as F.
  unfold nci_target_finish_transmit. simpl. rewrite F.
  destruct Hrf as [-> | ->]; reflexivity.
Qed.

(** On the Frame interface an empty payload, which has no status byte, is
    reported as an error with no data. *)
Theorem frame_finish_transmit_empty :
  forall (ntf : NciIntfActivationNtf) (self : NciTarget),
    nci_target_new ntf = Some self ->
    ntf_rf_intf ntf = NCI_RF_INTERFACE_FRAME ->
    snd (nci_target_finish_transmit self []) =
      [nfc_target_transmit_done NFC_TRANSMIT_STATUS_ERROR []].
Proof.
  intros ntf self Hnew Hrf.
  pose proof (nci_target_new_finish_fn ntf self Hnew) as F.
  unfold nci_target_finish_transmit. simpl. rewrite F, Hrf. reflexivity.
Qed.

(** [nci_target_transmit] followed by [nci_target_cancel_transmit] brings
    an idle target back to where it was.  The transmit is accepted exactly
    when the target still has its adapter and the core returned an id
    other than zero; the data is sent exactly when the target has its
    adapter; the send is cancelled, with the id that the core returned,
    exactly when the transmit was accepted. *)
Theorem transmit_cancel_round_trip :
  forall (self : NciTarget) (data : bytes) (id : Z),
    send_in_progress self = 0 ->
    transmit_in_progress self = false ->
    pending_reply self = None ->
    let '(accepted, sending, sent) := nci_target_transmit data id self in
    let '(after, cancelled) := nci_target_cancel_transmit sending in
    after = self /\
    accepted = (adapter self && negb (id =? 0)) /\
    sent = (if adapter self
            then [nci_core_send_data_msg NCI_STATIC_RF_CONN_ID data] else []) /\
    cancelled = (if accepted then [nci_core_cancel id] else []).
Proof.
  intros self data id Hs Ht Hp.
  unfold nci_target_transmit, nci_target_cancel_transmit, nci_target_cancel_send.
  destruct self as [te pr tt ad sp tp pe pf ff]. simpl in *. subst.
  destruct ad; simpl; [|auto].
  destruct (id =? 0) eqn:E; simpl; rewrite ?E; simpl.
  - apply Z.eqb_eq in E. subst. auto.
  - auto.
Qed.

Lemma some_pair_eq {A B : Type} (x : A * B) (a : A) (b : B) :
  Some x = Some (a, b) -> fst x = a /\ snd x = b.
Proof. intros E. injection E as ->. split; reflexivity. Qed.

Ltac outcome E := apply some_pair_eq in E; destruct E as [<- <-]; simpl.

Ltac kept Inv :=
  simpl; intros N; specialize (Inv N); simpl in *; congruence.

(** What holds of a target between calls, beside [reply_waits_for_send]. *)
Lemma target_call_send (c : TargetCall) (self self' : NciTarget)
    (acts : list Action) :
  (send_in_progress self <> 0 -> transmit_in_progress self = true) ->
  target_call c self = Some (self', acts) ->
  send_in_progress self' <> 0 -> transmit_in_progress self' = true.
Proof.
  intros Inv. destruct c; simpl.
  - destruct (send_in_progress self =? 0) eqn:Es; simpl; [|discriminate].
    destruct (transmit_in_progress self) eqn:Et; simpl; [discriminate|].
    unfold nci_target_transmit. destruct (adapter self); simpl.
    + destruct (id =? 0) eqn:Ei; simpl; intros E; outcome E.
      * apply Z.eqb_eq in Ei. congruence.
      * reflexivity.
    + intros E; outcome E. apply Z.eqb_eq in Es. congruence.
  - intros E; outcome E.
    unfold nci_target_cancel_transmit, nci_target_cancel_send. simpl.
    destruct (send_in_progress self =? 0) eqn:Es; simpl.
    + apply Z.eqb_eq in Es. congruence.
    + destruct (pending_reply self); simpl; congruence.
  - intros E; outcome E.
    unfold nci_target_gone, nci_target_drop_adapter, nci_target_cancel_send.
    destruct (adapter self); [|kept Inv].
    destruct (send_in_progress self =? 0) eqn:Es; simpl.
    + kept Inv.
    + destruct (pending_reply self); simpl; congruence.
  - destruct (send_in_progress self =? 0) eqn:Es; simpl; [discriminate|].
    intros E; outcome E. unfold nci_target_data_sent. simpl.
    destruct (pending_reply self); simpl; [|congruence].
    rewrite finish_transmit_state. simpl. congruence.
  - intros E; outcome E. unfold nci_target_data_packet_handler.
    destruct (cid =? NCI_STATIC_RF_CONN_ID); simpl; [|kept Inv].
    destruct (transmit_in_progress self) eqn:Et; simpl; [|kept Inv].
    destruct (pending_reply self); simpl; [kept Inv|].
    destruct (send_in_progress self =? 0) eqn:Es; simpl.
    + rewrite finish_transmit_state. simpl.
      apply Z.eqb_eq in Es. congruence.
    + intros _. exact Et.
  - intros E; outcome E. kept Inv.
Qed.

(** Between the calls on a target, a send is outstanding only while a
    transmit is in progress: [send_in_progress] is not zero only if
    [transmit_in_progress] is set. *)
Theorem send_in_progress_implies_transmit :
  forall self : NciTarget,
    target_reachable self ->
    send_in_progress self <> 0 ->
    transmit_in_progress self = true.
Proof.
  induction 1 as [ntf self Hnew | c self self' acts _ IH Hcall].
  - destruct (nci_target_new_idle ntf self Hnew) as (_ & S & _).
    congruence.
  - eapply target_call_send; eassumption.
Qed.

Lemma count_transmit_done_app (l1 l2 : list Action) :
  count_transmit_done (l1 ++ l2) =
  (count_transmit_done l1 + count_transmit_done l2)%nat.
Proof.
  induction l1 as [|a l1 IH]; simpl; [reflexivity|].
  destruct a; simpl; rewrite IH; reflexivity.
Qed.

Lemma finish_transmit_count (self : NciTarget) (payload : bytes) :
  count_transmit_done (snd (nci_target_finish_transmit self payload)) = 1%nat /\
  in_flight (fst (nci_target_finish_transmit self payload)) = 0%nat.
Proof.
  destruct (finish_transmit_calls self payload) as (st & d & ->).
  rewrite finish_transmit_state. split; reflexivity.
Qed.

Lemma cancel_send_count (self : NciTarget) :
  count_transmit_done (snd (nci_target_cancel_send self)) = 0%nat /\
  in_flight (fst (nci_target_cancel_send self)) = in_flight self.
Proof.
  unfold nci_target_cancel_send, in_flight.
  destruct (send_in_progress self =? 0); simpl; [auto|].
  destruct (pending_reply self), (adapter self); simpl; auto.
Qed.

Lemma target_call_count (c : TargetCall) (self self' : NciTarget)
    (acts : list Action) :
  (send_in_progress self <> 0 -> transmit_in_progress self = true) ->
  target_call c self = Some (self', acts) ->
  (count_transmit_done acts + in_flight self' <=
   in_flight self + count_transmit [c])%nat.
Proof.
  intros Inv. destruct c; simpl.
  - destruct (send_in_progress self =? 0) eqn:Es; simpl; [|discriminate].
    destruct (transmit_in_progress self) eqn:Et; simpl; [discriminate|].
    unfold nci_target_transmit, in_flight. destruct (adapter self); simpl.
    + destruct (id =? 0); simpl; intros E; outcome E;
        rewrite ?Et; simpl; lia.
    + intros E; outcome E. rewrite Et. simpl. lia.
  - intros E; outcome E. unfold nci_target_cancel_transmit.
    destruct (cancel_send_count (set_transmit_in_progress false self)) as [-> ->].
    unfold in_flight. simpl. lia.
  - intros E; outcome E.
    unfold nci_target_gone, nci_target_drop_adapter.
    destruct (adapter self); [|simpl; lia].
    pose proof (cancel_send_count self) as [C F].
    destruct (nci_target_cancel_send self) as [s l]. simpl in *.
    rewrite count_transmit_done_app, C. unfold in_flight in *. simpl. lia.
  - destruct (send_in_progress self =? 0) eqn:Es; simpl; [discriminate|].
    apply Z.eqb_neq in Es. specialize (Inv Es).
    intros E; outcome E. unfold nci_target_data_sent. simpl.
    destruct (pending_reply self); simpl.
    + destruct (finish_transmit_count
                  (set_pending_reply None (set_send_in_progress 0 self)) b)
        as [-> ->].
      unfold in_flight. rewrite Inv. lia.
    + unfold in_flight. simpl. lia.
  - intros E; outcome E. unfold nci_target_data_packet_handler.
    destruct (cid =? NCI_STATIC_RF_CONN_ID); simpl; [|lia].
    destruct (transmit_in_progress self) eqn:Et; simpl; [|lia].
    destruct (pending_reply self); simpl; [lia|].
    destruct (send_in_progress self =? 0); simpl.
    + destruct (finish_transmit_count self data) as [-> ->].
      unfold in_flight. rewrite Et. lia.
    + unfold in_flight. simpl. rewrite Et. lia.
  - intros E; outcome E. unfold in_flight. simpl. lia.
Qed.

Lemma target_run_count (cs : list TargetCall) :
  forall (self self' : NciTarget) (acts : list Action),
    (send_in_progress self <> 0 -> transmit_in_progress self = true) ->
    target_run cs self = Some (self', acts) ->
    (count_transmit_done acts + in_flight self' <=
     in_flight self + count_transmit cs)%nat.
Proof.
  induction cs as [|c cs IH]; intros self self' acts Inv E;
    cbn [target_run] in E.
  - injection E as <- <-. simpl. lia.
  - destruct (target_call c self) as [[s1 l1]|] eqn:E1; [|discriminate].
    destruct (target_run cs s1) as [[s2 l2]|] eqn:E2; [|discriminate].
    injection E as <- <-.
    pose proof (target_call_count c self s1 l1 Inv E1) as H1.
    pose proof (IH s1 s2 l2 (target_call_send c self s1 l1 Inv E1) E2) as H2.
    rewrite count_transmit_done_app.
    assert (count_transmit (c :: cs) = (count_transmit [c] + count_transmit cs)%nat)
      by (destruct c; reflexivity).
    lia.
Qed.

(** No transmit is completed twice, whatever the order of the data
    packets, of the send completions, of the cancellations and of the
    losses of the adapter: over any sequence of calls on a new target, the
    completions reported to the framework together with the transmit still
    in progress are at most as many as the transmits received. *)
Theorem transmit_done_at_most_once :
  forall (ntf : NciIntfActivationNtf) (cs : list TargetCall)
         (self self' : NciTarget) (acts : list Action),
    nci_target_new ntf = Some self ->
    target_run cs self = Some (self', acts) ->
    (count_transmit_done acts + in_flight self' <= count_transmit cs)%nat.
Proof.
  intros ntf cs self self' acts Hnew Hrun.
  destruct (nci_target_new_idle ntf self Hnew) as (_ & S & T & _).
  pose proof (target_run_count cs self self' acts
                (fun N => False_ind _ (N S)) Hrun) as H.
  unfold in_flight in H at 2. rewrite T in H. exact H.
Qed.

End TargetCalls.

Lemma type_4b_target_new :
  nci_target_new (type_4b_ntf [Byte.x01; Byte.x02; Byte.x03; Byte.x04]) =
  Some type_4b_target.
Proof. reflexivity. Qed.

Lemma nci_target_new_shape_witness :
  transmit_finish_fn t2_target = Some nci_target_transmit_finish_frame /\
  transmit_timeout t2_target = -1 /\
  presence_check_fn t2_target = Some nci_target_presence_check_t2.
Proof.
  destruct (nci_target_new_shape t2_ntf t2_target eq_refl)
    as (_ & (F & T) & P & _).
  exact (conj F (conj T P)).
Defined.

Lemma finish_transmit_verbatim_witness :
  snd (nci_target_finish_transmit (decls := nci_decls) type_4b_target
         [Byte.x6a; Byte.x82]) =
    [nfc_target_transmit_done NFC_TRANSMIT_STATUS_OK [Byte.x6a; Byte.x82]].
Proof.
  apply (finish_transmit_verbatim (decls := nci_decls)
           (type_4b_ntf [Byte.x01; Byte.x02; Byte.x03; Byte.x04])
           type_4b_target [Byte.x6a; Byte.x82]).
  - reflexivity.
  - left. reflexivity.
Defined.

Lemma frame_finish_transmit_empty_witness :
  snd (nci_target_finish_transmit (decls := nci_decls) t2_target []) =
    [nfc_target_transmit_done NFC_TRANSMIT_STATUS_ERROR []].
Proof.
  apply (frame_finish_transmit_empty (decls := nci_decls) t2_ntf t2_target);
    reflexivity.
Defined.

Lemma transmit_cancel_round_trip_witness :
  fst (nci_target_cancel_transmit
         (set_transmit_in_progress true (set_send_in_progress 7 t2_target))) =
    t2_target /\
  snd (nci_target_cancel_transmit
         (set_transmit_in_progress true (set_send_in_progress 7 t2_target))) =
    [nci_core_cancel 7].
Proof.
  destruct (transmit_cancel_round_trip (decls := nci_decls) t2_target
              [Byte.x30; Byte.x00] 7 eq_refl eq_refl eq_refl)
    as (A & _ & _ & C).
  split; [exact A | exact C].
Defined.

Lemma send_in_progress_implies_transmit_witness :
  transmit_in_progress t2_target_waiting = true.
Proof.
  apply (send_in_progress_implies_transmit (decls := nci_decls)
           t2_target_waiting t2_target_waiting_reachable).
  simpl. lia.
Defined.

Lemma transmit_done_at_most_once_witness :
  (count_transmit_done
     [nci_core_send_data_msg 0 [Byte.x30; Byte.x00];
      nfc_target_transmit_done NFC_TRANSMIT_STATUS_OK [Byte.x90]] +
   in_flight t2_target <= 1)%nat.
Proof.
  apply (transmit_done_at_most_once (decls := nci_decls) t2_ntf
           [CallTransmit [Byte.x30; Byte.x00] 7;
            CallDataSent true;
            CallDataPacket 0 [Byte.x90; Byte.x00];
            CallDataPacket 0 [Byte.x90; Byte.x00]]
           t2_target t2_target).
  - reflexivity.
  - reflexivity.
Defined.

(** ** Adapter functions that return

    The rules of [wpa], as those of [wp]. *)

Lemma wpa_ret {A} (a : A) Q s : Q a s [] -> wpa (ret a) Q s.
Proof. exact (fun H => H). Qed.

Lemma wpa_bind {A B} (m : M A) (k : A -> M B) Q s :
  wpa m (fun a s1 l1 => wpa (k a) (fun b s2 l2 => Q b s2 (l1 ++ l2)) s1) s ->
  wpa (bind m k) Q s.
Proof.
  unfold wpa, bind. destruct (m s) as [[[a s1] l1]|]; [|trivial].
  destruct (k a s1) as [[[b s2] l2]|]; trivial.
Qed.

Lemma wpa_get Q s : Q s s [] -> wpa get Q s.
Proof. exact (fun H => H). Qed.

Lemma wpa_modify f Q s : Q tt (f s) [] -> wpa (modify f) Q s.
Proof. exact (fun H => H). Qed.

Lemma wpa_call a Q s : Q tt s [a] -> wpa (call a) Q s.
Proof. exact (fun H => H). Qed.

Lemma wpa_factory a r Q s : Q r s [a] -> wpa (factory a r) Q s.
Proof. exact (fun H => H). Qed.

Lemma wpa_when (c : bool) m Q s :
  (c = true -> wpa m Q s) -> (c = false -> Q tt s []) -> wpa (when c m) Q s.
Proof.
  intros H1 H2. destruct c; unfold when; [apply H1 | apply wpa_ret, H2];
    reflexivity.
Qed.

Lemma wpa_mono {A} (m : M A) (Q Q' : A -> NciAdapter -> list Action -> Prop) s :
  wpa m Q s -> (forall a s' l, Q a s' l -> Q' a s' l) -> wpa m Q' s.
Proof.
  unfold wpa. destruct (m s) as [[[a s1] l1]|]; auto.
Qed.

Lemma wpa_elim {A} (m : M A) Q s :
  wpa m Q s -> exists a s' l, m s = Some (a, s', l) /\ Q a s' l.
Proof.
  unfold wpa. destruct (m s) as [[[a s1] l1]|]; [|contradiction].
  intros H. exists a, s1, l1. split; [reflexivity | exact H].
Qed.

Lemma wpa_intro {A} (m : M A) (Q : A -> NciAdapter -> list Action -> Prop) s a s' l :
  m s = Some (a, s', l) -> Q a s' l -> wpa m Q s.
Proof. unfold wpa. intros ->. exact (fun H => H). Qed.

Section AdapterCalls.

Context {decls : NciCoreDecls}.

Lemma create_known_tag_wpa t ntf fw s Q :
  (forall v l, (forall techs, Forall (tech_call_within techs) l) ->
               Q v (set_tag v s) l) ->
  wpa (nci_adapter_create_known_tag t ntf fw) Q s.
Proof.
  intros H. unfold nci_adapter_create_known_tag, wpa, bind, factory, call, ret,
    nci_adapter_set_active_tag, modify.
  destruct (ntf_protocol ntf), (ntf_rf_intf ntf), (ntf_mode ntf); apply H;
    intros techs; repeat constructor.
Qed.

Lemma create_peer_initiator_wpa t ntf fw s Q :
  (forall v l, (forall techs, Forall (tech_call_within techs) l) ->
               Q v (set_peer v s) l) ->
  wpa (nci_adapter_create_peer_initiator t ntf fw) Q s.
Proof.
  intros H. unfold nci_adapter_create_peer_initiator, wpa, bind, factory, call,
    ret, nci_adapter_set_active_peer, modify.
  destruct (ntf_protocol ntf), (ntf_rf_intf ntf), (ntf_mode ntf); apply H;
    intros techs; repeat constructor.
Qed.

Lemma create_peer_target_wpa i ntf fw s Q :
  (forall v l, (forall techs, Forall (tech_call_within techs) l) ->
               Q v (set_peer v s) l) ->
  wpa (nci_adapter_create_peer_target i ntf fw) Q s.
Proof.
  intros H. unfold nci_adapter_create_peer_target, wpa, bind, factory, call,
    ret, nci_adapter_set_active_peer, modify.
  destruct (ntf_rf_intf ntf), (ntf_mode ntf); apply H;
    intros techs; repeat constructor.
Qed.

Lemma create_host_wpa i ntf fw s Q :
  (forall v l, (forall techs, Forall (tech_call_within techs) l) ->
               Q v (set_host v s) l) ->
  wpa (nci_adapter_create_host i ntf fw) Q s.
Proof.
  intros H. unfold nci_adapter_create_host, wpa, bind, factory, call,
    ret, nci_adapter_set_active_host, modify.
  destruct (ntf_rf_intf ntf); apply H;
    intros techs; repeat constructor.
Qed.

Lemma wpa_on_mode_priv f (Q : unit -> NciAdapter -> list Action -> Prop) s :
  (forall priv techs, Forall (tech_call_within techs) (snd (f priv))) ->
  (forall priv l, (forall techs, Forall (tech_call_within techs) l) ->
                  Q tt (set_mode_priv priv s) l) ->
  wpa (on_mode_priv f) Q s.
Proof.
  intros F H. unfold wpa, on_mode_priv.
  specialize (F (mode_priv s)). destruct (f (mode_priv s)) as [priv l].
  apply H. exact F.
Qed.

(** The mode functions give no technology to the core. *)
Lemma mode_check_calls core priv techs :
  Forall (tech_call_within techs) (snd (nci_adapter_mode_check core priv)).
Proof.
  unfold nci_adapter_mode_check.
  repeat match goal with
         | |- context [if ?c then _ else _] => destruct c
         end; simpl; repeat constructor.
Qed.

Lemma mode_check_cb_calls core priv techs :
  Forall (tech_call_within techs) (snd (nci_adapter_mode_check_cb core priv)).
Proof. apply mode_check_calls. Qed.

Lemma submit_mode_request_calls powered idle_id m priv techs :
  Forall (tech_call_within techs)
    (snd (nci_adapter_submit_mode_request powered idle_id m priv)).
Proof.
  unfold nci_adapter_submit_mode_request. cbv zeta. cbn [snd].
  destruct (negb _ && powered); repeat constructor.
Qed.

End AdapterCalls.

(** The calls of a mode function. *)
Ltac mode_calls :=
  intros ? ?;
  first [ apply mode_check_calls
        | apply mode_check_cb_calls
        | cbv beta zeta; cbn [snd]; apply submit_mode_request_calls
        | cbv beta; cbn [snd];
          repeat first [ apply Forall_nil
                       | apply Forall_cons; [exact I|]
                       | match goal with
                         | |- Forall _ (if ?c then _ else _) => destruct c
                         end ] ].

(** One step through the code of a function that returns. *)
Ltac wpa_step :=
  lazymatch goal with
  | |- wpa (bind _ _) _ _ => apply wpa_bind
  | |- wpa (ret _) _ _ => apply wpa_ret
  | |- wpa get _ _ => apply wpa_get
  | |- wpa (modify _) _ _ => apply wpa_modify
  | |- wpa (call _) _ _ => apply wpa_call
  | |- wpa (factory _ _) _ _ => apply wpa_factory
  | |- wpa (when _ _) _ _ => apply wpa_when; intros ?
  | |- wpa (on_mode_priv _) _ _ =>
      apply wpa_on_mode_priv; [mode_calls | intros ? ? ?]
  | |- wpa mode_check _ _ => unfold mode_check
  | |- wpa (nci_adapter_set_internal_state _) _ _ =>
      unfold nci_adapter_set_internal_state
  | |- wpa (nci_adapter_set_active_tag _) _ _ => unfold nci_adapter_set_active_tag
  | |- wpa (nci_adapter_set_active_peer _) _ _ => unfold nci_adapter_set_active_peer
  | |- wpa (nci_adapter_set_active_host _) _ _ => unfold nci_adapter_set_active_host
  | |- wpa nci_adapter_clear_active_intf _ _ => unfold nci_adapter_clear_active_intf
  | |- wpa nci_adapter_start_ce_reactivation_timer _ _ =>
      unfold nci_adapter_start_ce_reactivation_timer
  | |- wpa nci_adapter_drop_all _ _ => unfold nci_adapter_drop_all
  | |- wpa nci_adapter_drop_target _ _ => unfold nci_adapter_drop_target
  | |- wpa nci_adapter_drop_initiator _ _ => unfold nci_adapter_drop_initiator
  | |- wpa (nci_adapter_create_known_tag _ _ _) _ _ =>
      apply create_known_tag_wpa; intros ? ? ?
  | |- wpa (nci_adapter_create_peer_initiator _ _ _) _ _ =>
      apply create_peer_initiator_wpa; intros ? ? ?
  | |- wpa (nci_adapter_create_peer_target _ _ _) _ _ =>
      apply create_peer_target_wpa; intros ? ? ?
  | |- wpa (nci_adapter_create_host _ _ _) _ _ =>
      apply create_host_wpa; intros ? ? ?
  | |- wpa (match ?x with _ => _ end) _ _ => destruct x eqn:?
  | |- wpa (if ?x then _ else _) _ _ => destruct x eqn:?
  end; cbv beta zeta.

Ltac wpa_run := repeat wpa_step.

Section AdapterSweeps.

Context {decls : NciCoreDecls}.

Lemma land_within (a m s : Z) : Z.land a s = a -> Z.land (Z.land a m) s = Z.land a m.
Proof.
  intros H. rewrite <- Z.land_assoc, (Z.land_comm m s), Z.land_assoc, H.
  reflexivity.
Qed.

Lemma lor_within (x sup y : Z) :
  Z.land x sup = x -> Z.land (Z.lor x (Z.land sup y)) sup = Z.lor x (Z.land sup y).
Proof.
  intros H. rewrite Z.land_lor_distr_l, H.
  rewrite <- Z.land_assoc, (Z.land_comm y sup), Z.land_assoc, Z.land_diag.
  reflexivity.
Qed.

Lemma land_self_within (sup z : Z) : Z.land (Z.land sup z) sup = Z.land sup z.
Proof.
  rewrite <- Z.land_assoc, (Z.land_comm z sup), Z.land_assoc, Z.land_diag.
  reflexivity.
Qed.

Ltac within_solve :=
  unfold techs_supported in *; simpl in *;
  repeat match goal with
         | |- _ /\ _ => split
         | |- Forall _ (_ ++ _) => apply Forall_app
         | |- Forall _ [] => constructor
         | |- Forall _ (_ :: _) => constructor
         | H : forall techs, Forall (tech_call_within techs) ?l |- Forall _ ?l =>
             apply H
         end; simpl; auto using land_within.

(** A null dereference is excluded by what holds of the adapter. *)
Ltac no_null_dereference :=
  lazymatch goal with
  | |- wpa null_dereference _ _ =>
      exfalso;
      unfold adapter_invariant, nci_adapter_need_presence_checks,
        event_enabled, is_some in *; simpl in *;
      repeat match goal with
             | H : ?f ?s = _ |- _ => is_var s; rewrite H in *
             end;
      simpl in *;
      repeat match goal with
             | H : match ?x with _ => _ end = _ |- _ =>
                 destruct x eqn:?; simpl in *; try discriminate
             end;
      intuition (try congruence; try discriminate)
  end.

Lemma activation_within ntf fw s :
  techs_supported s ->
  wpa (nci_adapter_activation ntf fw)
    (fun _ s' l => supported_techs s' = supported_techs s /\
                   techs_supported s' /\
                   Forall (tech_call_within (supported_techs s)) l) s.
Proof.
  intros T. unfold nci_adapter_activation, nci_adapter_activation_update_state,
    nci_adapter_activation_detect.
  wpa_run; within_solve.
Qed.

Lemma set_allowed_techs_within techs s :
  wpa (nci_adapter_set_allowed_techs techs)
    (fun _ s' l => supported_techs s' = supported_techs s /\
                   techs_supported s' /\
                   Forall (tech_call_within (supported_techs s)) l) s.
Proof.
  unfold nci_adapter_set_allowed_techs. wpa_run.
  assert (A : forall a, Z.land a (supported_techs s) = a ->
              forall t bit,
                Z.land (if negb (Z.land techs (nfc_technology_bit t) =? 0)
                        then Z.lor a (Z.land (supported_techs s) bit) else a)
                  (supported_techs s) =
                (if negb (Z.land techs (nfc_technology_bit t) =? 0)
                 then Z.lor a (Z.land (supported_techs s) bit) else a)).
  { intros a Ha t bit. destruct (negb _); [apply lor_within, Ha | exact Ha]. }
  within_solve.
  - apply A, A, A, land_self_within.
  - apply land_within, A, A, A, land_self_within.
Qed.

Lemma event_within e s :
  adapter_invariant s ->
  techs_supported s ->
  event_enabled e s = true ->
  wpa (event_handler e)
    (fun _ s' l => supported_techs s' = supported_techs s /\
                   techs_supported s' /\
                   Forall (tech_call_within (supported_techs s)) l) s.
Proof.
  intros Inv T En. destruct e; simpl event_handler.
  - apply activation_within, T.
  - unfold nci_adapter_next_state_changed, nci_adapter_state_check,
      nci_adapter_deactivation.
    wpa_run; try no_null_dereference; within_solve.
  - unfold nci_adapter_current_state_changed, nci_adapter_state_check.
    wpa_run; try no_null_dereference; within_solve.
  - unfold nci_adapter_ce_reactivation_timeout.
    wpa_run; within_solve.
  - unfold nci_adapter_presence_check_timer.
    wpa_run; try no_null_dereference; within_solve.
  - unfold nci_adapter_presence_check_done, nci_adapter_deactivate_target.
    wpa_run; within_solve.
  - unfold nci_adapter_reactivate. wpa_run; within_solve.
  - unfold nci_adapter_deactivate_target. wpa_run; within_solve.
  - unfold nci_adapter_deactivate_initiator. wpa_run; within_solve.
  - apply set_allowed_techs_within.
  - wpa_run; within_solve.
  - wpa_run; within_solve.
  - wpa_run; within_solve.
  - wpa_run; within_solve.
  - wpa_run; within_solve.
  - wpa_run; within_solve.
  - wpa_run; within_solve.
  - apply andb_true_iff in En. destruct En as [_ En].
    wpa_run; try no_null_dereference; within_solve.
Qed.

Ltac owned_solve :=
  unfold objects_owned, is_some in *; simpl in *;
  repeat match goal with
         | H : negb (_ =? 0) = false |- _ => apply negb_false_iff, Z.eqb_eq in H
         | H : (_ =? 0) = true |- _ => apply Z.eqb_eq in H
         end;
  repeat match goal with
         | H : ?f ?s = _ |- _ => is_var s; rewrite H in *
         end;
  simpl in *;
  repeat match goal with
         | H : context [match ?v with _ => _ end] |- _ =>
             is_var v; destruct v; simpl in H; try discriminate H
         end;
  repeat match goal with
         | H : _ /\ _ |- _ => destruct H
         end;
  repeat match goal with |- _ /\ _ => split end; intros;
  first [ congruence | solve [auto] | left; congruence | right; congruence
        | tauto | intuition congruence ].

Lemma event_owned e s :
  adapter_invariant s ->
  objects_owned s ->
  event_enabled e s = true ->
  wpa (event_handler e) (fun _ s' _ => objects_owned s') s.
Proof.
  intros Inv O En. destruct e; simpl event_handler.
  - unfold nci_adapter_activation, nci_adapter_activation_update_state,
      nci_adapter_activation_detect.
    clear Inv En. wpa_run; owned_solve.
  - unfold nci_adapter_next_state_changed, nci_adapter_state_check,
      nci_adapter_deactivation.
    wpa_run; try no_null_dereference; clear Inv En; owned_solve.
  - unfold nci_adapter_current_state_changed, nci_adapter_state_check.
    wpa_run; try no_null_dereference; clear Inv En; owned_solve.
  - unfold nci_adapter_ce_reactivation_timeout.
    clear Inv En. wpa_run; owned_solve.
  - unfold nci_adapter_presence_check_timer.
    wpa_run; try no_null_dereference; clear Inv En; owned_solve.
  - unfold nci_adapter_presence_check_done, nci_adapter_deactivate_target.
    clear Inv En. wpa_run; owned_solve.
  - unfold nci_adapter_reactivate. clear Inv En. wpa_run; owned_solve.
  - unfold nci_adapter_deactivate_target. clear Inv En. wpa_run; owned_solve.
  - unfold nci_adapter_deactivate_initiator. clear Inv En. wpa_run; owned_solve.
  - unfold nci_adapter_set_allowed_techs. clear Inv En. wpa_run; owned_solve.
  - clear Inv En. wpa_run; owned_solve.
  - clear Inv En. wpa_run; owned_solve.
  - clear Inv En. wpa_run; owned_solve.
  - clear Inv En. wpa_run; owned_solve.
  - clear Inv En. wpa_run; owned_solve.
  - clear Inv En. wpa_run; owned_solve.
  - clear Inv En. wpa_run; owned_solve.
  - apply andb_true_iff in En. destruct En as [_ En].
    wpa_run; try no_null_dereference; clear Inv En; owned_solve.
Qed.

End AdapterSweeps.

(** ** What an activation leaves *)

Section Outcome.
Context {decls : NciCoreDecls}.

Ltac outcome_solve s :=
  unfold activation_outcome, adapter_invariant, is_target_state,
    is_initiator_state, is_some in *; simpl in *;
  destruct (target s) eqn:?, (initiator s) eqn:?, (active_intf s) eqn:?;
  simpl in *;
  repeat match goal with
         | H : ?f ?x = _ |- _ => is_var x; rewrite H in *
         end;
  simpl in *; try discriminate;
  repeat match goal with
         | H : context [match ?v with _ => _ end] |- _ =>
             is_var v; destruct v; simpl in H; try discriminate H
         end;
  intuition (try congruence; try discriminate).

Lemma update_state_outcome ntf s :
  adapter_invariant s ->
  ce_reactivation_timer s = None ->
  wpa (nci_adapter_activation_update_state ntf)
    (fun _ s' _ => activation_outcome s') s.
Proof.
  intros Inv C. unfold nci_adapter_activation_update_state.
  wpa_run; outcome_solve s.
Qed.

Lemma detect_outcome ntf fw s :
  activation_outcome s ->
  wpa (nci_adapter_activation_detect ntf fw)
    (fun _ s' _ => activation_outcome s') s.
Proof.
  intros O. unfold nci_adapter_activation_detect.
  wpa_run; outcome_solve s.
Qed.

Lemma ends_app (a : Action) (l1 l2 : list Action) :
  (exists l', l2 = l' ++ [a]) -> exists l', l1 ++ l2 = l' ++ [a].
Proof.
  intros [l' ->]. exists (l1 ++ l'). apply app_assoc.
Qed.

Lemma activation_outcome_wpa ntf fw s :
  adapter_invariant s ->
  wpa (nci_adapter_activation ntf fw)
    (fun _ s' l =>
       activation_outcome s' /\
       (target s' = None -> initiator s' = None ->
        exists l', l = l' ++ [nci_core_set_state NCI_RFST_IDLE])) s.
Proof.
  intros Inv. unfold nci_adapter_activation.
  apply wpa_bind, wpa_modify. cbv beta.
  apply wpa_bind.
  eapply wpa_mono; [apply update_state_outcome; [exact Inv | reflexivity]|].
  cbv beta. intros ? s1 ? O1.
  apply wpa_bind.
  eapply wpa_mono; [apply detect_outcome, O1|].
  cbv beta. clear O1 Inv. intros ? s2 ? O2.
  wpa_run;
    (split; [outcome_solve s2|]);
    unfold is_some in *; intros T I; simpl in *; rewrite ?T, ?I in *;
    simpl in *; try discriminate;
    repeat apply ends_app; exists []; reflexivity.
Qed.

End Outcome.

Section Reachable.
Context {decls : NciCoreDecls}.

Lemma adapter_event_enabled e s s' acts :
  adapter_event e s = Some (s', acts) -> event_enabled e s = true.
Proof.
  unfold adapter_event. destruct (event_enabled e s); [reflexivity | discriminate].
Qed.

Lemma adapter_event_wpa e s s' acts (Q : unit -> NciAdapter -> list Action -> Prop) :
  adapter_event e s = Some (s', acts) ->
  wpa (event_handler e) Q s -> Q tt s' acts.
Proof.
  unfold adapter_event, wpa. destruct (event_enabled e s); [|discriminate].
  destruct (event_handler e s) as [[[[] s1] l1]|]; [|discriminate].
  intros E. injection E as <- <-. exact (fun H => H).
Qed.

Lemma wpa_adapter_event e s (Q : unit -> NciAdapter -> list Action -> Prop) :
  event_enabled e s = true ->
  wpa (event_handler e) Q s ->
  exists s' acts, adapter_event e s = Some (s', acts) /\ Q tt s' acts.
Proof.
  unfold adapter_event, wpa. intros ->.
  destruct (event_handler e s) as [[[[] s1] l1]|]; [|contradiction].
  intros H. exists s1, l1. split; [reflexivity | exact H].
Qed.

Lemma adapter_reachable_techs s : adapter_reachable s -> techs_supported s.
Proof.
  induction 1 as [p core techs | e s s' acts R IH Hev].
  - apply Z.land_diag.
  - apply (adapter_event_wpa _ _ _ _ _ Hev
             (event_within e s (adapter_reachable_invariant s R) IH
                (adapter_event_enabled _ _ _ _ Hev))).
Qed.

Lemma adapter_reachable_owned s : adapter_reachable s -> objects_owned s.
Proof.
  induction 1 as [p core techs | e s s' acts R IH Hev].
  - unfold objects_owned; simpl. repeat split; intros; congruence.
  - apply (adapter_event_wpa _ _ _ _ _ Hev
             (event_owned e s (adapter_reachable_invariant s R) IH
                (adapter_event_enabled _ _ _ _ Hev))).
Qed.

(** An event that can occur in a reachable state of the adapter is handled
    to the end: the presence check timer never fires without a target
    ([self->target->sequence]), a deactivation never finds a host without
    its initiator ([priv->initiator->technology]), and the callbacks of the
    core find the core. *)
Theorem adapter_event_returns e s :
  adapter_reachable s ->
  event_enabled e s = true ->
  exists s' acts, adapter_event e s = Some (s', acts).
Proof.
  intros R En.
  destruct (wpa_adapter_event e s _ En
              (event_within e s (adapter_reachable_invariant s R)
                 (adapter_reachable_techs s R) En)) as (s' & acts & E & _).
  exists s', acts. exact E.
Qed.

(** The adapter never asks the NCI core for a technology that the core did
    not report at the initialisation: over every event from a reachable
    state, [supported_techs] stays as it is, [active_techs] stays among the
    supported technologies, and so does the argument of every
    [nci_core_set_tech]. *)
Theorem techs_within_supported e s s' acts :
  adapter_reachable s ->
  adapter_event e s = Some (s', acts) ->
  supported_techs s' = supported_techs s /\
  Z.land (active_techs s') (supported_techs s') = active_techs s' /\
  forall t, In (nci_core_set_tech t) acts -> Z.land t (supported_techs s) = t.
Proof.
  intros R E.
  destruct (adapter_event_wpa _ _ _ _ _ E
              (event_within e s (adapter_reachable_invariant s R)
                 (adapter_reachable_techs s R)
                 (adapter_event_enabled _ _ _ _ E))) as (S & T & F).
  split; [exact S|]. split; [exact T|].
  intros t I. rewrite Forall_forall in F. exact (F _ I).
Qed.

(** What a reachable adapter holds together: never a target and an
    initiator at once; a tag only with a target, a host only with an
    initiator, a peer only with one of the two; a technology mask other
    than [NCI_TECH_ALL] only while an initiator is held; a presence check
    in flight only while a target is held. *)
Theorem held_objects_consistent s :
  adapter_reachable s ->
  (target s <> None -> initiator s = None) /\
  (tag s <> None -> target s <> None) /\
  (host s <> None -> initiator s <> None) /\
  (peer s <> None -> target s <> None \/ initiator s <> None) /\
  (initiator s = None -> active_tech_mask s = NCI_TECH_ALL) /\
  (presence_check_id s <> 0 -> target s <> None).
Proof.
  intros R.
  destruct (adapter_reachable_invariant s R) as (I1 & _ & _ & I4 & _).
  destruct (adapter_reachable_owned s R) as (O1 & O2 & O3 & O4).
  split; [intros T; apply I1, T|].
  split; [exact O1|]. split; [exact I4|]. split; [exact O2|].
  split; [exact O3 | exact O4].
Qed.

(** After the adapter has handled an activation, its state follows from
    what it holds: HAVE_TARGET with a target, HAVE_INITIATOR or
    REACTIVATED_CE with an initiator, and IDLE with neither, in which case
    [active_intf] is null and the last call puts the NCI core into
    RFST_IDLE.  No reactivation is pending, and the CE reactivation timer
    is stopped. *)
Theorem activation_settles_state ntf fw s s' acts :
  adapter_reachable s ->
  adapter_event (IntfActivated ntf fw) s = Some (s', acts) ->
  ce_reactivation_timer s' = None /\
  (target s' <> None -> internal_state s' = NCI_ADAPTER_HAVE_TARGET) /\
  (initiator s' <> None ->
   internal_state s' = NCI_ADAPTER_HAVE_INITIATOR \/
   internal_state s' = NCI_ADAPTER_REACTIVATED_CE) /\
  (target s' = None -> initiator s' = None ->
   internal_state s' = NCI_ADAPTER_IDLE /\ active_intf s' = None /\
   exists l, acts = l ++ [nci_core_set_state NCI_RFST_IDLE]).
Proof.
  intros R E.
  destruct (adapter_event_wpa _ _ _ _ _ E
              (activation_outcome_wpa ntf fw s (adapter_reachable_invariant s R)))
    as ((C & T & I & N) & L).
  split; [exact C|]. split; [exact T|]. split; [exact I|].
  intros Ht Hi. destruct (N Ht Hi) as [N1 N2].
  split; [exact N1|]. split; [exact N2|]. exact (L Ht Hi).
Qed.

End Reachable.

(** ** The card emulation reactivation timeout *)

Section CeTimeout.

Context {decls : NciCoreDecls}.

(** C9, as the code has it.  The adapter is in a reachable state, in
    REACTIVATING_CE, and the card emulation reactivation timer is armed.
    When the timer expires, [internal_state] becomes IDLE and the timer is
    stopped.  If the adapter still holds its initiator, the initiator is
    dropped: [active_tech_mask] is [NCI_TECH_ALL] again and the calls made
    are, in this order, [active_techs] given to the core, the gone
    notification of the initiator and its release.  If the initiator was
    dropped before (see the counterexample), no call is made.  In both
    cases the adapter then holds no initiator, host, peer, target or
    interface info, all technologies are unmasked, and the remaining
    fields keep their values. *)
Theorem ce_reactivation_timeout_drops_initiator :
  forall self : NciAdapter,
    adapter_reachable self ->
    internal_state self = NCI_ADAPTER_REACTIVATING_CE ->
    ce_reactivation_timer self <> None ->
    exists self' : NciAdapter,
      adapter_event CeReactivationTimeout self =
        Some (self',
              match initiator self with
              | Some i => [nci_core_set_tech (active_techs self);
                           nfc_initiator_gone (initiator_ptr i);
                           nfc_initiator_unref (initiator_ptr i)]
              | None => []
              end) /\
      internal_state self' = NCI_ADAPTER_IDLE /\
      initiator self' = None /\
      active_tech_mask self' = NCI_TECH_ALL /\
      active_techs self' = active_techs self /\
      ce_reactivation_timer self' = None /\
      active_intf self' = None /\
      host self' = None /\ peer self' = None /\ target self' = None /\
      parent self' = parent self /\ nci self' = nci self /\
      presence_check_id self' = presence_check_id self /\
      presence_check_timer self' = presence_check_timer self /\
      supported_techs self' = supported_techs self /\
      tag self' = tag self /\ mode_priv self' = mode_priv self.
Proof.
  intros self R Hst Htimer.
  destruct (adapter_reachable_invariant self R) as (It & _ & Ia & Ih & _).
  destruct (adapter_reachable_owned self R) as (_ & Op & Om & _).
  assert (Ht : target self = None).
  { destruct (target self) eqn:E; [|reflexivity].
    destruct It as [_ F]; [discriminate|]. rewrite Hst in F. contradiction. }
  unfold adapter_event, event_enabled, event_handler,
    nci_adapter_ce_reactivation_timeout, nci_adapter_drop_all,
    nci_adapter_drop_target, nci_adapter_drop_initiator,
    nci_adapter_set_internal_state, nci_adapter_clear_active_intf,
    nci_adapter_set_active_peer, nci_adapter_set_active_host,
    bind, get, ret, modify, call, when.
  destruct (ce_reactivation_timer self) eqn:Et; [|congruence]. simpl.
  rewrite Ht. simpl.
  destruct (initiator self) as [i|] eqn:Hinit; simpl;
    (eexists; split; [reflexivity|]); simpl; rewrite ?Ht, ?Hinit.
  - repeat split; reflexivity.
  - split; [reflexivity|]. split; [reflexivity|].
    split; [exact (Om eq_refl)|]. split; [reflexivity|].
    split; [reflexivity|].
    split.
    { destruct (active_intf self); [|reflexivity].
      destruct Ia as [F | F]; [discriminate | |]; congruence. }
    split.
    { destruct (host self); [|reflexivity].
      exfalso. apply Ih; [discriminate | reflexivity]. }
    split.
    { destruct (peer self); [|reflexivity].
      destruct Op as [F | F]; [discriminate | |]; congruence. }
    repeat split; reflexivity.
Qed.

End CeTimeout.

Lemma ce_released_adapter_run :
  adapter_run (decls := nci_decls) ce_released_events ce_adapter =
  Some (ce_released_adapter,
        [nfc_initiator_reactivated (Some 3%nat);
         nci_core_set_tech 0xfff; nfc_initiator_gone 3; nfc_initiator_unref 3;
         nci_core_set_state NCI_RFST_DISCOVERY]).
Proof. reflexivity. Qed.

Lemma ce_reactivation_timeout_drops_initiator_witness :
  exists self' : NciAdapter,
    adapter_event (decls := nci_decls) CeReactivationTimeout
      ce_reactivating_adapter =
      Some (self', [nci_core_set_tech 0xfff; nfc_initiator_gone 3;
                    nfc_initiator_unref 3]) /\
    internal_state self' = NCI_ADAPTER_IDLE /\
    initiator self' = None /\
    active_tech_mask self' = 0xfff /\
    active_techs self' = 0xfff /\
    ce_reactivation_timer self' = None /\
    active_intf self' = None /\
    host self' = None /\ peer self' = None /\ target self' = None.
Proof.
  destruct (ce_reactivation_timeout_drops_initiator (decls := nci_decls)
              ce_reactivating_adapter
              ce_reactivating_adapter_reachable eq_refl)
    as (self' & E & F1 & F2 & F3 & F4 & F5 & F6 & F7 & F8 & F9 & _).
  - discriminate.
  - exists self'. repeat (split; [assumption|]). assumption.
Defined.

(** C9 fails as it is stated when the initiator is gone already.  The
    reader comes back (REACTIVATED_CE), the framework deactivates the
    initiator, which leaves [internal_state] as it is, and the reader
    leaves again, which arms the timer: the adapter is in REACTIVATING_CE
    with the timer armed and without an initiator.  When the timer
    expires no gone notification is delivered and no technology is given
    to the core. *)
Lemma ce_reactivation_timeout_counterexample :
  adapter_run (decls := nci_decls) (ce_events ++ ce_released_events)
    fresh_adapter =
    Some (ce_released_adapter,
          [nfc_adapter_add_host 3;
           nfc_initiator_reactivated (Some 3%nat);
           nci_core_set_tech 0xfff; nfc_initiator_gone 3; nfc_initiator_unref 3;
           nci_core_set_state NCI_RFST_DISCOVERY]) /\
  adapter_reachable (decls := nci_decls) ce_released_adapter /\
  internal_state ce_released_adapter = NCI_ADAPTER_REACTIVATING_CE /\
  ce_reactivation_timer ce_released_adapter <> None /\
  initiator ce_released_adapter = None /\
  exists self' : NciAdapter,
    adapter_event (decls := nci_decls) CeReactivationTimeout
      ce_released_adapter = Some (self', []) /\
    internal_state self' = NCI_ADAPTER_IDLE.
Proof.
  split; [reflexivity|]. split.
  - exact (adapter_run_reachable _ _ _ _ ce_adapter_reachable
             ce_released_adapter_run).
  - split; [reflexivity|]. split; [discriminate|]. split; [reflexivity|].
    eexists. split; reflexivity.
Qed.

(** ** The handlers, one by one *)

Section Steps.
Context {decls : NciCoreDecls}.

Ltac fields_solve :=
  repeat match goal with |- _ /\ _ => split end;
  try assumption; try reflexivity;
  try (split; intros; congruence); try congruence.

(** A reactivation that succeeds: when the activation that follows a
    reactivation request matches the stored interface info, the adapter
    keeps its target, its tag or peer and its interface info, returns to
    HAVE_TARGET, and its only call tells the framework that the target is
    reactivated.  The presence checks are resumed exactly when the
    protocol asks for them. *)
Theorem activation_reactivates_target s ntf fw t :
  internal_state s = NCI_ADAPTER_REACTIVATING_TARGET ->
  target s = Some t ->
  nci_adapter_intf_info_matches (active_intf s) ntf = true ->
  exists s',
    nci_adapter_activation ntf fw s =
      Some (tt, s', [nfc_target_reactivated (Some (target_ptr t))]) /\
    internal_state s' = NCI_ADAPTER_HAVE_TARGET /\
    target s' = Some t /\
    active_intf s' = active_intf s /\
    tag s' = tag s /\ peer s' = peer s /\
    presence_check_id s' = presence_check_id s /\
    (presence_check_timer s' <> None <->
     nci_adapter_need_presence_checks s = true).
Proof.
  intros St T Ma.
  unfold nci_adapter_activation, nci_adapter_activation_update_state,
    nci_adapter_activation_detect, bind, modify, get, when, call, ret,
    nci_adapter_set_internal_state.
  simpl. rewrite St, Ma. simpl. rewrite T. simpl.
  unfold nci_adapter_need_presence_checks. simpl. rewrite T.
  destruct (active_intf s) as [intf|] eqn:A; [|discriminate Ma].
  destruct (negb (NCI_PROTOCOL_beq (protocol intf) NCI_PROTOCOL_NFC_DEP));
    [destruct (presence_check_timer s) eqn:P|]; simpl; rewrite ?T; simpl;
    eexists; (split; [reflexivity|]); simpl; rewrite ?P;
    fields_solve.
Qed.

(** A matching activation on the listen side keeps the initiator with its
    host or peer, its interface info and its technology mask, and stops
    the CE reactivation timer.  The framework is told that the initiator
    is reactivated and the state becomes REACTIVATED_CE, except in
    HAVE_INITIATOR without a host, where nothing is reported and the state
    stays. *)
Theorem activation_keeps_initiator s ntf fw i :
  is_initiator_state (internal_state s) ->
  initiator s = Some i ->
  target s = None ->
  nci_adapter_intf_info_matches (active_intf s) ntf = true ->
  let quiet := match internal_state s with
               | NCI_ADAPTER_HAVE_INITIATOR => negb (is_some (host s))
               | _ => false
               end in
  exists s',
    nci_adapter_activation ntf fw s =
      Some (tt, s',
            if quiet then []
            else [nfc_initiator_reactivated (Some (initiator_ptr i))]) /\
    internal_state s' =
      (if quiet then NCI_ADAPTER_HAVE_INITIATOR else NCI_ADAPTER_REACTIVATED_CE) /\
    initiator s' = Some i /\ host s' = host s /\ peer s' = peer s /\
    active_intf s' = active_intf s /\
    active_tech_mask s' = active_tech_mask s /\
    ce_reactivation_timer s' = None /\ presence_check_timer s' = None.
Proof.
  intros St I T Ma quiet. subst quiet.
  unfold nci_adapter_activation, nci_adapter_activation_update_state,
    nci_adapter_activation_detect, bind, modify, get, when, call, ret,
    nci_adapter_set_internal_state, nci_adapter_need_presence_checks.
  simpl.
  destruct (internal_state s) eqn:E; try contradiction; simpl; rewrite Ma;
    [destruct (host s) eqn:H|..]; simpl; rewrite ?T, ?I; simpl;
    rewrite ?T, ?I; simpl;
    eexists; (split; [reflexivity|]); simpl; fields_solve.
Qed.

(** An activation that arrives while a target is held, other than the
    matching activation of a reactivation, first takes the old target
    down: its presence check in flight, if any, is cancelled, then the
    target is reported gone, before anything is made for the new
    activation.  What is held afterwards is the new target that
    [nci_target_new] builds, or no target. *)
Theorem activation_replaces_target s ntf fw t :
  target s = Some t ->
  initiator s = None ->
  internal_state s = NCI_ADAPTER_HAVE_TARGET \/
  (internal_state s = NCI_ADAPTER_REACTIVATING_TARGET /\
   nci_adapter_intf_info_matches (active_intf s) ntf = false) ->
  exists s' rest,
    nci_adapter_activation ntf fw s =
      Some (tt, s',
            (if negb (presence_check_id s =? 0)
             then [nfc_target_cancel_transmit (target_ptr t) (presence_check_id s)]
             else []) ++
            nfc_target_gone (target_ptr t) :: rest) /\
    presence_check_id s' = 0 /\
    target s' =
      option_map (fun obj => {| target_ptr := new_target_ptr fw; target_obj := obj |})
        (nci_target_new ntf).
Proof.
  intros T I St.
  assert (W : wpa (nci_adapter_activation ntf fw)
                (fun _ s' l =>
                   exists rest,
                     l = (if negb (presence_check_id s =? 0)
                          then [nfc_target_cancel_transmit (target_ptr t)
                                  (presence_check_id s)]
                          else []) ++
                         nfc_target_gone (target_ptr t) :: rest /\
                                      presence_check_id s' = 0 /\
                     target s' =
                       option_map
                         (fun obj => {| target_ptr := new_target_ptr fw;
                                        target_obj := obj |})
                         (nci_target_new ntf)) s).
  { unfold nci_adapter_activation, nci_adapter_activation_update_state,
      nci_adapter_activation_detect.
    wpa_run; simpl in *.
    all: try (destruct St as [St | [St Ma]]; congruence).
    all: rewrite ?T, ?I in *; simpl in *; try discriminate.
    all: match goal with H : Some _ = Some _ |- _ => injection H as <- end.
    all: match goal with H : negb (_ =? 0) = _ |- _ => rewrite H end.
    all: eexists; split; [reflexivity|]; split; [|reflexivity].
    all: first [reflexivity
               | match goal with
                 | H : negb (_ =? 0) = false |- _ =>
                     apply negb_false_iff, Z.eqb_eq in H; exact H
                 end]. }
  destruct (wpa_elim _ _ _ W) as ([] & s' & l & E & rest & -> & P).
  exists s', rest. split; [exact E | exact P].
Qed.


(** The deactivation of the current target cancels its presence check in
    flight, if any, reports the target gone and, when the adapter is
    powered, puts the core into discovery, in this order.  The target,
    its tag or peer, the interface info and the presence check timer are
    dropped; [internal_state] and the initiator are left as they are; a
    second deactivation with the same handle does nothing. *)
Theorem deactivate_current_target s tg :
  target s = Some tg ->
  exists s',
    nci_adapter_deactivate_target (Some (target_ptr tg)) s =
      Some (tt, s',
            (if negb (presence_check_id s =? 0)
             then [nfc_target_cancel_transmit (target_ptr tg) (presence_check_id s)]
             else []) ++
            nfc_target_gone (target_ptr tg) ::
            (if powered (parent s)
             then [nci_core_set_state NCI_RFST_DISCOVERY] else [])) /\
    target s' = None /\ active_intf s' = None /\
    presence_check_timer s' = None /\ presence_check_id s' = 0 /\
    tag s' = None /\ peer s' = None /\
    internal_state s' = internal_state s /\
    initiator s' = initiator s /\
    nci_adapter_deactivate_target (Some (target_ptr tg)) s' = Some (tt, s', []).
Proof.
  intros T.
  unfold nci_adapter_deactivate_target, nci_adapter_drop_target,
    nci_adapter_clear_active_intf, nci_adapter_set_active_peer,
    nci_adapter_set_active_tag, same_target, bind, get, modify, when, call, ret.
  simpl. rewrite T, Nat.eqb_refl. simpl.
  destruct (presence_check_id s =? 0) eqn:P; simpl;
    destruct (powered (parent s)); simpl; rewrite ?T; simpl;
    eexists; (split; [reflexivity|]); simpl; fields_solve.
  all: apply Z.eqb_eq, P.
Qed.


(** The completion of a presence check on the current target: a success
    only ends the check; a failure drops the target, reports it gone
    without cancelling the check that has just ended, and, when the
    adapter is powered, puts the core into discovery. *)
Theorem presence_check_failure_drops_target s tg :
  target s = Some tg ->
  nci_adapter_presence_check_done (Some (target_ptr tg)) true s =
    Some (tt, set_presence_check_id 0 s, []) /\
  presence_check_id (set_presence_check_id 0 s) = 0 /\
  target (set_presence_check_id 0 s) = Some tg /\
  exists s',
    nci_adapter_presence_check_done (Some (target_ptr tg)) false s =
      Some (tt, s',
            nfc_target_gone (target_ptr tg) ::
            (if powered (parent s)
             then [nci_core_set_state NCI_RFST_DISCOVERY] else [])) /\
    target s' = None /\ presence_check_timer s' = None /\
    presence_check_id s' = 0 /\ tag s' = None /\ active_intf s' = None.
Proof.
  intros T. split; [reflexivity|]. split; [reflexivity|]. split; [exact T|].
  unfold nci_adapter_presence_check_done, nci_adapter_deactivate_target,
    nci_adapter_drop_target,
    nci_adapter_clear_active_intf, nci_adapter_set_active_peer,
    nci_adapter_set_active_tag, same_target, bind, get, modify, when, call, ret.
  simpl. rewrite T, Nat.eqb_refl. simpl.
  destruct (powered (parent s)); simpl; rewrite ?T; simpl;
    eexists; (split; [reflexivity|]); simpl; fields_solve.
Qed.

(** While a reactivation is awaited (REACTIVATING_TARGET or
    REACTIVATING_CE), a change of the next state of the core to any of the
    RF states leaves the state machine where it is: the deactivation that
    the switch to discovery brings is expected.  The adapter takes the
    core it is given, [nci_adapter_mode_check] updates the mode fields,
    and every other field keeps its value.  The calls are the one of
    [nci_adapter_state_check], if the core is idle and the adapter is
    enabled, powered and asked for power, followed by those of the mode
    check. *)
Theorem reactivation_survives_deactivation s core :
  nci s <> None ->
  internal_state s = NCI_ADAPTER_REACTIVATING_TARGET \/
  internal_state s = NCI_ADAPTER_REACTIVATING_CE ->
  (forall v, next_state core <> NCI_STATE_OTHER v) ->
  exists s',
    adapter_event (NextStateChanged core) s =
      Some (s',
            (if is_rfst_idle (current_state core) &&
                is_rfst_idle (next_state core) &&
                (enabled (parent s) && powered (parent s) &&
                 power_requested (parent s))
             then [nci_core_set_state NCI_RFST_DISCOVERY] else []) ++
            snd (nci_adapter_mode_check core (mode_priv s))) /\
    nci s' = Some core /\
    mode_priv s' = fst (nci_adapter_mode_check core (mode_priv s)) /\
    internal_state s' = internal_state s /\
    parent s' = parent s /\ target s' = target s /\
    presence_check_id s' = presence_check_id s /\
    presence_check_timer s' = presence_check_timer s /\
    active_intf s' = active_intf s /\ initiator s' = initiator s /\
    ce_reactivation_timer s' = ce_reactivation_timer s /\
    supported_techs s' = supported_techs s /\
    active_techs s' = active_techs s /\
    active_tech_mask s' = active_tech_mask s /\
    tag s' = tag s /\ host s' = host s /\ peer s' = peer s.
Proof.
  intros N St O.
  assert (D : forall s0, internal_state s0 = internal_state s ->
                         nci_adapter_deactivation s0 = Some (tt, s0, [])).
  { intros s0 E. unfold nci_adapter_deactivation, bind, get. rewrite E.
    destruct St as [-> | ->]; reflexivity. }
  set (post := fun (s' : NciAdapter) (l : list Action) =>
         l = (if is_rfst_idle (current_state core) &&
                 is_rfst_idle (next_state core) &&
                 (enabled (parent s) && powered (parent s) &&
                  power_requested (parent s))
              then [nci_core_set_state NCI_RFST_DISCOVERY] else []) ++
             snd (nci_adapter_mode_check core (mode_priv s)) /\
         s' = set_mode_priv (fst (nci_adapter_mode_check core (mode_priv s)))
                (set_nci (Some core) s)).
  assert (W : wpa (event_handler (NextStateChanged core))
                (fun _ s' l => post s' l) s).
  { simpl event_handler. apply wpa_bind, wpa_modify. cbv beta.
    unfold nci_adapter_next_state_changed. apply wpa_bind, wpa_get. cbv beta.
    simpl nci. cbv iota. apply wpa_bind.
    assert (K : wpa (ret tt)
                  (fun _ s1 l1 =>
                     wpa (nci_adapter_state_check ;; mode_check)
                       (fun _ s2 l2 => post s2 ([] ++ l1 ++ l2)) s1)
                  (set_nci (Some core) s)).
    { apply wpa_ret. apply wpa_bind. unfold nci_adapter_state_check.
      apply wpa_bind, wpa_get. cbv beta. simpl nci. cbv iota. simpl parent.
      assert (M : forall l1 : list Action,
                 wpa mode_check
                   (fun _ s2 l2 => post s2 ([] ++ [] ++ ([] ++ l1) ++ l2))
                   (set_nci (Some core) s) <->
                 post (set_mode_priv
                         (fst (nci_adapter_mode_check core (mode_priv s)))
                         (set_nci (Some core) s))
                      (l1 ++ snd (nci_adapter_mode_check core (mode_priv s)))).
      { intros l1. unfold wpa, mode_check, bind, get, on_mode_priv. simpl.
        destruct (nci_adapter_mode_check core (mode_priv s)) as [priv l].
        simpl. tauto. }
      destruct (is_rfst_idle (current_state core) && is_rfst_idle (next_state core));
        destruct (enabled (parent s) && powered (parent s) &&
                  power_requested (parent s));
        unfold when; unfold wpa at 1; unfold call, ret; apply M;
        unfold post; simpl; split; reflexivity. }
    assert (Dw : forall c : bool,
               wpa (when c nci_adapter_deactivation)
                 (fun _ s1 l1 =>
                     wpa (nci_adapter_state_check ;; mode_check)
                       (fun _ s2 l2 => post s2 ([] ++ l1 ++ l2)) s1)
                 (set_nci (Some core) s)).
    { intros c. apply wpa_when; intros _; [|exact K].
      eapply wpa_intro; [apply D; reflexivity | exact K]. }
    destruct (next_state core) eqn:En; try apply Dw; try exact K.
    exfalso. eapply O. reflexivity. }
  unfold adapter_event, event_enabled.
  destruct (nci s); [|congruence]. simpl is_some. cbv iota.
  destruct (wpa_elim _ _ _ W) as ([] & s' & l & E & -> & ->).
  rewrite E. eexists. split; [reflexivity|]. simpl. repeat split.
Qed.

(** When the next state of the core is none of the RF states (an error
    or a stop), a reachable adapter drops all it holds: it becomes IDLE
    with no target, initiator, interface info, tag, peer or host, no
    presence check and all technologies unmasked, and the target and the
    initiator it held are reported gone. *)
Theorem unknown_state_drops_all s core v s' acts :
  adapter_reachable s ->
  next_state core = NCI_STATE_OTHER v ->
  adapter_event (NextStateChanged core) s = Some (s', acts) ->
  internal_state s' = NCI_ADAPTER_IDLE /\
  target s' = None /\ initiator s' = None /\ active_intf s' = None /\
  tag s' = None /\ peer s' = None /\ host s' = None /\
  presence_check_timer s' = None /\ presence_check_id s' = 0 /\
  active_tech_mask s' = NCI_TECH_ALL /\
  (forall t, target s = Some t -> In (nfc_target_gone (target_ptr t)) acts) /\
  (forall i, initiator s = Some i -> In (nfc_initiator_gone (initiator_ptr i)) acts).
Proof.
  intros R En E.
  assert (W : wpa (event_handler (NextStateChanged core))
                (fun _ s' l =>
                   internal_state s' = NCI_ADAPTER_IDLE /\
                   target s' = None /\ initiator s' = None /\
                   (forall t, target s = Some t ->
                              In (nfc_target_gone (target_ptr t)) l) /\
                   (forall i, initiator s = Some i ->
                              In (nfc_initiator_gone (initiator_ptr i)) l)) s).
  { simpl event_handler. apply wpa_bind, wpa_modify. cbv beta.
    unfold nci_adapter_next_state_changed. apply wpa_bind, wpa_get. cbv beta.
    simpl nci. cbv iota. rewrite En. unfold nci_adapter_state_check.
    wpa_run; simpl in *; try discriminate;
      repeat match goal with |- _ /\ _ => split end;
      try reflexivity; try assumption;
      try (intros ? Q; simpl; try congruence;
           repeat first [left; congruence | right]). }
  pose proof (adapter_event_wpa _ _ _ _ _ E W) as (St & T & I & Gt & Gi).
  assert (R' : adapter_reachable s') by (eapply adapter_after; eassumption).
  destruct (adapter_reachable_invariant s' R') as (_ & _ & I3 & I4 & I5).
  destruct (adapter_reachable_owned s' R') as (O1 & O2 & O3 & O4).
  split; [exact St|]. split; [exact T|]. split; [exact I|].
  assert (A : active_intf s' = None).
  { destruct (active_intf s'); [|reflexivity].
    destruct I3 as [I3 | I3]; [discriminate | |]; congruence. }
  split; [exact A|].
  split; [destruct (tag s'); [exfalso; apply O1; [discriminate | exact T] | reflexivity]|].
  split; [destruct (peer s'); [|reflexivity];
          destruct O2 as [O2 | O2]; [discriminate | |]; congruence|].
  split; [destruct (host s'); [exfalso; apply I4; [discriminate | exact I] | reflexivity]|].
  split.
  { destruct (presence_check_timer s') eqn:P; [|reflexivity].
    assert (N : nci_adapter_need_presence_checks s' = true)
      by (apply I5; discriminate).
    unfold nci_adapter_need_presence_checks in N. rewrite T in N. discriminate. }
  split.
  { destruct (Z.eq_dec (presence_check_id s') 0) as [P | P]; [exact P|].
    exfalso. exact (O4 P T). }
  split; [exact (O3 I)|]. split; [exact Gt | exact Gi].
Qed.

End Steps.

(** ** The technologies *)

Section Techs.
Context {decls : NciCoreDecls}.

Lemma land_split (sup a b f : Z) :
  Z.lor (Z.lor (Z.lor (Z.land sup (Z.lnot (Z.lor (Z.lor a b) f)))
                  (Z.land sup a)) (Z.land sup b)) (Z.land sup f) = sup.
Proof.
  apply Z.bits_inj'. intros n Hn.
  rewrite !Z.lor_spec, !Z.land_spec, Z.lnot_spec, !Z.lor_spec by assumption.
  destruct (Z.testbit sup n), (Z.testbit a n), (Z.testbit b n),
    (Z.testbit f n); reflexivity.
Qed.

Section TechnologyBits.

Hypothesis bit_unknown : nfc_technology_bit NFC_TECHNOLOGY_UNKNOWN = 0.
Hypothesis bit_a : nfc_technology_bit NFC_TECHNOLOGY_A <> 0.
Hypothesis bit_b : nfc_technology_bit NFC_TECHNOLOGY_B <> 0.
Hypothesis bit_f : nfc_technology_bit NFC_TECHNOLOGY_F <> 0.
Hypothesis bits_a_b :
  Z.land (nfc_technology_bit NFC_TECHNOLOGY_A) (nfc_technology_bit NFC_TECHNOLOGY_B) = 0.
Hypothesis bits_a_f :
  Z.land (nfc_technology_bit NFC_TECHNOLOGY_A) (nfc_technology_bit NFC_TECHNOLOGY_F) = 0.
Hypothesis bits_b_f :
  Z.land (nfc_technology_bit NFC_TECHNOLOGY_B) (nfc_technology_bit NFC_TECHNOLOGY_F) = 0.

(** The bit of a technology is reported exactly when the technology is
    supported. *)
Lemma get_supported_techs_bits (s : NciAdapter) :
  let techs := nci_adapter_get_supported_techs s in
  (Z.land techs (nfc_technology_bit NFC_TECHNOLOGY_A) =? 0) =
    (Z.land (supported_techs s) NCI_TECH_A =? 0) /\
  (Z.land techs (nfc_technology_bit NFC_TECHNOLOGY_B) =? 0) =
    (Z.land (supported_techs s) NCI_TECH_B =? 0) /\
  (Z.land techs (nfc_technology_bit NFC_TECHNOLOGY_F) =? 0) =
    (Z.land (supported_techs s) NCI_TECH_F =? 0).
Proof.
  assert (BA := bits_a_b). rewrite Z.land_comm in BA.
  assert (FA := bits_a_f). rewrite Z.land_comm in FA.
  assert (FB := bits_b_f). rewrite Z.land_comm in FB.
  assert (NA := bit_a). assert (NB := bit_b). assert (NF := bit_f).
  apply Z.eqb_neq in NA, NB, NF.
  unfold nci_adapter_get_supported_techs. cbv zeta. rewrite bit_unknown.
  destruct (Z.land (supported_techs s) NCI_TECH_A =? 0),
           (Z.land (supported_techs s) NCI_TECH_B =? 0),
           (Z.land (supported_techs s) NCI_TECH_F =? 0); simpl;
    rewrite ?Z.land_lor_distr_l, ?Z.land_diag, ?Z.land_0_l, ?bits_a_b,
      ?bits_a_f, ?bits_b_f, ?BA, ?FA, ?FB, ?Z.lor_0_l, ?Z.lor_0_r, ?NA, ?NB, ?NF;
    repeat split; reflexivity.
Qed.

End TechnologyBits.

(** Allowing the technologies that [nci_adapter_get_supported_techs]
    reports activates all the supported technologies: the adapter then
    asks the core for the supported technologies, under the current mask.
    The bits of [NFC_TECHNOLOGY] are declared by the framework; they are
    assumed distinct and not zero, and the unknown technology zero. *)
Theorem allow_supported_techs (s : NciAdapter) :
  nfc_technology_bit NFC_TECHNOLOGY_UNKNOWN = 0 ->
  nfc_technology_bit NFC_TECHNOLOGY_A <> 0 ->
  nfc_technology_bit NFC_TECHNOLOGY_B <> 0 ->
  nfc_technology_bit NFC_TECHNOLOGY_F <> 0 ->
  Z.land (nfc_technology_bit NFC_TECHNOLOGY_A) (nfc_technology_bit NFC_TECHNOLOGY_B) = 0 ->
  Z.land (nfc_technology_bit NFC_TECHNOLOGY_A) (nfc_technology_bit NFC_TECHNOLOGY_F) = 0 ->
  Z.land (nfc_technology_bit NFC_TECHNOLOGY_B) (nfc_technology_bit NFC_TECHNOLOGY_F) = 0 ->
  nci_adapter_set_allowed_techs (nci_adapter_get_supported_techs s) s =
    Some (tt, set_active_techs (supported_techs s) s,
          [nci_core_set_tech (Z.land (supported_techs s) (active_tech_mask s))]) /\
  active_techs (set_active_techs (supported_techs s) s) = supported_techs s /\
  supported_techs (set_active_techs (supported_techs s) s) = supported_techs s /\
  active_tech_mask (set_active_techs (supported_techs s) s) = active_tech_mask s.
Proof.
  intros U NA NB NF AB AF BF.
  split; [|repeat split].
  destruct (get_supported_techs_bits U NA NB NF AB AF BF s) as (EA & EB & EF).
  cbv zeta in EA, EB, EF.
  assert (A : forall (x y : Z),
            (if negb (y =? 0) then Z.lor x y else x) = Z.lor x y).
  { intros x y. destruct (y =? 0) eqn:E; [|reflexivity].
    apply Z.eqb_eq in E. rewrite E, Z.lor_0_r. reflexivity. }
  unfold nci_adapter_set_allowed_techs, bind, get, modify, call, ret.
  cbv zeta. rewrite EA, EB, EF, !A, land_split. reflexivity.
Qed.

(** Every tag of a known type comes with a presence check: whenever
    [nci_adapter_create_known_tag] registers a tag (Type 2, 4A or 4B) for
    a notification, the target that [nci_target_new] builds for the same
    notification has a presence check function, so that the presence
    check timer of such a tag does not stop at its first tick for the lack
    of one. *)
Theorem known_tag_has_presence_check t ntf fw s obj r s' a calls :
  nci_target_new ntf = Some obj ->
  nci_adapter_create_known_tag t ntf fw s = Some (r, s', a :: calls) ->
  presence_check_fn obj <> None.
Proof.
  unfold nci_target_new, nci_adapter_create_known_tag, bind, factory, call, ret,
    nci_adapter_set_active_tag, modify.
  destruct (ntf_protocol ntf), (ntf_rf_intf ntf), (ntf_mode ntf); simpl;
    intros N E; try discriminate N; try discriminate E;
    injection N as <-; simpl; discriminate.
Qed.

End Techs.

(** ** The operation mode *)

Section ModeFacts.

Context {decls : NciCoreDecls}.

(** A mode check is idempotent: a second check in the same state of the
    core publishes nothing and leaves the mode fields as the first one
    left them. *)
Theorem mode_check_idempotent (core : NciCore) (priv : NciAdapterMode) :
  nci_adapter_mode_check core (fst (nci_adapter_mode_check core priv)) =
  (fst (nci_adapter_mode_check core priv), []).
Proof.
  unfold nci_adapter_mode_check.
  destruct (nci_state_value (current_state core) >? nci_state_value NCI_RFST_IDLE);
    destruct (mode_change_pending priv) eqn:P; simpl.
  - rewrite Z.eqb_refl. simpl. rewrite Z.eqb_refl. reflexivity.
  - destruct (current_mode priv =? desired_mode priv) eqn:E; simpl;
      rewrite ?E, ?Z.eqb_refl; reflexivity.
  - destruct (NFC_MODE_NONE =? desired_mode priv) eqn:E; simpl;
      rewrite ?E, ?Z.eqb_refl; reflexivity.
  - destruct (current_mode priv =? NFC_MODE_NONE) eqn:E; simpl;
      rewrite ?E, ?Z.eqb_refl; reflexivity.
Qed.

(** Unless a request is still waiting after a mode check, the mode that
    the adapter has published is the mode in force: the desired mode when
    the core is beyond RFST_IDLE, and no mode otherwise.  The check is
    silent exactly when no request was waiting and the published mode did
    not change. *)
Theorem mode_check_publishes (core : NciCore) (priv priv' : NciAdapterMode)
    (calls : list Action) :
  nci_adapter_mode_check core priv = (priv', calls) ->
  mode_change_pending priv' = false ->
  current_mode priv' =
    (if nci_state_value (current_state core) >? nci_state_value NCI_RFST_IDLE
     then desired_mode priv else NFC_MODE_NONE) /\
  (calls = [] <->
   mode_change_pending priv = false /\ current_mode priv = current_mode priv').
Proof.
  unfold nci_adapter_mode_check.
  set (m := if nci_state_value (current_state core) >? nci_state_value NCI_RFST_IDLE
            then desired_mode priv else NFC_MODE_NONE).
  destruct (mode_change_pending priv) eqn:P.
  - destruct (m =? desired_mode priv) eqn:E; intros R; injection R as <- <-;
      simpl; intros F; [|discriminate].
    split; [reflexivity|].
    split; [discriminate | intros [N _]; discriminate N].
  - destruct (current_mode priv =? m) eqn:E; simpl; intros R;
      injection R as <- <-; simpl; intros _.
    + apply Z.eqb_eq in E. split; [exact E|].
      split; [intros _; split; reflexivity | reflexivity].
    + apply Z.eqb_neq in E. split; [reflexivity|].
      split; [discriminate | intros [_ N]; contradiction].
Qed.

(** A mode request is confirmed by the next mode check exactly when the
    core is beyond RFST_IDLE or the request is for no mode; the framework
    is then notified of the requested mode, once, as a requested change.
    Otherwise the request stays pending, the published mode stays, and
    nothing is notified. *)
Theorem mode_request_confirmed (core : NciCore) (powered : bool) (idle_id m : Z)
    (priv : NciAdapterMode) :
  let requested := snd (fst (nci_adapter_submit_mode_request powered idle_id m priv)) in
  let confirmed :=
    (nci_state_value (current_state core) >? nci_state_value NCI_RFST_IDLE) ||
    (m =? NFC_MODE_NONE) in
  nci_adapter_mode_check core requested =
    ({| desired_mode := m;
        current_mode := if confirmed then m else current_mode priv;
        mode_change_pending := negb confirmed;
        mode_check_id := 0 |},
     if confirmed then [nfc_adapter_mode_notify m true] else []).
Proof.
  cbv zeta. unfold nci_adapter_submit_mode_request, nci_adapter_mode_check,
    nci_adapter_schedule_mode_check. simpl.
  destruct (mode_check_id priv =? 0); simpl;
    destruct (nci_state_value (current_state core) >? nci_state_value NCI_RFST_IDLE);
    simpl; rewrite ?Z.eqb_refl; try reflexivity;
    rewrite (Z.eqb_sym NFC_MODE_NONE m);
    destruct (m =? NFC_MODE_NONE) eqn:E; simpl; try reflexivity;
    apply Z.eqb_eq in E; subst m; reflexivity.
Qed.

(** A mode request puts the core into discovery exactly when the adapter
    is powered and the request includes one of the four modes.  The values
    of [NCI_OP_MODE] are declared by libncicore; no mode is assumed to be
    zero, and the poll and listen bits not to be. *)
Theorem mode_request_discovery (powered : bool) (idle_id m : Z)
    (priv : NciAdapterMode) :
  NFC_OP_MODE_NONE = 0 ->
  NFC_OP_MODE_POLL <> 0 ->
  NFC_OP_MODE_LISTEN <> 0 ->
  In (nci_core_set_state NCI_RFST_DISCOVERY)
     (snd (nci_adapter_submit_mode_request powered idle_id m priv)) <->
  powered = true /\
  (Z.land m NFC_MODE_READER_WRITER <> 0 \/
   Z.land m NFC_MODE_P2P_INITIATOR <> 0 \/
   Z.land m NFC_MODE_P2P_TARGET <> 0 \/
   Z.land m NFC_MODE_CARD_EMILATION <> 0).
Proof.
  intros N P L.
  assert (D : forall (c : bool) op,
            In (nci_core_set_state NCI_RFST_DISCOVERY)
              (nci_core_set_op_mode op ::
               (if c then [nci_core_set_state NCI_RFST_DISCOVERY]
                else [])) <-> c = true).
  { intros [] op; simpl.
    - split; [reflexivity | intros _; right; left; reflexivity].
    - split; [intros [H | []]; discriminate H | discriminate]. }
  unfold nci_adapter_submit_mode_request. cbv zeta. cbn [snd].
  rewrite D, andb_true_iff, negb_true_iff, Z.eqb_neq, N.
  pose proof (eq_refl 0) as Z0.
  destruct (Z.land m NFC_MODE_READER_WRITER =? 0) eqn:E1;
    destruct (Z.land m NFC_MODE_P2P_INITIATOR =? 0) eqn:E2;
    destruct (Z.land m NFC_MODE_P2P_TARGET =? 0) eqn:E3;
    destruct (Z.land m NFC_MODE_CARD_EMILATION =? 0) eqn:E4;
    cbn [negb];
    rewrite ?Z.eqb_eq, ?Z.eqb_neq in *;
    rewrite ?Z.lor_eq_0_iff; tauto.
Qed.

End ModeFacts.

(** ** The examples *)

Lemma adapter_event_returns_witness :
  exists s' acts,
    adapter_event (decls := nci_decls) (PresenceCheckTimer true 5) tag_adapter =
      Some (s', acts).
Proof.
  apply (adapter_event_returns (decls := nci_decls) (PresenceCheckTimer true 5)
           tag_adapter tag_adapter_reachable).
  reflexivity.
Defined.

Lemma techs_within_supported_witness :
  Z.land 0x0c (supported_techs ce_adapter) = 0x0c.
Proof.
  destruct (techs_within_supported (decls := nci_decls)
              (NextStateChanged ce_lost_core) ce_adapter
              ce_reactivating_adapter [nci_core_set_tech 0x0c]
              ce_adapter_reachable eq_refl) as (_ & _ & F).
  apply F. left. reflexivity.
Defined.

Lemma held_objects_consistent_witness :
  initiator tag_adapter = None /\ active_tech_mask tag_adapter = 0xfff.
Proof.
  destruct (held_objects_consistent (decls := nci_decls) tag_adapter
              tag_adapter_reachable) as (A & _ & _ & _ & M & _).
  split; [apply A; discriminate | apply M; reflexivity].
Defined.

Lemma activation_settles_state_witness :
  adapter_event (decls := nci_decls) (IntfActivated t2_ntf tag_framework)
    tag_adapter =
    Some (tag_adapter, [nfc_target_gone 1; nfc_adapter_add_tag_t2 1]) /\
  internal_state tag_adapter = NCI_ADAPTER_HAVE_TARGET /\
  ce_reactivation_timer tag_adapter = None.
Proof.
  split; [reflexivity|].
  destruct (activation_settles_state (decls := nci_decls) t2_ntf tag_framework
              tag_adapter tag_adapter
              [nfc_target_gone 1; nfc_adapter_add_tag_t2 1]
              tag_adapter_reachable eq_refl) as (C & T & _).
  split; [apply T; discriminate | exact C].
Defined.

Lemma activation_reactivates_target_witness :
  exists s',
    nci_adapter_activation (decls := nci_decls) t2_ntf tag_framework
      reactivating_adapter =
      Some (tt, s', [nfc_target_reactivated (Some 1%nat)]) /\
    internal_state s' = NCI_ADAPTER_HAVE_TARGET.
Proof.
  destruct (activation_reactivates_target (decls := nci_decls)
              reactivating_adapter t2_ntf tag_framework
              {| target_ptr := 1; target_obj := t2_target |}
              eq_refl eq_refl eq_refl) as (s' & E & St & _).
  exists s'. split; [exact E | exact St].
Defined.

Lemma activation_keeps_initiator_witness :
  exists s',
    nci_adapter_activation (decls := nci_decls) ce_ntf ce_framework
      ce_reactivating_adapter =
      Some (tt, s', [nfc_initiator_reactivated (Some 3%nat)]) /\
    internal_state s' = NCI_ADAPTER_REACTIVATED_CE.
Proof.
  destruct (activation_keeps_initiator (decls := nci_decls)
              ce_reactivating_adapter ce_ntf ce_framework
              {| initiator_ptr := 3; initiator_technology := NFC_TECHNOLOGY_A |}
              I eq_refl eq_refl eq_refl) as (s' & E & St & _).
  exists s'. split; [exact E | exact St].
Defined.

Lemma activation_replaces_target_witness :
  exists s' rest,
    nci_adapter_activation (decls := nci_decls)
      (type_4b_ntf [Byte.x01; Byte.x02; Byte.x03; Byte.x04]) tag_framework
      tag_adapter =
      Some (tt, s', nfc_target_gone 1 :: rest) /\
    target s' = Some {| target_ptr := 1; target_obj := type_4b_target |}.
Proof.
  destruct (activation_replaces_target (decls := nci_decls) tag_adapter
              (type_4b_ntf [Byte.x01; Byte.x02; Byte.x03; Byte.x04])
              tag_framework {| target_ptr := 1; target_obj := t2_target |}
              eq_refl eq_refl (or_introl eq_refl)) as (s' & rest & E & _ & T).
  exists s', rest. split; [exact E | exact T].
Defined.


Lemma deactivate_current_target_witness :
  exists s',
    nci_adapter_deactivate_target (Some 1%nat) tag_adapter =
      Some (tt, s', [nfc_target_gone 1; nci_core_set_state NCI_RFST_DISCOVERY]) /\
    target s' = None /\
    internal_state s' = NCI_ADAPTER_HAVE_TARGET.
Proof.
  destruct (deactivate_current_target tag_adapter
              {| target_ptr := 1; target_obj := t2_target |} eq_refl)
    as (s' & E & T & _ & _ & _ & _ & _ & St & _).
  exists s'. split; [exact E|]. split; [exact T | exact St].
Defined.


Lemma presence_check_failure_drops_target_witness :
  exists s',
    nci_adapter_presence_check_done (Some 1%nat) false tag_adapter =
      Some (tt, s', [nfc_target_gone 1; nci_core_set_state NCI_RFST_DISCOVERY]) /\
    target s' = None.
Proof.
  destruct (presence_check_failure_drops_target tag_adapter
              {| target_ptr := 1; target_obj := t2_target |} eq_refl)
    as (_ & _ & _ & s' & E & T & _).
  exists s'. split; [exact E | exact T].
Defined.

Lemma reactivation_survives_deactivation_witness :
  exists s',
    adapter_event (decls := nci_decls) (NextStateChanged poll_lost_core)
      reactivating_adapter = Some (s', []) /\
    nci s' = Some poll_lost_core /\
    internal_state s' = NCI_ADAPTER_REACTIVATING_TARGET /\
    target s' = target reactivating_adapter.
Proof.
  destruct (reactivation_survives_deactivation (decls := nci_decls)
              reactivating_adapter poll_lost_core)
    as (s' & E & Nc & _ & St & _ & Tg & _).
  - discriminate.
  - left. reflexivity.
  - intros v. discriminate.
  - exists s'. split; [exact E|]. split; [exact Nc|].
    split; [exact St | exact Tg].
Defined.

Lemma unknown_state_drops_all_witness :
  internal_state
    (set_tag None
       (set_presence_check_timer None
          (set_active_intf None
             (set_target None
                (set_state NCI_ADAPTER_IDLE
                   (set_nci (Some failed_core) tag_adapter)))))) =
    NCI_ADAPTER_IDLE /\
  In (nfc_target_gone 1) [nfc_target_gone 1].
Proof.
  destruct (unknown_state_drops_all (decls := nci_decls) tag_adapter
              failed_core 0
              (set_tag None
                 (set_presence_check_timer None
                    (set_active_intf None
                       (set_target None
                          (set_state NCI_ADAPTER_IDLE
                             (set_nci (Some failed_core) tag_adapter))))))
              [nfc_target_gone 1]
              tag_adapter_reachable eq_refl eq_refl)
    as (St & _ & _ & _ & _ & _ & _ & _ & _ & _ & G & _).
  split; [exact St|].
  exact (G {| target_ptr := 1; target_obj := t2_target |} eq_refl).
Defined.

Lemma allow_supported_techs_witness :
  nci_adapter_set_allowed_techs (decls := nci_decls)
    (nci_adapter_get_supported_techs (decls := nci_decls) tag_adapter)
    tag_adapter =
    Some (tt, set_active_techs 0xfff tag_adapter, [nci_core_set_tech 0xfff]).
Proof.
  apply (proj1 (allow_supported_techs (decls := nci_decls) tag_adapter
                  eq_refl
                  (fun E : 1 = 0 => ltac:(discriminate E))
                  (fun E : 2 = 0 => ltac:(discriminate E))
                  (fun E : 4 = 0 => ltac:(discriminate E))
                  eq_refl eq_refl eq_refl)).
Defined.

Lemma known_tag_has_presence_check_witness :
  presence_check_fn t2_target <> None.
Proof.
  apply (known_tag_has_presence_check
           {| target_ptr := 1; target_obj := t2_target |} t2_ntf tag_framework
           fresh_adapter t2_target (Some 2%nat)
           (set_tag (Some 2%nat) fresh_adapter)
           (nfc_adapter_add_tag_t2 1) []); reflexivity.
Defined.

Lemma mode_check_publishes_witness :
  current_mode
    (fst (nci_adapter_mode_check (decls := nci_decls)
            (core_in NCI_RFST_DISCOVERY) reader_writer_requested)) = 2.
Proof.
  exact (proj1 (mode_check_publishes (decls := nci_decls)
                  (core_in NCI_RFST_DISCOVERY)
                  reader_writer_requested _ _ eq_refl eq_refl)).
Defined.

Lemma mode_request_discovery_witness :
  In (nci_core_set_state NCI_RFST_DISCOVERY)
     (snd (nci_adapter_submit_mode_request (decls := nci_decls)
             true 7 2 reader_writer_requested)).
Proof.
  apply (proj2 (mode_request_discovery (decls := nci_decls) true 7 2
                  reader_writer_requested eq_refl
                  (fun E : 8 = 0 => ltac:(discriminate E))
                  (fun E : 16 = 0 => ltac:(discriminate E)))).
  split; [reflexivity | left; simpl; lia].
Defined.
